(** * SparkCity: the synthetic IoT data generator (scripts/generate_data.py)

    A shallow embedding of [SmartCityDataGenerator] and [main], and the
    properties of the data they generate.

    - Instants ([datetime]) are integer microsecond counts since
      0001-01-01T00:00:00 (a Monday), the resolution of Python's naive
      [datetime]; a [timedelta] is a microsecond count as well.  The
      generators take their series from [generate_timestamps], the loop
      without the range checks of datetime arithmetic;
      [generate_timestamps_bounded] is the loop with them.
    - Python floats are read as exact rationals ([Q]).  The only products of
      constants the control flow depends on, [base_count * 1.5] and
      [base_count * 0.7] for [base_count] in {15, 30}, are 22.5, 45.0, 10.5
      and 21.0 in binary64 too, so the comparisons agree.
    - [np.random] is a tape of standard variates read through a cursor; every
      sampling call consumes one entry.  A normal sample is
      [loc + scale * z], a uniform one [low + (high - low) * u] and an
      exponential one [scale * e], as in numpy.
    - [np.sin] at the multiples of pi/12 is a parameter.
    - A computation returns, raises or (when its loop budget is used up)
      diverges: [outcome].  Writing a file and printing a line may raise;
      which operations do is part of the environment ([Faults]).  The
      rendering of the tables as CSV, JSON and Parquet and the text of the
      printed lines are left out. *)

From Stdlib Require Import ZArith QArith Ascii String DecimalString List Sorted Bool Lia Lqa.
Import ListNotations.

Local Open Scope Z_scope.

(** * The program *)

(** ** Outcomes of Python computations *)

Inductive PyExn : Set :=
| ImportError
| ZeroDivisionError
| KeyError
| OSError
| OverflowError
| UnicodeEncodeError.

Inductive outcome (A : Type) : Type :=
| Returns (a : A)
| Raises (e : PyExn)
| Diverges.

Arguments Returns {A} a.
Arguments Raises {A} e.
Arguments Diverges {A}.

(** ** datetime and timedelta *)

Module Datetime.

Abbreviation datetime := Z (only parsing).
Abbreviation timedelta := Z (only parsing).

Definition MICROS_PER_MINUTE : Z := 60000000.
Definition MICROS_PER_HOUR : Z := 3600000000.
Definition MICROS_PER_DAY : Z := 86400000000.

Definition timedelta_minutes (minutes : Z) : timedelta :=
  minutes * MICROS_PER_MINUTE.

Definition timedelta_days (days : Z) : timedelta :=
  days * MICROS_PER_DAY.

(** [timestamp.hour] *)
Definition hour (t : datetime) : Z := (t / MICROS_PER_HOUR) mod 24.

(** [timestamp.weekday()]: Monday is 0, Sunday is 6. *)
Definition weekday (t : datetime) : Z := (t / MICROS_PER_DAY) mod 7.

End Datetime.
Export Datetime.

(** ** Configuration *)

Definition NUM_DAYS : Z := 7.

(** ** The generator object and its timestamp series *)

Record SmartCityDataGenerator : Set := mkGenerator {
  start_time : datetime;
  end_time : datetime
}.

(** [__init__]: the clock is read twice, first for [start_time], then for
    [end_time]. *)
Definition init (now_first now_second : datetime) : SmartCityDataGenerator :=
  {| start_time := now_first - timedelta_days NUM_DAYS;
     end_time := now_second |}.

(** The [while current < self.end_time] loop of [generate_timestamps], one
    iteration per unit of [fuel], on instants and intervals without bounds:
    the additions never raise.  By [generate_timestamps_bounded_agrees] this
    is what the loop with Python's range checks returns whenever that one
    returns, and by [window_series_agree] the two loops agree at the
    intervals of the generators on every window that starts at a datetime
    and ends at least 30 minutes before [datetime.max]. *)
Fixpoint timestamps_loop (fuel : nat) (stop : datetime) (step : timedelta)
    (current : datetime) (timestamps : list datetime)
  : outcome (list datetime) :=
  match fuel with
  | O => Diverges
  | S fuel' =>
      if current <? stop
      then timestamps_loop fuel' stop step (current + step)
             (timestamps ++ [current])
      else Returns timestamps
  end.

(** Iterations granted to the loop: two more than the quotient of the window
    by the step.  By [generate_timestamps_adequate] the budget never cuts a
    terminating run short. *)
Definition loop_budget (self : SmartCityDataGenerator) (step : timedelta)
  : nat :=
  (Z.to_nat ((end_time self - start_time self) / step) + 2)%nat.

Definition generate_timestamps (self : SmartCityDataGenerator)
    (interval_minutes : Z) : outcome (list datetime) :=
  let step := timedelta_minutes interval_minutes in
  timestamps_loop (loop_budget self step) (end_time self) step
    (start_time self) [].

(** *** The loop with the range checks of datetime arithmetic *)

(** [datetime.max], 9999-12-31T23:59:59.999999; [datetime.min] is 0. *)
Definition DATETIME_MAX : Z := 3652059 * MICROS_PER_DAY - 1.

Definition is_datetime (t : Z) : Prop := 0 <= t <= DATETIME_MAX.

(** The largest number of days a [timedelta] holds, in either direction. *)
Definition TIMEDELTA_MAX_DAYS : Z := 999999999.

(** [timedelta(minutes=interval_minutes)] for an integer argument: the
    normalised day count must not exceed [TIMEDELTA_MAX_DAYS] in
    magnitude. *)
Definition timedelta_of_minutes (interval_minutes : Z) : outcome timedelta :=
  let days := interval_minutes * MICROS_PER_MINUTE / MICROS_PER_DAY in
  if (- TIMEDELTA_MAX_DAYS <=? days) && (days <=? TIMEDELTA_MAX_DAYS)
  then Returns (interval_minutes * MICROS_PER_MINUTE)
  else Raises OverflowError.

(** [current + delta] on a datetime: the result must be a datetime. *)
Definition datetime_add (current : datetime) (delta : timedelta)
  : outcome datetime :=
  if (0 <=? current + delta) && (current + delta <=? DATETIME_MAX)
  then Returns (current + delta)
  else Raises OverflowError.

(** The loop of [generate_timestamps] as Python runs it: every iteration
    appends [current], builds the timedelta and adds it, and either of the
    two may raise [OverflowError]. *)
Fixpoint timestamps_loop_bounded (fuel : nat) (stop : datetime)
    (interval_minutes : Z) (current : datetime) (timestamps : list datetime)
  : outcome (list datetime) :=
  match fuel with
  | O => Diverges
  | S fuel' =>
      if current <? stop
      then
        match timedelta_of_minutes interval_minutes with
        | Returns delta =>
            match datetime_add current delta with
            | Returns next =>
                timestamps_loop_bounded fuel' stop interval_minutes next
                  (timestamps ++ [current])
            | Raises e => Raises e
            | Diverges => Diverges
            end
        | Raises e => Raises e
        | Diverges => Diverges
        end
      else Returns timestamps
  end.

(** Iterations granted to the bounded loop: with a positive step, two more
    than the quotient of the window by the step; with a negative one, two
    more than the number of steps from [start_time] down to
    [datetime.min]. *)
Definition loop_budget_bounded (self : SmartCityDataGenerator)
    (interval_minutes : Z) : nat :=
  let step := timedelta_minutes interval_minutes in
  if 0 <? step
  then (Z.to_nat ((end_time self - start_time self) / step) + 2)%nat
  else if step <? 0
  then (Z.to_nat (start_time self / (- step)) + 2)%nat
  else 2%nat.

Definition generate_timestamps_bounded (self : SmartCityDataGenerator)
    (interval_minutes : Z) : outcome (list datetime) :=
  timestamps_loop_bounded (loop_budget_bounded self interval_minutes)
    (end_time self) interval_minutes (start_time self) [].

(** *** Closed form of the series *)

(** Number of multiples of [step] from [current] on that lie below [stop]. *)
Definition steps_below (stop : datetime) (step : timedelta)
    (current : datetime) : nat :=
  Z.to_nat ((stop - current + step - 1) / step).

Fixpoint arithmetic_series (first : datetime) (step : timedelta) (n : nat)
  : list datetime :=
  match n with
  | O => []
  | S n' => first :: arithmetic_series (first + step) step n'
  end.

(** ** Python arithmetic on numbers *)

(** [int(x)] on a float: truncation towards zero. *)
Definition py_int (x : Q) : Z := Z.quot (Qnum x) (Zpos (Qden x)).

Definition Qltb (x y : Q) : bool := negb (Qle_bool y x).

(** [max(a, b)]: the first argument unless the second is greater. *)
Definition py_max (a b : Q) : Q := if Qltb a b then b else a.

(** [min(a, b)]: the first argument unless the second is smaller. *)
Definition py_min (a b : Q) : Q := if Qltb b a then b else a.

(** ** np.random and the computation monad *)

(** The variates the global [np.random] state will hand out, by position:
    standard normal, uniform on [0,1), standard exponential, and raw
    integers (for [choice]). *)
Record Tape : Type := mkTape {
  std_normal : nat -> Q;
  std_uniform : nat -> Q;
  std_exponential : nat -> Q;
  raw_integer : nat -> nat
}.

Record RandomState : Type := mkRandomState {
  tape : Tape;
  cursor : nat
}.

(** The ranges numpy documents for the standard variates. *)
Definition tape_in_range (tp : Tape) : Prop :=
  forall n,
    (0 <= std_uniform tp n)%Q /\ (std_uniform tp n < 1)%Q /\
    (0 <= std_exponential tp n)%Q.

Definition advance (rs : RandomState) : RandomState :=
  {| tape := tape rs; cursor := S (cursor rs) |}.

Definition M (A : Type) : Type := RandomState -> outcome (A * RandomState).

Definition ret {A} (a : A) : M A := fun rs => Returns (a, rs).

Definition bind {A B} (c : M A) (k : A -> M B) : M B :=
  fun rs =>
    match c rs with
    | Returns (a, rs') => k a rs'
    | Raises e => Raises e
    | Diverges => Diverges
    end.

(** A computation that does not touch the random state. *)
Definition lift {A} (o : outcome A) : M A :=
  fun rs =>
    match o with
    | Returns a => Returns (a, rs)
    | Raises e => Raises e
    | Diverges => Diverges
    end.

Notation "x <- c ;; k" := (bind c (fun x => k))
  (at level 61, c at next level, right associativity).

(** [np.random.normal(loc, scale)] *)
Definition np_random_normal (loc scale : Q) : M Q :=
  fun rs =>
    Returns ((loc + scale * std_normal (tape rs) (cursor rs))%Q, advance rs).

(** [np.random.uniform(low, high)] *)
Definition np_random_uniform (low high : Q) : M Q :=
  fun rs =>
    Returns ((low + (high - low) * std_uniform (tape rs) (cursor rs))%Q,
             advance rs).

(** [np.random.exponential(scale)] *)
Definition np_random_exponential (scale : Q) : M Q :=
  fun rs =>
    Returns ((scale * std_exponential (tape rs) (cursor rs))%Q, advance rs).

(** [np.random.random()] *)
Definition np_random_random : M Q :=
  fun rs => Returns (std_uniform (tape rs) (cursor rs), advance rs).

(** [np.random.choice(a)] on a list of strings. *)
Definition np_random_choice (a : list string) : M string :=
  fun rs =>
    Returns (nth (raw_integer (tape rs) (cursor rs) mod length a) a
               EmptyString,
             advance rs).

(** A [for] loop (or a list comprehension) whose body contributes one item
    per element, collected in iteration order. *)
Fixpoint for_each {A B} (xs : list A) (body : A -> M B) : M (list B) :=
  match xs with
  | [] => ret []
  | x :: xs' =>
      item <- body x ;;
      items <- for_each xs' body ;;
      ret (item :: items)
  end.

(** ** Shared constants and formatting *)

Definition CITY_LAT_MIN : Q := 40.7000.
Definition CITY_LAT_MAX : Q := 40.8000.
Definition CITY_LON_MIN : Q := -74.0200.
Definition CITY_LON_MAX : Q := -73.9000.

Fixpoint zeros (n : nat) : string :=
  match n with
  | O => EmptyString
  | S n' => String "0"%char (zeros n')
  end.

(** The format specification [{i:0<width>d}] of an f-string. *)
Definition format_d (width : nat) (i : nat) : string :=
  let digits := NilZero.string_of_uint (Nat.to_uint i) in
  String.append (zeros (width - String.length digits)) digits.

(** [(7 <= hour <= 9) or (17 <= hour <= 19)] *)
Definition is_rush_hour (hour : Z) : bool :=
  ((7 <=? hour) && (hour <=? 9)) || ((17 <=? hour) && (hour <=? 19)).

(** [timestamp.weekday() >= 5] *)
Definition is_weekend (timestamp : datetime) : bool :=
  5 <=? weekday timestamp.

(** ** Traffic sensors *)

Module TrafficSensor.
Record t : Type := mk {
  sensor_id : string;
  lat : Q;
  lon : Q;
  road_type : string
}.
End TrafficSensor.

(** A row of traffic_sensors.csv.  [timestamp] holds the instant whose
    [isoformat()] the script stores. *)
Module TrafficRecord.
Record t : Type := mk {
  sensor_id : string;
  timestamp : datetime;
  location_lat : Q;
  location_lon : Q;
  vehicle_count : Z;
  avg_speed : Q;
  congestion_level : string;
  road_type : string
}.
End TrafficRecord.

Definition ROAD_TYPES : list string :=
  ["highway"; "arterial"; "residential"; "commercial"]%string.

Definition traffic_sensor_locations : M (list TrafficSensor.t) :=
  for_each (seq 1 50) (fun i =>
    lat <- np_random_uniform CITY_LAT_MIN CITY_LAT_MAX ;;
    lon <- np_random_uniform CITY_LON_MIN CITY_LON_MAX ;;
    road_type <- np_random_choice ROAD_TYPES ;;
    ret {| TrafficSensor.sensor_id :=
             String.append "TRAFFIC_" (format_d 3 i);
           TrafficSensor.lat := lat;
           TrafficSensor.lon := lon;
           TrafficSensor.road_type := road_type |}).

(** [30 if sensor["road_type"] == "highway" else 15] *)
Definition base_count_of (road_type : string) : Z :=
  if String.eqb road_type "highway" then 30 else 15.

(** ["high" if vehicle_count > base_count * 1.5 else "medium"] *)
Definition congestion_rush (vehicle_count base_count : Z) : string :=
  if Qltb (inject_Z base_count * 1.5) (inject_Z vehicle_count)
  then "high"%string else "medium"%string.

(** ["low" if vehicle_count < base_count * 0.7 else "medium"] *)
Definition congestion_calm (vehicle_count base_count : Z) : string :=
  if Qltb (inject_Z vehicle_count) (inject_Z base_count * 0.7)
  then "low"%string else "medium"%string.

(** The body of the loop nest of [generate_traffic_sensors]. *)
Definition traffic_reading (timestamp : datetime) (sensor : TrafficSensor.t)
  : M TrafficRecord.t :=
  let hour := hour timestamp in
  let is_rush_hour := is_rush_hour hour in
  let is_weekend := is_weekend timestamp in
  let base_count := base_count_of (TrafficSensor.road_type sensor) in
  sampled <-
    (if is_rush_hour && negb is_weekend then
       count <- np_random_normal (inject_Z (base_count * 2))
                  (inject_Z base_count * 0.3) ;;
       let vehicle_count := py_int count in
       speed <- np_random_normal 25 10 ;;
       let avg_speed := py_max 10 speed in
       let congestion := congestion_rush vehicle_count base_count in
       ret (vehicle_count, avg_speed, congestion)
     else
       count <- np_random_normal (inject_Z base_count)
                  (inject_Z base_count * 0.4) ;;
       let vehicle_count := py_int count in
       avg_speed <- np_random_normal 50 15 ;;
       let congestion := congestion_calm vehicle_count base_count in
       ret (vehicle_count, avg_speed, congestion)) ;;
  let '(vehicle_count, avg_speed, congestion) := sampled in
  ret {| TrafficRecord.sensor_id := TrafficSensor.sensor_id sensor;
         TrafficRecord.timestamp := timestamp;
         TrafficRecord.location_lat := TrafficSensor.lat sensor;
         TrafficRecord.location_lon := TrafficSensor.lon sensor;
         TrafficRecord.vehicle_count := Z.max 0 vehicle_count;
         TrafficRecord.avg_speed := py_max 5 avg_speed;
         TrafficRecord.congestion_level := congestion;
         TrafficRecord.road_type := TrafficSensor.road_type sensor |}.

(** The list [traffic_data] that [generate_traffic_sensors] builds and hands
    to the CSV writer. *)
Definition traffic_data (self : SmartCityDataGenerator)
  : M (list TrafficRecord.t) :=
  sensor_locations <- traffic_sensor_locations ;;
  timestamps <- lift (generate_timestamps self 5) ;;
  rows <- for_each timestamps (fun timestamp =>
            for_each sensor_locations (fun sensor =>
              traffic_reading timestamp sensor)) ;;
  ret (concat rows).

(** ** Air quality monitors *)

Module Monitor.
Record t : Type := mk {
  sensor_id : string;
  lat : Q;
  lon : Q
}.
End Monitor.

(** An object of air_quality.json. *)
Module AirQualityRecord.
Record t : Type := mk {
  sensor_id : string;
  timestamp : datetime;
  location_lat : Q;
  location_lon : Q;
  pm25 : Q;
  pm10 : Q;
  no2 : Q;
  co : Q;
  temperature : Q;
  humidity : Q
}.
End AirQualityRecord.

Definition air_quality_monitor_locations : M (list Monitor.t) :=
  for_each (seq 1 20) (fun i =>
    lat <- np_random_uniform CITY_LAT_MIN CITY_LAT_MAX ;;
    lon <- np_random_uniform CITY_LON_MIN CITY_LON_MAX ;;
    ret {| Monitor.sensor_id := String.append "AQ_" (format_d 3 i);
           Monitor.lat := lat;
           Monitor.lon := lon |}).

(** The body of the loop nest of [generate_air_quality_data]. *)
Definition air_quality_reading (timestamp : datetime) (monitor : Monitor.t)
  : M AirQualityRecord.t :=
  let hour := hour timestamp in
  let is_rush_hour := is_rush_hour hour in
  let pollution_factor := (if is_rush_hour then 1.3 else 1.0)%Q in
  pm25 <- np_random_normal (25 * pollution_factor) 8 ;;
  pm10 <- np_random_normal (40 * pollution_factor) 12 ;;
  no2 <- np_random_normal (30 * pollution_factor) 10 ;;
  co <- np_random_normal (1.2 * pollution_factor) 0.4 ;;
  temperature <- np_random_normal 20 8 ;;
  humidity <- np_random_uniform 30 80 ;;
  ret {| AirQualityRecord.sensor_id := Monitor.sensor_id monitor;
         AirQualityRecord.timestamp := timestamp;
         AirQualityRecord.location_lat := Monitor.lat monitor;
         AirQualityRecord.location_lon := Monitor.lon monitor;
         AirQualityRecord.pm25 := py_max 0 pm25;
         AirQualityRecord.pm10 := py_max 0 pm10;
         AirQualityRecord.no2 := py_max 0 no2;
         AirQualityRecord.co := py_max 0 co;
         AirQualityRecord.temperature := temperature;
         AirQualityRecord.humidity := humidity |}.

(** The list [air_quality_data] that [generate_air_quality_data] builds and
    dumps as JSON. *)
Definition air_quality_data (self : SmartCityDataGenerator)
  : M (list AirQualityRecord.t) :=
  monitor_locations <- air_quality_monitor_locations ;;
  timestamps <- lift (generate_timestamps self 15) ;;
  rows <- for_each timestamps (fun timestamp =>
            for_each monitor_locations (fun monitor =>
              air_quality_reading timestamp monitor)) ;;
  ret (concat rows).

(** ** Weather stations *)

Module Station.
Record t : Type := mk {
  station_id : string;
  lat : Q;
  lon : Q
}.
End Station.

(** A row of weather_data.parquet. *)
Module WeatherRecord.
Record t : Type := mk {
  station_id : string;
  timestamp : datetime;
  location_lat : Q;
  location_lon : Q;
  temperature : Q;
  humidity : Q;
  wind_speed : Q;
  wind_direction : Q;
  precipitation : Q;
  pressure : Q
}.
End WeatherRecord.

Definition weather_station_locations : M (list Station.t) :=
  for_each (seq 1 10) (fun i =>
    lat <- np_random_uniform CITY_LAT_MIN CITY_LAT_MAX ;;
    lon <- np_random_uniform CITY_LON_MIN CITY_LON_MAX ;;
    ret {| Station.station_id := String.append "WEATHER_" (format_d 3 i);
           Station.lat := lat;
           Station.lon := lon |}).

Section Weather.

(** [np_sin_pi_12 k] stands for the float [np.sin(k * np.pi / 12)]; the
    sine is not computed here. *)
Variable np_sin_pi_12 : Z -> Q.

(** [base_temp + np.random.normal(0, 3) + hour_factor * 5], from the normal
    sample already drawn. *)
Definition day_temp_of (timestamp : datetime) (noise : Q) : Q :=
  let base_temp := 20%Q in
  let hour_factor := (np_sin_pi_12 (hour timestamp - 6) * 0.3)%Q in
  (base_temp + noise + hour_factor * 5)%Q.

(** The body of the inner loop of [generate_weather_data]: one station at a
    timestamp whose [day_temp] is already known.  The condition of the
    conditional expression for [precipitation] is evaluated before its
    branch. *)
Definition weather_reading (timestamp : datetime) (day_temp : Q)
    (station : Station.t) : M WeatherRecord.t :=
  temp_noise <- np_random_normal 0 1 ;;
  humidity <- np_random_normal 60 15 ;;
  wind_speed <- np_random_exponential 8 ;;
  wind_direction <- np_random_uniform 0 360 ;;
  chance <- np_random_random ;;
  precipitation <-
    (if Qltb chance 0.1 then
       rain <- np_random_exponential 0.5 ;;
       ret (py_max 0 rain)
     else ret 0%Q) ;;
  pressure <- np_random_normal 1013.25 10 ;;
  ret {| WeatherRecord.station_id := Station.station_id station;
         WeatherRecord.timestamp := timestamp;
         WeatherRecord.location_lat := Station.lat station;
         WeatherRecord.location_lon := Station.lon station;
         WeatherRecord.temperature := (day_temp + temp_noise)%Q;
         WeatherRecord.humidity := py_max 20 (py_min 100 humidity);
         WeatherRecord.wind_speed := py_max 0 wind_speed;
         WeatherRecord.wind_direction := wind_direction;
         WeatherRecord.precipitation := precipitation;
         WeatherRecord.pressure := pressure |}.

(** The body of the outer loop: [day_temp] is drawn once, then every station
    is visited. *)
Definition weather_at (station_locations : list Station.t)
    (timestamp : datetime) : M (list WeatherRecord.t) :=
  noise <- np_random_normal 0 3 ;;
  let day_temp := day_temp_of timestamp noise in
  for_each station_locations (fun station =>
    weather_reading timestamp day_temp station).

(** The list [weather_data] that [generate_weather_data] builds and writes
    as Parquet. *)
Definition weather_data (self : SmartCityDataGenerator)
  : M (list WeatherRecord.t) :=
  station_locations <- weather_station_locations ;;
  timestamps <- lift (generate_timestamps self 30) ;;
  rows <- for_each timestamps (weather_at station_locations) ;;
  ret (concat rows).

End Weather.

(** ** Energy meters *)

Module Meter.
Record t : Type := mk {
  meter_id : string;
  lat : Q;
  lon : Q;
  building_type : string
}.
End Meter.

(** A row of energy_meters.csv. *)
Module EnergyRecord.
Record t : Type := mk {
  meter_id : string;
  timestamp : datetime;
  building_type : string;
  location_lat : Q;
  location_lon : Q;
  power_consumption : Q;
  voltage : Q;
  current : Q;
  power_factor : Q
}.
End EnergyRecord.

Definition BUILDING_TYPES : list string :=
  ["residential"; "commercial"; "industrial"; "office"; "retail"]%string.

(** The dict literal of base consumptions, in kW. *)
Definition BASE_CONSUMPTION : list (string * Q) :=
  [("residential", 3.0); ("commercial", 15.0); ("industrial", 50.0);
   ("office", 20.0); ("retail", 25.0)]%string%Q.

(** Subscription [d[key]] of a dict with string keys. *)
Fixpoint dict_getitem (d : list (string * Q)) (key : string) : outcome Q :=
  match d with
  | [] => Raises KeyError
  | (k, v) :: d' => if String.eqb k key then Returns v else dict_getitem d' key
  end.

(** True division [x / y] of floats. *)
Definition py_truediv (x y : Q) : outcome Q :=
  if Qeq_bool y 0 then Raises ZeroDivisionError else Returns (x / y)%Q.

(** [8 <= hour <= 18] *)
Definition is_business_hours (hour : Z) : bool :=
  (8 <=? hour) && (hour <=? 18).

(** The time-pattern adjustment of [generate_energy_data]. *)
Definition consumption_factor (building_type : string) (hour : Z)
    (is_weekend : bool) : Q :=
  if existsb (String.eqb building_type)
       ["commercial"; "office"; "retail"]%string
  then
    if is_business_hours hour && negb is_weekend then 1.5 else 0.3
  else
    if String.eqb building_type "industrial" then 1.0
    else if (18 <=? hour) && (hour <=? 22) then 1.2 else 0.8.

Definition energy_meter_locations : M (list Meter.t) :=
  for_each (seq 1 200) (fun i =>
    lat <- np_random_uniform CITY_LAT_MIN CITY_LAT_MAX ;;
    lon <- np_random_uniform CITY_LON_MIN CITY_LON_MAX ;;
    building_type <- np_random_choice BUILDING_TYPES ;;
    ret {| Meter.meter_id := String.append "ENERGY_" (format_d 4 i);
           Meter.lat := lat;
           Meter.lon := lon;
           Meter.building_type := building_type |}).

(** The body of the loop nest of [generate_energy_data]. *)
Definition energy_reading (timestamp : datetime) (meter : Meter.t)
  : M EnergyRecord.t :=
  let hour := hour timestamp in
  let is_weekend := is_weekend timestamp in
  base_consumption <-
    lift (dict_getitem BASE_CONSUMPTION (Meter.building_type meter)) ;;
  let consumption_factor :=
    consumption_factor (Meter.building_type meter) hour is_weekend in
  load <- np_random_uniform 0.7 1.3 ;;
  let power_consumption := (base_consumption * consumption_factor * load)%Q in
  voltage <- np_random_normal 240 5 ;;
  quotient <- lift (py_truediv power_consumption voltage) ;;
  let current := (quotient * 1000)%Q in
  power_factor <- np_random_uniform 0.85 0.95 ;;
  ret {| EnergyRecord.meter_id := Meter.meter_id meter;
         EnergyRecord.timestamp := timestamp;
         EnergyRecord.building_type := Meter.building_type meter;
         EnergyRecord.location_lat := Meter.lat meter;
         EnergyRecord.location_lon := Meter.lon meter;
         EnergyRecord.power_consumption := power_consumption;
         EnergyRecord.voltage := voltage;
         EnergyRecord.current := current;
         EnergyRecord.power_factor := power_factor |}.

(** The list [energy_data] that [generate_energy_data] builds and hands to
    the CSV writer. *)
Definition energy_data (self : SmartCityDataGenerator)
  : M (list EnergyRecord.t) :=
  meter_locations <- energy_meter_locations ;;
  timestamps <- lift (generate_timestamps self 10) ;;
  rows <- for_each timestamps (fun timestamp =>
            for_each meter_locations (fun meter =>
              energy_reading timestamp meter)) ;;
  ret (concat rows).

(** ** City zones *)

Module Zone.
Record t : Type := mk {
  zone_id : string;
  zone_name : string;
  zone_type : string;
  lat_min : Q;
  lat_max : Q;
  lon_min : Q;
  lon_max : Q;
  population : Z
}.
End Zone.

Definition zones_data : list Zone.t :=
  [ Zone.mk "ZONE_001" "Downtown" "commercial"
      40.7200 40.7400 (-74.0100) (-73.9900) 25000;
    Zone.mk "ZONE_002" "Financial District" "commercial"
      40.7000 40.7200 (-74.0200) (-74.0000) 15000;
    Zone.mk "ZONE_003" "Residential North" "residential"
      40.7600 40.8000 (-74.0000) (-73.9800) 45000;
    Zone.mk "ZONE_004" "Residential South" "residential"
      40.7000 40.7200 (-73.9800) (-73.9600) 38000;
    Zone.mk "ZONE_005" "Industrial Park" "industrial"
      40.7400 40.7600 (-74.0200) (-74.0000) 5000;
    Zone.mk "ZONE_006" "Tech Campus" "commercial"
      40.7600 40.7800 (-73.9800) (-73.9600) 12000;
    Zone.mk "ZONE_007" "University Area" "mixed"
      40.7200 40.7400 (-73.9600) (-73.9400) 22000;
    Zone.mk "ZONE_008" "Shopping District" "retail"
      40.7400 40.7600 (-73.9600) (-73.9400) 8000 ].

(** ** Files, orchestration and the entry point *)

(** The operations on the file system and the console, each of which may
    fail.  [PrintAt n] is the [print] call at line [n] of the script;
    [ListDataDir] is the listing of the directory with the size query of
    each file, and [PrintAt 289] the line printed for each file.  An
    operation that is repeated fails at its first occurrence or not at
    all. *)
Inductive IoStep : Set :=
| MakeDataDir
| WriteTrafficCsv
| WriteAirQualityJson
| WriteWeatherParquet
| WriteEnergyCsv
| WriteZonesCsv
| ListDataDir
| PrintAt (line : nat).

(** What the environment does to each operation: [None] lets it succeed,
    [Some e] makes it raise [e]. *)
Definition Faults : Set := IoStep -> option PyExn.

Definition io (faults : Faults) (step : IoStep) : M unit :=
  fun rs =>
    match faults step with
    | Some e => Raises e
    | None => Returns (tt, rs)
    end.

(** The five tables written under data/raw. *)
Record Datasets : Type := mkDatasets {
  traffic_sensors_csv : list TrafficRecord.t;
  air_quality_json : list AirQualityRecord.t;
  weather_data_parquet : list WeatherRecord.t;
  energy_meters_csv : list EnergyRecord.t;
  city_zones_csv : list Zone.t
}.

(** The process and its surroundings: whether the modules imported at the
    top of the script are installed, the two clock readings of [__init__],
    the file system's behaviour and the state of [np.random]. *)
Record World : Type := mkWorld {
  modules_installed : bool;
  clock_first : datetime;
  clock_second : datetime;
  faults : Faults;
  random_state : RandomState
}.

Section Orchestration.

Variable np_sin_pi_12 : Z -> Q.
Variable env : Faults.

(** [SmartCityDataGenerator()]: the two clock readings, the directory and
    the three lines of the banner. *)
Definition new_generator (now_first now_second : datetime)
  : M SmartCityDataGenerator :=
  let self := init now_first now_second in
  _ <- io env MakeDataDir ;;
  _ <- io env (PrintAt 37) ;;
  _ <- io env (PrintAt 38) ;;
  _ <- io env (PrintAt 39) ;;
  ret self.

(** Each generator announces itself, builds its table, writes it, reports
    the number of records and returns the table it has written. *)
Definition generate_traffic_sensors (self : SmartCityDataGenerator)
  : M (list TrafficRecord.t) :=
  _ <- io env (PrintAt 52) ;;
  data <- traffic_data self ;;
  _ <- io env WriteTrafficCsv ;;
  _ <- io env (PrintAt 97) ;;
  ret data.

Definition generate_air_quality_data (self : SmartCityDataGenerator)
  : M (list AirQualityRecord.t) :=
  _ <- io env (PrintAt 101) ;;
  data <- air_quality_data self ;;
  _ <- io env WriteAirQualityJson ;;
  _ <- io env (PrintAt 137) ;;
  ret data.

Definition generate_weather_data (self : SmartCityDataGenerator)
  : M (list WeatherRecord.t) :=
  _ <- io env (PrintAt 141) ;;
  data <- weather_data np_sin_pi_12 self ;;
  _ <- io env WriteWeatherParquet ;;
  _ <- io env (PrintAt 178) ;;
  ret data.

Definition generate_energy_data (self : SmartCityDataGenerator)
  : M (list EnergyRecord.t) :=
  _ <- io env (PrintAt 182) ;;
  data <- energy_data self ;;
  _ <- io env WriteEnergyCsv ;;
  _ <- io env (PrintAt 241) ;;
  ret data.

Definition generate_city_zones : M (list Zone.t) :=
  _ <- io env (PrintAt 245) ;;
  _ <- io env WriteZonesCsv ;;
  _ <- io env (PrintAt 269) ;;
  ret zones_data.

(** [generate_all_data]: the five generators in turn between the opening
    and the closing lines, then the listing of the directory with one line
    per file. *)
Definition generate_all_data (self : SmartCityDataGenerator) : M Datasets :=
  _ <- io env (PrintAt 273) ;;
  traffic <- generate_traffic_sensors self ;;
  air <- generate_air_quality_data self ;;
  weather <- generate_weather_data self ;;
  energy <- generate_energy_data self ;;
  zones <- generate_city_zones ;;
  _ <- io env (PrintAt 281) ;;
  _ <- io env (PrintAt 282) ;;
  _ <- io env (PrintAt 283) ;;
  _ <- io env ListDataDir ;;
  _ <- io env (PrintAt 289) ;;
  ret {| traffic_sensors_csv := traffic;
         air_quality_json := air;
         weather_data_parquet := weather;
         energy_meters_csv := energy;
         city_zones_csv := zones |}.

(** The body of the [try] statement of [main]. *)
Definition try_body (now_first now_second : datetime) : M Datasets :=
  generator <- new_generator now_first now_second ;;
  datasets <- generate_all_data generator ;;
  _ <- io env (PrintAt 297) ;;
  _ <- io env (PrintAt 298) ;;
  ret datasets.

End Orchestration.

Definition PyExn_is_ImportError (e : PyExn) : bool :=
  match e with
  | ImportError => true
  | _ => false
  end.

(** The handlers of [main]: [except ImportError] prints and falls through to
    the final [return 0]; [except Exception] returns 1. *)
Definition handle (e : PyExn) : Z :=
  match e with
  | ImportError => 0
  | _ => 1
  end.

(** The [except] clauses of [main] with their own [print] calls, which are
    not protected by any handler: [except ImportError] prints two lines and
    falls through to the final [return 0]; [except Exception] prints one
    line and returns 1. *)
Definition except_clauses (env : Faults) (e : PyExn) : M Z :=
  if PyExn_is_ImportError e
  then
    _ <- io env (PrintAt 301) ;;
    _ <- io env (PrintAt 302) ;;
    ret 0
  else
    _ <- io env (PrintAt 304) ;;
    ret 1.

(** [main()]: the value it returns, or the exception that escapes it. *)
Definition main (np_sin_pi_12 : Z -> Q) (w : World) : outcome Z :=
  let run : M Z :=
    fun rs =>
      match try_body np_sin_pi_12 (faults w) (clock_first w) (clock_second w)
              rs with
      | Returns (_, rs') => Returns (0, rs')
      | Raises e => except_clauses (faults w) e rs
      | Diverges => Diverges
      end in
  match run (random_state w) with
  | Returns (status, _) => Returns status
  | Raises e => Raises e
  | Diverges => Diverges
  end.

(** Running the script: the [import] statements at the top are outside any
    [try], so a missing module ends the interpreter with status 1, as does
    an exception that escapes [main]; otherwise [exit(main())]. *)
Definition script (np_sin_pi_12 : Z -> Q) (w : World) : outcome Z :=
  if modules_installed w
  then
    match main np_sin_pi_12 w with
    | Returns status => Returns status
    | Raises _ => Returns 1
    | Diverges => Diverges
    end
  else Returns 1.

(** * Specification devices *)

(** ** Sample inputs *)

(** A tape whose variates cycle through a few values within the documented
    ranges. *)
Definition sample_tape : Tape :=
  {| std_normal := fun n => ((Z.of_nat (n mod 7) - 3) # 2);
     std_uniform := fun n => (Z.of_nat (n mod 10) # 10);
     std_exponential := fun n => (Z.of_nat (n mod 5) # 2);
     raw_integer := fun n => n |}.

Definition sample_random_state : RandomState :=
  {| tape := sample_tape; cursor := 0 |}.

(** A tape whose normal variate is always -48, which makes every
    [np.random.normal(240, 5)] exactly 0. *)
Definition zero_voltage_tape : Tape :=
  {| std_normal := fun _ => (-48)%Q;
     std_uniform := fun _ => 0%Q;
     std_exponential := fun _ => 0%Q;
     raw_integer := fun _ => O |}.

(** Four-decimal values of the sine at multiples of pi/12, by quarter-turn
    symmetry. *)
Definition sample_sin_pi_12 (k : Z) : Q :=
  let quarter (j : Z) : Q :=
    match j with
    | 0 => 0%Q | 1 => 0.2588%Q | 2 => 0.5%Q | 3 => 0.7071%Q
    | 4 => 0.8660%Q | 5 => 0.9659%Q | _ => 1%Q
    end in
  let r := k mod 24 in
  if r <=? 6 then quarter r
  else if r <=? 12 then quarter (12 - r)
  else if r <=? 18 then Qopp (quarter (r - 12))
  else Qopp (quarter (24 - r)).

(** Monday 2024-03-04, 00:00:00. *)
Definition monday_midnight : datetime := 63845107200000000.

(** A generator whose window is the ten minutes from Monday 08:00. *)
Definition ten_minute_window : SmartCityDataGenerator :=
  {| start_time := monday_midnight + 8 * MICROS_PER_HOUR;
     end_time := monday_midnight + 8 * MICROS_PER_HOUR + timedelta_minutes 10 |}.

(** ** Postconditions of the loop bodies *)

(** [rush_branch timestamp] tells which branch of the traffic generator's
    conditional a timestamp takes. *)
Definition rush_branch (timestamp : datetime) : bool :=
  is_rush_hour (hour timestamp) && negb (is_weekend timestamp).

(** What [traffic_reading timestamp sensor] guarantees about its record;
    [raw] is the truncated sample before clamping. *)
Definition traffic_post (timestamp : datetime) (sensor : TrafficSensor.t)
    (r : TrafficRecord.t) : Prop :=
  TrafficRecord.timestamp r = timestamp /\
  TrafficRecord.road_type r = TrafficSensor.road_type sensor /\
  (5 <= TrafficRecord.avg_speed r)%Q /\
  exists raw,
    TrafficRecord.vehicle_count r = Z.max 0 raw /\
    TrafficRecord.congestion_level r =
    (if rush_branch timestamp
     then congestion_rush raw (base_count_of (TrafficSensor.road_type sensor))
     else congestion_calm raw (base_count_of (TrafficSensor.road_type sensor))).

(** What [air_quality_reading timestamp monitor] guarantees on a tape [tp]:
    the pollutants are not negative and [humidity] is the uniform sample
    itself, read at some position [c]. *)
Definition air_quality_post (tp : Tape) (timestamp : datetime)
    (monitor : Monitor.t) (r : AirQualityRecord.t) : Prop :=
  AirQualityRecord.timestamp r = timestamp /\
  (0 <= AirQualityRecord.pm25 r)%Q /\
  (0 <= AirQualityRecord.pm10 r)%Q /\
  (0 <= AirQualityRecord.no2 r)%Q /\
  (0 <= AirQualityRecord.co r)%Q /\
  exists c,
    AirQualityRecord.humidity r = (30 + (80 - 30) * std_uniform tp c)%Q.

(** What [energy_reading timestamp meter] guarantees when it returns: the
    load factor is the uniform sample at some position [c], the voltage the
    normal sample right after it. *)
Definition energy_post (tp : Tape) (timestamp : datetime) (meter : Meter.t)
    (r : EnergyRecord.t) : Prop :=
  EnergyRecord.timestamp r = timestamp /\
  EnergyRecord.building_type r = Meter.building_type meter /\
  In (EnergyRecord.building_type r) BUILDING_TYPES /\
  exists base c,
    dict_getitem BASE_CONSUMPTION (EnergyRecord.building_type r)
    = Returns base /\
    EnergyRecord.power_consumption r =
    (base *
     consumption_factor (EnergyRecord.building_type r) (hour timestamp)
       (is_weekend timestamp) *
     (0.7 + (1.3 - 0.7) * std_uniform tp c))%Q /\
    EnergyRecord.voltage r = (240 + 5 * std_normal tp (S c))%Q /\
    ~ (EnergyRecord.voltage r == 0)%Q /\
    EnergyRecord.current r =
    (EnergyRecord.power_consumption r / EnergyRecord.voltage r * 1000)%Q.

(** The exceptions [energy_reading] may raise on a tape [tp]:
    [ZeroDivisionError], and only when some sampled voltage is zero. *)
Definition zero_voltage_raised (tp : Tape) (e : PyExn) : Prop :=
  e = ZeroDivisionError /\
  exists c, (240 + 5 * std_normal tp c == 0)%Q.

(** What [weather_reading timestamp day_temp station] guarantees when it
    starts at tape position [c]. *)
Definition weather_post (tp : Tape) (timestamp : datetime) (day_temp : Q)
    (c : nat) (r : WeatherRecord.t) : Prop :=
  WeatherRecord.timestamp r = timestamp /\
  WeatherRecord.temperature r = (day_temp + (0 + 1 * std_normal tp c))%Q /\
  (20 <= WeatherRecord.humidity r)%Q /\
  (WeatherRecord.humidity r <= 100)%Q /\
  (0 <= WeatherRecord.wind_speed r)%Q /\
  (0 <= WeatherRecord.precipitation r)%Q.

(** The tape positions behind the temperatures of one timestamp: that of the
    sample in [day_temp], then those of the stations' own samples. *)
Definition block_cursors (b : nat * list nat) : list nat := fst b :: snd b.

(** The records [row] of one timestamp all add their own sample to the one
    [day_temp] built from the sample at position [fst b]. *)
Definition weather_block_post (np_sin_pi_12 : Z -> Q) (tp : Tape)
    (timestamp : datetime) (b : nat * list nat)
    (row : list WeatherRecord.t) : Prop :=
  Forall2
    (weather_post tp timestamp
       (day_temp_of np_sin_pi_12 timestamp (0 + 3 * std_normal tp (fst b))))
    (snd b) row.

(** ** Total correctness of a run *)

(** [satisfies o Post E]: the run [o] ends; if it returns, value and final
    state satisfy [Post]; if it raises, the exception satisfies [E]. *)
Definition satisfies {A} (o : outcome (A * RandomState))
    (Post : A -> RandomState -> Prop) (E : PyExn -> Prop) : Prop :=
  match o with
  | Returns (a, rs') => Post a rs'
  | Raises e => E e
  | Diverges => False
  end.

Definition never : PyExn -> Prop := fun _ => False.


(** ** The specification's wording *)

(** The congestion rule as the specification words it: on the rush-hour
    weekday branch the level is "high" exactly when the count exceeds 1.5
    times the base count and "medium" otherwise; on the other branch it is
    "low" exactly when the count is below 0.7 times the base count and
    "medium" otherwise. *)
Definition congestion_matches (rush : bool) (level : string)
    (vehicle_count base_count : Z) : Prop :=
  let count := inject_Z vehicle_count in
  let base := inject_Z base_count in
  if rush then
    (level = "high"%string <-> (base * 1.5 < count)%Q) /\
    (level = "medium"%string <-> (count <= base * 1.5)%Q)
  else
    (level = "low"%string <-> (count < base * 0.7)%Q) /\
    (level = "medium"%string <-> (base * 0.7 <= count)%Q).

(** The consumption factor as the specification tabulates it, by building
    type; [None] for a type the table does not list. *)
Definition spec_consumption_factor (building_type : string) (hour : Z)
    (weekend : bool) : option Q :=
  let business := (8 <=? hour) && (hour <=? 18) in
  let evening := (18 <=? hour) && (hour <=? 22) in
  if String.eqb building_type "commercial"
     || String.eqb building_type "office"
     || String.eqb building_type "retail"
  then Some (if business && negb weekend then 1.5 else 0.3)%Q
  else if String.eqb building_type "industrial" then Some 1.0%Q
  else if String.eqb building_type "residential"
  then Some (if evening then 1.2 else 0.8)%Q
  else None.

(** ** A run in which the Parquet writer cannot import its engine *)

Definition parquet_engine_missing : Faults :=
  fun step =>
    match step with
    | WriteWeatherParquet => Some ImportError
    | _ => None
    end.

Definition import_error_world : World :=
  {| modules_installed := true;
     clock_first := monday_midnight + 8 * MICROS_PER_HOUR;
     clock_second := monday_midnight + 8 * MICROS_PER_HOUR + 3;
     faults := parquet_engine_missing;
     random_state := sample_random_state |}.

(** ** Proof automation *)

(** Runs the samplers of a loop body: each returns, one tape entry further. *)
Ltac run_samplers :=
  cbv [bind ret lift np_random_normal np_random_uniform
       np_random_exponential np_random_random np_random_choice
       satisfies advance];
  cbn [tape cursor].


(** ** Identifiers, positions and the layout of the tables *)

(** The identifiers the four location lists are built with. *)
Definition traffic_sensor_ids : list string :=
  map (fun i => String.append "TRAFFIC_" (format_d 3 i)) (seq 1 50).

Definition air_quality_monitor_ids : list string :=
  map (fun i => String.append "AQ_" (format_d 3 i)) (seq 1 20).

Definition weather_station_ids : list string :=
  map (fun i => String.append "WEATHER_" (format_d 3 i)) (seq 1 10).


(** Decides whether the strings of a list are pairwise different. *)
Fixpoint distinctb (l : list string) : bool :=
  match l with
  | [] => true
  | x :: l' => negb (existsb (String.eqb x) l') && distinctb l'
  end.

(** The bounding box of the city. *)
Definition in_city (lat lon : Q) : Prop :=
  (CITY_LAT_MIN <= lat)%Q /\ (lat <= CITY_LAT_MAX)%Q /\
  (CITY_LON_MIN <= lon)%Q /\ (lon <= CITY_LON_MAX)%Q.

(** [lat] and [lon] are the two uniform samples drawn at tape positions [c]
    and [c + 1]. *)
Definition drawn_position (tp : Tape) (c : nat) (lat lon : Q) : Prop :=
  lat = (CITY_LAT_MIN + (CITY_LAT_MAX - CITY_LAT_MIN) * std_uniform tp c)%Q /\
  lon = (CITY_LON_MIN + (CITY_LON_MAX - CITY_LON_MIN)
                        * std_uniform tp (S c))%Q.

(** What the comprehensions building the location lists guarantee of their
    [i]-th item. *)
Definition traffic_sensor_post (tp : Tape) (i : nat) (s : TrafficSensor.t)
  : Prop :=
  TrafficSensor.sensor_id s = String.append "TRAFFIC_" (format_d 3 i) /\
  (exists c, drawn_position tp c (TrafficSensor.lat s) (TrafficSensor.lon s))
  /\ In (TrafficSensor.road_type s) ROAD_TYPES.

Definition monitor_post (tp : Tape) (i : nat) (m : Monitor.t) : Prop :=
  Monitor.sensor_id m = String.append "AQ_" (format_d 3 i) /\
  exists c, drawn_position tp c (Monitor.lat m) (Monitor.lon m).

Definition station_post (tp : Tape) (i : nat) (s : Station.t) : Prop :=
  Station.station_id s = String.append "WEATHER_" (format_d 3 i) /\
  exists c, drawn_position tp c (Station.lat s) (Station.lon s).

Definition meter_post (tp : Tape) (i : nat) (m : Meter.t) : Prop :=
  Meter.meter_id m = String.append "ENERGY_" (format_d 4 i) /\
  (exists c, drawn_position tp c (Meter.lat m) (Meter.lon m)) /\
  In (Meter.building_type m) BUILDING_TYPES.

(** What the loop bodies copy from timestamp and location into the record,
    and what they guarantee of the remaining fields. *)
Definition traffic_row_post (timestamp : datetime) (s : TrafficSensor.t)
    (r : TrafficRecord.t) : Prop :=
  TrafficRecord.timestamp r = timestamp /\
  TrafficRecord.sensor_id r = TrafficSensor.sensor_id s /\
  TrafficRecord.location_lat r = TrafficSensor.lat s /\
  TrafficRecord.location_lon r = TrafficSensor.lon s /\
  TrafficRecord.road_type r = TrafficSensor.road_type s /\
  (if rush_branch timestamp
   then (10 <= TrafficRecord.avg_speed r)%Q /\
        In (TrafficRecord.congestion_level r) ["high"; "medium"]%string
   else In (TrafficRecord.congestion_level r) ["low"; "medium"]%string).

Definition air_quality_row_post (tp : Tape) (timestamp : datetime)
    (m : Monitor.t) (r : AirQualityRecord.t) : Prop :=
  AirQualityRecord.timestamp r = timestamp /\
  AirQualityRecord.sensor_id r = Monitor.sensor_id m /\
  AirQualityRecord.location_lat r = Monitor.lat m /\
  AirQualityRecord.location_lon r = Monitor.lon m /\
  exists c,
    let factor := (if is_rush_hour (hour timestamp) then 1.3 else 1.0)%Q in
    AirQualityRecord.pm25 r
    = py_max 0 (25 * factor + 8 * std_normal tp c) /\
    AirQualityRecord.pm10 r
    = py_max 0 (40 * factor + 12 * std_normal tp (1 + c)) /\
    AirQualityRecord.no2 r
    = py_max 0 (30 * factor + 10 * std_normal tp (2 + c)) /\
    AirQualityRecord.co r
    = py_max 0 (1.2 * factor + 0.4 * std_normal tp (3 + c)) /\
    AirQualityRecord.temperature r = (20 + 8 * std_normal tp (4 + c))%Q.

Definition weather_row_post (tp : Tape) (timestamp : datetime)
    (s : Station.t) (r : WeatherRecord.t) : Prop :=
  WeatherRecord.timestamp r = timestamp /\
  WeatherRecord.station_id r = Station.station_id s /\
  WeatherRecord.location_lat r = Station.lat s /\
  WeatherRecord.location_lon r = Station.lon s /\
  exists c,
    WeatherRecord.humidity r
    = py_max 20 (py_min 100 (60 + 15 * std_normal tp (1 + c))) /\
    WeatherRecord.wind_speed r
    = py_max 0 (8 * std_exponential tp (2 + c)) /\
    WeatherRecord.wind_direction r
    = (0 + (360 - 0) * std_uniform tp (3 + c))%Q /\
    (if Qltb (std_uniform tp (4 + c)) 0.1
     then WeatherRecord.precipitation r
          = py_max 0 (0.5 * std_exponential tp (5 + c)) /\
          WeatherRecord.pressure r
          = (1013.25 + 10 * std_normal tp (6 + c))%Q
     else WeatherRecord.precipitation r = 0%Q /\
          WeatherRecord.pressure r
          = (1013.25 + 10 * std_normal tp (5 + c))%Q).

Definition energy_row_post (tp : Tape) (timestamp : datetime) (m : Meter.t)
    (r : EnergyRecord.t) : Prop :=
  EnergyRecord.timestamp r = timestamp /\
  EnergyRecord.meter_id r = Meter.meter_id m /\
  EnergyRecord.location_lat r = Meter.lat m /\
  EnergyRecord.location_lon r = Meter.lon m /\
  EnergyRecord.building_type r = Meter.building_type m /\
  energy_post tp timestamp m r /\
  exists c,
    EnergyRecord.power_factor r
    = (0.85 + (0.95 - 0.85) * std_uniform tp c)%Q.


(** ** The order of the file and console operations *)

(** The exception of the first operation of [steps] that the environment
    makes fail, if any. *)
Fixpoint first_fault (env : Faults) (steps : list IoStep) : option PyExn :=
  match steps with
  | [] => None
  | step :: steps' =>
      match env step with
      | Some e => Some e
      | None => first_fault env steps'
      end
  end.

(** The operations of the constructor, in the order in which they are
    reached. *)
Definition INIT_ORDER : list IoStep :=
  [MakeDataDir; PrintAt 37; PrintAt 38; PrintAt 39].

(** Those of [generate_all_data] up to the start of the energy generator,
    and those from the writing of its table on. *)
Definition BEFORE_ENERGY_ORDER : list IoStep :=
  [PrintAt 273;
   PrintAt 52; WriteTrafficCsv; PrintAt 97;
   PrintAt 101; WriteAirQualityJson; PrintAt 137;
   PrintAt 141; WriteWeatherParquet; PrintAt 178;
   PrintAt 182].

Definition FROM_ENERGY_ORDER : list IoStep :=
  [WriteEnergyCsv; PrintAt 241;
   PrintAt 245; WriteZonesCsv; PrintAt 269;
   PrintAt 281; PrintAt 282; PrintAt 283; ListDataDir; PrintAt 289].

Definition GENERATE_ORDER : list IoStep :=
  BEFORE_ENERGY_ORDER ++ FROM_ENERGY_ORDER.

(** Those of the whole [try] statement of [main]. *)
Definition TRY_ORDER : list IoStep :=
  INIT_ORDER ++ GENERATE_ORDER ++ [PrintAt 297; PrintAt 298].

(** The [print] calls of the [except] clause that handles [e]. *)
Definition HANDLER_ORDER (e : PyExn) : list IoStep :=
  if PyExn_is_ImportError e then [PrintAt 301; PrintAt 302] else [PrintAt 304].

(** ** When the bounded loop returns *)

(** The series at [interval_minutes] fits into datetime arithmetic: when the
    window is not empty, the interval is a [timedelta] and the instant one
    interval after the last element is a [datetime]. *)
Definition series_fits (self : SmartCityDataGenerator) (interval_minutes : Z)
  : Prop :=
  start_time self < end_time self ->
  interval_minutes / 1440 <= TIMEDELTA_MAX_DAYS /\
  start_time self
  + Z.of_nat (steps_below (end_time self)
                (timedelta_minutes interval_minutes) (start_time self))
    * timedelta_minutes interval_minutes
  <= DATETIME_MAX.

(** The window leaves room for datetime arithmetic at the intervals of the
    four generators: it starts at a datetime and ends at least 30 minutes
    before the end of year 9999. *)
Definition window_in_range (self : SmartCityDataGenerator) : Prop :=
  is_datetime (start_time self) /\
  end_time self + timedelta_minutes 30 <= DATETIME_MAX + 1.

(** ** The tables of a complete run *)

(** The sizes of the five tables for a generator [self]. *)
Definition tables_complete (self : SmartCityDataGenerator) (d : Datasets)
  : Prop :=
  exists every_5 every_15 every_30 every_10,
    generate_timestamps_bounded self 5 = Returns every_5 /\
    generate_timestamps_bounded self 15 = Returns every_15 /\
    generate_timestamps_bounded self 30 = Returns every_30 /\
    generate_timestamps_bounded self 10 = Returns every_10 /\
    length (traffic_sensors_csv d) = (length every_5 * 50)%nat /\
    length (air_quality_json d) = (length every_15 * 20)%nat /\
    length (weather_data_parquet d) = (length every_30 * 10)%nat /\
    length (energy_meters_csv d) = (length every_10 * 200)%nat /\
    city_zones_csv d = zones_data.

(** ** Sample worlds *)

(** A console that cannot encode the characters the script prints. *)
Definition ascii_console : Faults :=
  fun step =>
    match step with
    | PrintAt _ => Some UnicodeEncodeError
    | _ => None
    end.

(** A disk that fills up while the energy table is written. *)
Definition disk_full : Faults :=
  fun step =>
    match step with
    | WriteEnergyCsv => Some OSError
    | _ => None
    end.

(** A run on the sample tape, the two clock readings one microsecond
    apart. *)
Definition sample_world (env : Faults) : World :=
  {| modules_installed := true;
     clock_first := monday_midnight;
     clock_second := monday_midnight + 1;
     faults := env;
     random_state := sample_random_state |}.

(** * Properties *)

(** *** The timestamp loop *)

Lemma steps_below_done stop step current :
  0 < step -> stop <= current -> steps_below stop step current = O.
Proof.
  intros Hstep Hdone. unfold steps_below.
  assert ((stop - current + step - 1) / step <= 0); [|lia].
  assert ((stop - current + step - 1) / step < 1); [|lia].
  apply Z.div_lt_upper_bound; lia.
Qed.

Lemma steps_below_next stop step current :
  0 < step -> current < stop ->
  steps_below stop step current = S (steps_below stop step (current + step)).
Proof.
  intros Hstep Hlt. unfold steps_below.
  replace (stop - current + step - 1)
    with (stop - (current + step) + step - 1 + 1 * step) by lia.
  rewrite Z.div_add by lia.
  assert (0 <= (stop - (current + step) + step - 1) / step)
    by (apply Z.div_pos; lia).
  lia.
Qed.

Lemma timestamps_loop_closed fuel stop step :
  0 < step ->
  forall current timestamps,
    (steps_below stop step current < fuel)%nat ->
    timestamps_loop fuel stop step current timestamps =
    Returns (timestamps ++
             arithmetic_series current step (steps_below stop step current)).
Proof.
  intros Hstep. induction fuel as [|fuel IH]; intros current acc Hfuel.
  - lia.
  - simpl. destruct (current <? stop) eqn:Hc.
    + apply Z.ltb_lt in Hc.
      rewrite (steps_below_next stop step current) in * by assumption.
      rewrite IH by lia. simpl. now rewrite <- app_assoc.
    + apply Z.ltb_ge in Hc.
      rewrite steps_below_done by assumption. simpl.
      now rewrite app_nil_r.
Qed.

(** Any two budgets under which the loop finishes give the same list. *)
Lemma timestamps_loop_fuel_irrelevant fuel fuel' stop step current acc l :
  timestamps_loop fuel stop step current acc = Returns l ->
  (fuel <= fuel')%nat ->
  timestamps_loop fuel' stop step current acc = Returns l.
Proof.
  revert fuel' current acc.
  induction fuel as [|fuel IH]; intros fuel' current acc Hrun Hle.
  - discriminate.
  - destruct fuel' as [|fuel']; [lia|]. simpl in *.
    destruct (current <? stop); [|assumption].
    apply IH; [assumption|lia].
Qed.

(** With a step that is not positive and a non-empty window the loop never
    leaves: no budget is enough. *)
Lemma timestamps_loop_diverges fuel stop step :
  step <= 0 ->
  forall current acc,
    current < stop ->
    timestamps_loop fuel stop step current acc = Diverges.
Proof.
  intros Hstep. induction fuel as [|fuel IH]; intros current acc Hlt.
  - reflexivity.
  - simpl. apply Z.ltb_lt in Hlt as Hb. rewrite Hb. apply IH. lia.
Qed.

Lemma timedelta_minutes_pos m : 0 < m -> 0 < timedelta_minutes m.
Proof. unfold timedelta_minutes, MICROS_PER_MINUTE. lia. Qed.

Lemma loop_budget_enough self step :
  0 < step ->
  (steps_below (end_time self) step (start_time self)
   < loop_budget self step)%nat.
Proof.
  intros Hstep. unfold steps_below, loop_budget.
  set (w := end_time self - start_time self).
  assert ((w + step - 1) / step <= w / step + 1).
  { replace (w + step - 1) with (w - 1 + 1 * step) by lia.
    rewrite Z.div_add by lia.
    assert ((w - 1) / step <= w / step) by (apply Z.div_le_mono; lia).
    lia. }
  lia.
Qed.

Lemma generate_timestamps_closed self interval_minutes :
  0 < interval_minutes ->
  generate_timestamps self interval_minutes =
  Returns (arithmetic_series (start_time self)
             (timedelta_minutes interval_minutes)
             (steps_below (end_time self)
                (timedelta_minutes interval_minutes) (start_time self))).
Proof.
  intros Hpos. unfold generate_timestamps.
  rewrite timestamps_loop_closed.
  - reflexivity.
  - now apply timedelta_minutes_pos.
  - apply loop_budget_enough. now apply timedelta_minutes_pos.
Qed.

Lemma generate_timestamps_diverges self interval_minutes :
  interval_minutes <= 0 ->
  start_time self < end_time self ->
  generate_timestamps self interval_minutes = Diverges.
Proof.
  intros Hm Hw. unfold generate_timestamps.
  apply timestamps_loop_diverges; [|assumption].
  unfold timedelta_minutes, MICROS_PER_MINUTE. lia.
Qed.

Lemma arithmetic_series_length first step n :
  length (arithmetic_series first step n) = n.
Proof.
  revert first. induction n as [|n IH]; intros first; simpl; [easy|].
  now rewrite IH.
Qed.

Lemma arithmetic_series_nth first step n i :
  (i < n)%nat ->
  nth_error (arithmetic_series first step n) i =
  Some (first + Z.of_nat i * step).
Proof.
  revert first i. induction n as [|n IH]; intros first i Hi; [lia|].
  destruct i as [|i]; cbn [nth_error arithmetic_series].
  - f_equal. change (Z.of_nat 0) with 0. ring.
  - rewrite IH by lia. f_equal. rewrite Nat2Z.inj_succ. ring.
Qed.

Lemma arithmetic_series_nth_inv first step n i t :
  nth_error (arithmetic_series first step n) i = Some t ->
  (i < n)%nat /\ t = first + Z.of_nat i * step.
Proof.
  intros Hnth.
  assert (Hi : (i < n)%nat).
  { rewrite <- (arithmetic_series_length first step n).
    apply nth_error_Some. congruence. }
  split; [assumption|].
  rewrite arithmetic_series_nth in Hnth by assumption. congruence.
Qed.

(** Every member of the closed form lies below [stop]. *)
Lemma arithmetic_series_below stop step current :
  0 < step ->
  Forall (fun t => t < stop)
    (arithmetic_series current step (steps_below stop step current)).
Proof.
  intros Hstep.
  remember (steps_below stop step current) as n eqn:Hn.
  revert current Hn. induction n as [|n IH]; intros current Hn; simpl.
  - constructor.
  - destruct (Z_lt_ge_dec current stop) as [Hlt|Hge].
    + rewrite steps_below_next in Hn by assumption.
      constructor; [assumption|]. apply IH. congruence.
    + rewrite steps_below_done in Hn by lia. discriminate.
Qed.

(** Whatever the loop returns under some budget, [generate_timestamps]
    returns under its own. *)
Lemma generate_timestamps_adequate self interval_minutes fuel l :
  timestamps_loop fuel (end_time self) (timedelta_minutes interval_minutes)
    (start_time self) [] = Returns l ->
  generate_timestamps self interval_minutes = Returns l.
Proof.
  intros Hrun. unfold generate_timestamps. cbv zeta.
  set (step := timedelta_minutes interval_minutes) in *.
  destruct (Z_lt_ge_dec (start_time self) (end_time self)) as [Hw|Hw].
  - destruct (Z_lt_ge_dec 0 step) as [Hstep|Hstep].
    + pose proof (timestamps_loop_closed (Nat.max fuel (loop_budget self step))
                    (end_time self) step Hstep (start_time self) []) as Hmax.
      rewrite (timestamps_loop_fuel_irrelevant _ _ _ _ _ _ _ Hrun
                 (Nat.le_max_l _ _)) in Hmax.
      rewrite Hmax.
      * apply timestamps_loop_closed; [assumption|].
        now apply loop_budget_enough.
      * pose proof (loop_budget_enough self step Hstep). lia.
    + rewrite timestamps_loop_diverges in Hrun by lia. discriminate.
  - destruct fuel as [|fuel]; [discriminate|].
    unfold loop_budget. rewrite Nat.add_comm. cbn [Nat.add timestamps_loop] in *.
    assert (Hb : (start_time self <? end_time self) = false)
      by (apply Z.ltb_ge; lia).
    rewrite Hb in *. exact Hrun.
Qed.

(** *** Comparisons and clamps *)

Lemma Qltb_lt x y : Qltb x y = true <-> (x < y)%Q.
Proof.
  unfold Qltb. rewrite negb_true_iff, <- not_true_iff_false, Qle_bool_iff.
  split; [apply Qnot_le_lt | apply Qlt_not_le].
Qed.

Lemma Qltb_ge x y : Qltb x y = false <-> (y <= x)%Q.
Proof.
  unfold Qltb. rewrite negb_false_iff. apply Qle_bool_iff.
Qed.

Lemma py_max_lower a b : (a <= py_max a b)%Q.
Proof.
  unfold py_max. destruct (Qltb a b) eqn:H.
  - apply Qltb_lt in H. now apply Qlt_le_weak.
  - apply Qle_refl.
Qed.

Lemma py_min_upper a b : (py_min a b <= a)%Q.
Proof.
  unfold py_min. destruct (Qltb b a) eqn:H.
  - apply Qltb_lt in H. now apply Qlt_le_weak.
  - apply Qle_refl.
Qed.

(** *** Loops *)

(** Rules for [satisfies]. *)
Lemma satisfies_weaken {A} (o : outcome (A * RandomState))
    (Post Post' : A -> RandomState -> Prop) (E E' : PyExn -> Prop) :
  satisfies o Post E ->
  (forall a rs, Post a rs -> Post' a rs) ->
  (forall e, E e -> E' e) ->
  satisfies o Post' E'.
Proof.
  destruct o as [[a rs]| |]; cbn; auto.
Qed.

Lemma satisfies_bind {A B} (c : M A) (k : A -> M B) rs
    (Post : B -> RandomState -> Prop) (E : PyExn -> Prop) :
  satisfies (c rs) (fun a rs' => satisfies (k a rs') Post E) E ->
  satisfies (bind c k rs) Post E.
Proof.
  unfold bind. destruct (c rs) as [[a rs']| |]; cbn; auto.
Qed.

(** A run that satisfies a postcondition and never raises returns. *)
Lemma satisfies_returns {A} (o : outcome (A * RandomState))
    (Post : A -> RandomState -> Prop) :
  satisfies o Post never ->
  exists a rs', o = Returns (a, rs') /\ Post a rs'.
Proof.
  destruct o as [[a rs']| |]; cbn; intros H; try contradiction.
  now exists a, rs'.
Qed.

(** If every run of the body on an element of the list, from a state
    satisfying [I], returns an item satisfying [P] in a state satisfying [I]
    or raises an exception satisfying [E], then so does the loop, item by
    item. *)
Lemma for_each_outcome {A B} (body : A -> M B) (I : RandomState -> Prop)
    (P : A -> B -> Prop) (E : PyExn -> Prop) xs :
  (forall x rs, In x xs -> I rs ->
     satisfies (body x rs) (fun b rs' => P x b /\ I rs') E) ->
  forall rs, I rs ->
    satisfies (for_each xs body rs)
      (fun items rs' => Forall2 P xs items /\ I rs') E.
Proof.
  induction xs as [|x xs IH]; intros Hbody rs HI.
  - cbn. split; [constructor|assumption].
  - cbn [for_each]. apply satisfies_bind.
    eapply satisfies_weaken;
      [apply (Hbody x rs (in_eq x xs) HI)| |auto].
    intros b rs1 [HP HI1]. apply satisfies_bind.
    eapply satisfies_weaken; [apply IH| |auto].
    + intros y rs0 Hy. apply Hbody. now right.
    + exact HI1.
    + intros items rs2 [HP2 HI2]. cbn. split; [now constructor|assumption].
Qed.

Lemma Forall2_length_eq {A B} (P : A -> B -> Prop) xs ys :
  Forall2 P xs ys -> length ys = length xs.
Proof. induction 1; simpl; congruence. Qed.

Lemma Forall2_Forall_r {A B} (P : A -> B -> Prop) (R : B -> Prop) xs ys :
  Forall2 P xs ys -> (forall x y, P x y -> R y) -> Forall R ys.
Proof. induction 1; intros HPR; constructor; eauto. Qed.

(** Length of the concatenation of rows that all have [n] items. *)
Lemma concat_length_uniform {A} (rows : list (list A)) n :
  Forall (fun row => length row = n) rows ->
  length (concat rows) = (length rows * n)%nat.
Proof.
  induction 1 as [|row rows Hrow _ IH]; simpl; [reflexivity|].
  rewrite length_app, IH, Hrow. reflexivity.
Qed.

Lemma Forall_concat_intro {A} (P : A -> Prop) (rows : list (list A)) :
  Forall (Forall P) rows -> Forall P (concat rows).
Proof.
  induction 1; simpl; [constructor|]. apply Forall_app. now split.
Qed.

Lemma nested_rows_length {A B C} (P : A -> B -> C -> Prop) xs ys rows :
  Forall2 (fun a row => Forall2 (P a) ys row) xs rows ->
  length (concat rows) = (length xs * length ys)%nat.
Proof.
  intros Hrows.
  rewrite (concat_length_uniform rows (length ys)).
  - now rewrite (Forall2_length_eq _ _ _ Hrows).
  - eapply Forall2_Forall_r; [exact Hrows|].
    intros a row Hrow. cbn beta in Hrow.
    exact (Forall2_length_eq _ _ _ Hrow).
Qed.

Lemma nested_rows_Forall {A B C} (P : A -> B -> C -> Prop) (R : C -> Prop)
    xs ys rows :
  Forall2 (fun a row => Forall2 (P a) ys row) xs rows ->
  (forall a b c, P a b c -> R c) ->
  Forall R (concat rows).
Proof.
  intros Hrows HPR. apply Forall_concat_intro.
  eapply Forall2_Forall_r; [exact Hrows|].
  intros a row Hrow. cbn beta in Hrow.
  eapply Forall2_Forall_r; [exact Hrow|]. intros b c. apply HPR.
Qed.

(** *** The shape shared by the four time-series generators *)

(** A generator that builds its locations, takes the series at
    [interval_minutes] and runs [reading] on every timestamp and location:
    when the locations are always built, [n] of them, all satisfying [PL],
    and [reading] on such a location returns a record satisfying [P] or
    raises an exception satisfying [E], the generator returns the
    concatenated rows or raises such an exception.  The tape is never
    changed. *)
Lemma dataset_outcome {L R} (locations : M (list L))
    (reading : datetime -> L -> M R) (self : SmartCityDataGenerator)
    (interval_minutes : Z) (n : nat) (tp : Tape)
    (PL : L -> Prop) (P : datetime -> L -> R -> Prop) (E : PyExn -> Prop) :
  0 < interval_minutes ->
  (forall rs, tape rs = tp ->
     satisfies (locations rs)
       (fun locs rs' => length locs = n /\ Forall PL locs /\ tape rs' = tp)
       never) ->
  (forall t l rs, PL l -> tape rs = tp ->
     satisfies (reading t l rs) (fun r rs' => P t l r /\ tape rs' = tp) E) ->
  forall rs, tape rs = tp ->
    satisfies
      ((locs <- locations ;;
        timestamps <- lift (generate_timestamps self interval_minutes) ;;
        rows <- for_each timestamps (fun timestamp =>
                  for_each locs (fun l => reading timestamp l)) ;;
        ret (concat rows)) rs)
      (fun records rs' =>
         exists locs timestamps rows,
           records = concat rows /\
           generate_timestamps self interval_minutes = Returns timestamps /\
           length locs = n /\
           Forall2 (fun t row => Forall2 (P t) locs row) timestamps rows /\
           tape rs' = tp)
      E.
Proof.
  intros Hpos Hlocs Hread rs Htape.
  apply satisfies_bind.
  eapply satisfies_weaken; [apply (Hlocs rs Htape)| |contradiction].
  intros locs rs1 (Hlen & HPL & Htape1).
  apply satisfies_bind.
  rewrite (generate_timestamps_closed self _ Hpos). cbn [lift satisfies].
  set (timestamps := arithmetic_series _ _ _).
  apply satisfies_bind.
  eapply satisfies_weaken;
    [apply (for_each_outcome
              (fun timestamp => for_each locs (fun l => reading timestamp l))
              (fun rs0 => tape rs0 = tp)
              (fun t row => Forall2 (P t) locs row) E timestamps)| |auto].
  - intros t rs0 _ Hrs0.
    apply (for_each_outcome (fun l => reading t l)
             (fun rs2 => tape rs2 = tp) (P t) E locs); [|exact Hrs0].
    intros l rs2 Hin. apply Hread.
    exact (proj1 (Forall_forall PL locs) HPL l Hin).
  - exact Htape1.
  - intros rows rs2 [Hrows Htape2]. cbn.
    exists locs, timestamps, rows. repeat split; assumption.
Qed.

(** *** The timestamp series *)

Lemma arithmetic_series_head first step n :
  (0 < n)%nat -> hd_error (arithmetic_series first step n) = Some first.
Proof. destruct n; [lia|reflexivity]. Qed.

Lemma steps_below_pos stop step current :
  0 < step -> current < stop -> (0 < steps_below stop step current)%nat.
Proof.
  intros Hstep Hlt. rewrite steps_below_next by assumption. lia.
Qed.

(** The window of [init] is seven days plus the time between the two clock
    readings; seven days are a whole number [whole] of steps. *)
Lemma steps_below_seven_days now_first now_second step whole :
  0 < step ->
  now_first <= now_second ->
  timedelta_days NUM_DAYS = whole * step ->
  Z.of_nat (steps_below now_second step (now_first - timedelta_days NUM_DAYS))
  = whole + (now_second - now_first + step - 1) / step.
Proof.
  intros Hstep Hclock Hwhole. unfold steps_below. rewrite Hwhole.
  replace (now_second - (now_first - whole * step) + step - 1)
    with (now_second - now_first + step - 1 + whole * step) by ring.
  rewrite Z.div_add by lia.
  assert (0 <= (now_second - now_first + step - 1) / step)
    by (apply Z.div_pos; lia).
  assert (0 <= whole).
  { unfold timedelta_days, NUM_DAYS, MICROS_PER_DAY in Hwhole. nia. }
  lia.
Qed.

Lemma ceil_div_zero step : 0 < step -> (0 + step - 1) / step = 0.
Proof. intros Hstep. apply Z.div_small. lia. Qed.

Lemma ceil_div_one delta step :
  0 < delta <= step -> (delta + step - 1) / step = 1.
Proof.
  intros Hd. replace (delta + step - 1) with (delta - 1 + 1 * step) by ring.
  rewrite Z.div_add by lia. rewrite Z.div_small; lia.
Qed.

(** C1 (as amended).  With [start_time] set from a first clock reading and
    [end_time] from a second, later-or-equal one, the series at 5, 15, 30 and
    10 minutes has 2016, 672, 336 and 1008 elements plus the time between
    the two readings divided by the interval, rounded up: exactly those
    numbers when the readings coincide, one more when the second reading is
    later by at most one interval. *)
Theorem seven_day_series_length now_first now_second interval_minutes whole :
  now_first <= now_second ->
  In (interval_minutes, whole) [(5, 2016); (15, 672); (30, 336); (10, 1008)] ->
  exists timestamps,
    generate_timestamps (init now_first now_second) interval_minutes
    = Returns timestamps /\
    Z.of_nat (length timestamps)
    = whole + (now_second - now_first + timedelta_minutes interval_minutes - 1)
              / timedelta_minutes interval_minutes /\
    (now_second = now_first -> Z.of_nat (length timestamps) = whole) /\
    (now_first < now_second <= now_first + timedelta_minutes interval_minutes ->
     Z.of_nat (length timestamps) = whole + 1).
Proof.
  intros Hclock Hin.
  assert (Hm : 0 < interval_minutes /\
               timedelta_days NUM_DAYS
               = whole * timedelta_minutes interval_minutes).
  { simpl in Hin.
    destruct Hin as [H|[H|[H|[H|[]]]]]; injection H as <- <-;
      split; reflexivity. }
  destruct Hm as [Hpos Hwhole].
  pose proof (timedelta_minutes_pos _ Hpos) as Hstep.
  eexists. split; [apply generate_timestamps_closed; assumption|].
  rewrite arithmetic_series_length. cbn [init start_time end_time].
  rewrite (steps_below_seven_days _ _ _ whole) by assumption.
  split; [reflexivity|]. split.
  - intros ->. rewrite Z.sub_diag, ceil_div_zero by assumption. lia.
  - intros Hlate. rewrite ceil_div_one by lia. reflexivity.
Qed.

Lemma seven_day_series_length_witness :
  exists timestamps,
    generate_timestamps (init monday_midnight (monday_midnight + 1)) 5
    = Returns timestamps /\
    Z.of_nat (length timestamps) = 2017.
Proof.
  destruct (seven_day_series_length monday_midnight (monday_midnight + 1)
              5 2016) as (timestamps & Hrun & _ & _ & Hmore).
  - lia.
  - simpl. auto.
  - exists timestamps. split; [exact Hrun|].
    apply Hmore. unfold timedelta_minutes, MICROS_PER_MINUTE. lia.
Defined.

(** C1 (as stated) fails: when the second clock reading is one microsecond
    after the first, the 5-minute series does not have 2016 elements. *)
Lemma seven_day_series_not_2016 :
  ~ (exists timestamps,
       generate_timestamps (init monday_midnight (monday_midnight + 1)) 5
       = Returns timestamps /\
       length timestamps = 2016%nat).
Proof.
  intros (timestamps & Hrun & Hlen).
  assert (Hrun' :
    match generate_timestamps (init monday_midnight (monday_midnight + 1)) 5
    with
    | Returns l => length l
    | _ => O
    end = 2017%nat) by (vm_compute; reflexivity).
  rewrite Hrun in Hrun'. congruence.
Qed.

(** *** The loop with range checks *)

Lemma arithmetic_series_In first step n t :
  In t (arithmetic_series first step n) <->
  exists k, (k < n)%nat /\ t = first + Z.of_nat k * step.
Proof.
  split.
  - intros Hin. apply In_nth_error in Hin as [k Hk].
    exists k. now apply arithmetic_series_nth_inv.
  - intros (k & Hk & ->).
    eapply nth_error_In. now apply arithmetic_series_nth.
Qed.

Lemma steps_below_bound stop step current k :
  0 < step ->
  (k < steps_below stop step current)%nat <->
  current + Z.of_nat k * step < stop.
Proof.
  intros Hstep. unfold steps_below.
  set (w := stop - current).
  assert (Hq : (w + step - 1) / step = (w - 1) / step + 1).
  { replace (w + step - 1) with (w - 1 + 1 * step) by ring.
    now rewrite Z.div_add by lia. }
  rewrite Hq. split.
  - intros Hk.
    assert (Z.of_nat k <= (w - 1) / step) by lia.
    assert (step * ((w - 1) / step) <= w - 1)
      by (apply Z.mul_div_le; lia).
    nia.
  - intros Hk.
    assert (Z.of_nat k <= (w - 1) / step).
    { apply Z.div_le_lower_bound; [lia|]. nia. }
    lia.
Qed.

Lemma timedelta_days_of_minutes m :
  m * MICROS_PER_MINUTE / MICROS_PER_DAY = m / 1440.
Proof.
  unfold MICROS_PER_MINUTE, MICROS_PER_DAY.
  change 86400000000 with (1440 * 60000000).
  now rewrite Z.div_mul_cancel_r by lia.
Qed.

(** A positive number of minutes is a [timedelta] exactly when its days do
    not exceed the limit. *)
Lemma timedelta_of_minutes_pos m :
  0 < m ->
  timedelta_of_minutes m
  = if m / 1440 <=? TIMEDELTA_MAX_DAYS
    then Returns (timedelta_minutes m)
    else Raises OverflowError.
Proof.
  intros Hm. unfold timedelta_of_minutes. cbv zeta.
  rewrite timedelta_days_of_minutes.
  assert (H0 : 0 <= m / 1440) by (apply Z.div_pos; lia).
  assert (Hlow : (- TIMEDELTA_MAX_DAYS <=? m / 1440) = true)
    by (apply Z.leb_le; unfold TIMEDELTA_MAX_DAYS; lia).
  rewrite Hlow. reflexivity.
Qed.

(** Whatever a number of minutes gives, it is the microsecond count or an
    [OverflowError]. *)
Lemma timedelta_of_minutes_cases m :
  timedelta_of_minutes m = Returns (timedelta_minutes m) \/
  timedelta_of_minutes m = Raises OverflowError.
Proof.
  unfold timedelta_of_minutes. cbv zeta.
  destruct (_ && _); [left|right]; reflexivity.
Qed.

Lemma datetime_add_cases current delta :
  (0 <= current + delta <= DATETIME_MAX /\
   datetime_add current delta = Returns (current + delta)) \/
  (~ (0 <= current + delta <= DATETIME_MAX) /\
   datetime_add current delta = Raises OverflowError).
Proof.
  unfold datetime_add.
  destruct (0 <=? current + delta) eqn:H0;
    destruct (current + delta <=? DATETIME_MAX) eqn:H1; cbn [andb];
    try apply Z.leb_le in H0; try apply Z.leb_le in H1;
    try apply Z.leb_gt in H0; try apply Z.leb_gt in H1;
    [left|right|right|right]; split; try reflexivity; lia.
Qed.

(** With a positive interval that is a [timedelta], the bounded loop returns
    the closed form when the instant after its last element is a datetime,
    and raises [OverflowError] otherwise. *)
Lemma timestamps_loop_bounded_pos fuel stop m :
  0 < m ->
  m / 1440 <= TIMEDELTA_MAX_DAYS ->
  forall current acc,
    0 <= current <= DATETIME_MAX ->
    (steps_below stop (timedelta_minutes m) current < fuel)%nat ->
    timestamps_loop_bounded fuel stop m current acc
    = if current
         + Z.of_nat (steps_below stop (timedelta_minutes m) current)
           * timedelta_minutes m <=? DATETIME_MAX
      then Returns (acc ++ arithmetic_series current (timedelta_minutes m)
                             (steps_below stop (timedelta_minutes m) current))
      else Raises OverflowError.
Proof.
  intros Hm Hdays.
  pose proof (timedelta_minutes_pos _ Hm) as Hstep.
  assert (Htd : timedelta_of_minutes m = Returns (timedelta_minutes m)).
  { rewrite timedelta_of_minutes_pos by assumption.
    apply Z.leb_le in Hdays. now rewrite Hdays. }
  set (step := timedelta_minutes m) in *.
  induction fuel as [|fuel IH]; intros current acc Hcur Hfuel; [lia|].
  cbn [timestamps_loop_bounded]. destruct (current <? stop) eqn:Hc.
  - apply Z.ltb_lt in Hc. rewrite Htd.
    rewrite (steps_below_next stop step current) in * by assumption.
    rewrite Nat2Z.inj_succ.
    replace (current + Z.succ (Z.of_nat (steps_below stop step (current + step)))
                       * step)
      with (current + step
            + Z.of_nat (steps_below stop step (current + step)) * step)
      by ring.
    destruct (datetime_add_cases current step) as [[Hnext ->]|[Hnext ->]].
    + rewrite IH by lia. cbn [arithmetic_series].
      now rewrite <- app_assoc.
    + assert (Hover : DATETIME_MAX < current + step) by lia.
      assert (Hle : (current + step
                     + Z.of_nat (steps_below stop step (current + step)) * step
                     <=? DATETIME_MAX) = false) by (apply Z.leb_gt; nia).
      now rewrite Hle.
  - apply Z.ltb_ge in Hc.
    rewrite steps_below_done by assumption.
    change (Z.of_nat 0) with 0. rewrite Z.mul_0_l, Z.add_0_r.
    assert (Hle : (current <=? DATETIME_MAX) = true) by (apply Z.leb_le; lia).
    rewrite Hle. cbn [arithmetic_series]. now rewrite app_nil_r.
Qed.

(** With a negative interval and a window that is not empty, the bounded
    loop raises [OverflowError]: the interval is no [timedelta], or the
    instants walk down below [datetime.min]. *)
Lemma timestamps_loop_bounded_neg fuel stop m :
  m < 0 ->
  forall current acc,
    0 <= current <= DATETIME_MAX ->
    current < stop ->
    (Z.to_nat (current / (- timedelta_minutes m)) < fuel)%nat ->
    timestamps_loop_bounded fuel stop m current acc = Raises OverflowError.
Proof.
  intros Hm.
  assert (Hstep : 0 < - timedelta_minutes m)
    by (unfold timedelta_minutes, MICROS_PER_MINUTE; lia).
  set (step := timedelta_minutes m) in *.
  induction fuel as [|fuel IH]; intros current acc Hcur Hlt Hfuel; [lia|].
  cbn [timestamps_loop_bounded].
  apply Z.ltb_lt in Hlt as Hb. rewrite Hb.
  destruct (timedelta_of_minutes_cases m) as [->| ->]; [|reflexivity].
  fold step.
  destruct (datetime_add_cases current step) as [[Hnext ->]|[Hnext ->]];
    [|reflexivity].
  assert (Hq : (current + step) / (- step) = current / (- step) - 1).
  { replace (current + step) with (current + (-1) * (- step)) by ring.
    rewrite Z.div_add by lia. ring. }
  assert (H1 : 1 <= current / (- step))
    by (apply Z.div_le_lower_bound; lia).
  apply IH; [lia|lia|]. rewrite Hq. lia.
Qed.

Lemma timestamps_loop_bounded_done fuel stop m current acc :
  stop <= current ->
  timestamps_loop_bounded (S fuel) stop m current acc = Returns acc.
Proof.
  intros Hdone. cbn [timestamps_loop_bounded].
  assert (Hb : (current <? stop) = false) by (apply Z.ltb_ge; lia).
  now rewrite Hb.
Qed.

Lemma loop_budget_bounded_succ self m :
  exists fuel, loop_budget_bounded self m = S fuel.
Proof.
  unfold loop_budget_bounded. cbv zeta.
  destruct (0 <? timedelta_minutes m);
    [|destruct (timedelta_minutes m <? 0)];
    rewrite ?Nat.add_succ_r; eexists; reflexivity.
Qed.

Lemma loop_budget_bounded_pos self m :
  0 < m ->
  (steps_below (end_time self) (timedelta_minutes m) (start_time self)
   < loop_budget_bounded self m)%nat.
Proof.
  intros Hm. pose proof (timedelta_minutes_pos _ Hm) as Hstep.
  unfold loop_budget_bounded. cbv zeta.
  apply Z.ltb_lt in Hstep as Hb. rewrite Hb.
  exact (loop_budget_enough self _ Hstep).
Qed.

(** [series_fits] can be decided. *)
Lemma series_fits_dec self m : series_fits self m \/ ~ series_fits self m.
Proof.
  unfold series_fits.
  destruct (Z_lt_ge_dec (start_time self) (end_time self)) as [Hw|Hw];
    [|left; lia].
  destruct (Z_le_gt_dec (m / 1440) TIMEDELTA_MAX_DAYS) as [Hd|Hd];
    [|right; intros H; specialize (H Hw); lia].
  match goal with
  | |- (_ -> _ /\ ?a <= ?b) \/ _ =>
      destruct (Z_le_gt_dec a b) as [Hs|Hs]
  end.
  - left. now split.
  - right. intros H. specialize (H Hw). lia.
Qed.

(** The outcome of the bounded generator for a positive interval. *)
Lemma generate_timestamps_bounded_pos self m :
  is_datetime (start_time self) ->
  0 < m ->
  (series_fits self m ->
   generate_timestamps_bounded self m
   = Returns (arithmetic_series (start_time self) (timedelta_minutes m)
                (steps_below (end_time self) (timedelta_minutes m)
                   (start_time self)))) /\
  (~ series_fits self m ->
   generate_timestamps_bounded self m = Raises OverflowError).
Proof.
  intros Hstart Hm. unfold generate_timestamps_bounded, series_fits.
  pose proof (timedelta_minutes_pos _ Hm) as Hstep.
  destruct (Z_lt_ge_dec (start_time self) (end_time self)) as [Hw|Hw].
  - destruct (Z_le_gt_dec (m / 1440) TIMEDELTA_MAX_DAYS) as [Hd|Hd].
    + rewrite (timestamps_loop_bounded_pos _ _ _ Hm Hd _ [] Hstart
                 (loop_budget_bounded_pos self m Hm)).
      split.
      * intros Hfits. destruct (Hfits Hw) as [_ Hsum].
        apply Z.leb_le in Hsum. now rewrite Hsum.
      * intros Hnot.
        destruct (_ <=? DATETIME_MAX) eqn:Hsum; [|reflexivity].
        exfalso. apply Hnot. intros _. apply Z.leb_le in Hsum. now split.
    + split; [intros Hfits; specialize (Hfits Hw); lia|]. intros _.
      destruct (loop_budget_bounded_succ self m) as [fuel ->].
      cbn [timestamps_loop_bounded].
      apply Z.ltb_lt in Hw as Hb. rewrite Hb.
      rewrite timedelta_of_minutes_pos by assumption.
      assert (Hle : (m / 1440 <=? TIMEDELTA_MAX_DAYS) = false)
        by (apply Z.leb_gt; lia).
      now rewrite Hle.
  - split; [|intros Hnot; exfalso; apply Hnot; lia]. intros _.
    destruct (loop_budget_bounded_succ self m) as [fuel ->].
    rewrite timestamps_loop_bounded_done by lia.
    rewrite steps_below_done by lia. reflexivity.
Qed.

(** Whatever the bounded generator returns, the generator without range
    checks returns too. *)
Lemma generate_timestamps_bounded_agrees self m l :
  is_datetime (start_time self) ->
  0 < m ->
  generate_timestamps_bounded self m = Returns l ->
  generate_timestamps self m = Returns l.
Proof.
  intros Hstart Hm Hrun.
  destruct (generate_timestamps_bounded_pos self m Hstart Hm) as [Hfit Hnot].
  destruct (series_fits_dec self m) as [H|H].
  - rewrite (Hfit H) in Hrun. rewrite <- Hrun.
    now apply generate_timestamps_closed.
  - rewrite (Hnot H) in Hrun. discriminate.
Qed.

(** A window that ends at least one interval before [datetime.max] fits. *)
Lemma series_fits_early_end self m :
  is_datetime (start_time self) ->
  0 < m ->
  end_time self + timedelta_minutes m <= DATETIME_MAX + 1 ->
  series_fits self m.
Proof.
  intros [Hs0 Hs1] Hm Hend Hw.
  pose proof (timedelta_minutes_pos _ Hm) as Hstep.
  split.
  - assert (Hmin : m * 60000000 <= 3652059 * 86400000000).
    { revert Hend Hw Hs0.
      unfold timedelta_minutes, DATETIME_MAX, MICROS_PER_DAY,
        MICROS_PER_MINUTE. lia. }
    assert (m / 1440 <= 3652059) by (apply Z.div_le_upper_bound; lia).
    unfold TIMEDELTA_MAX_DAYS. lia.
  - pose proof (steps_below_pos (end_time self) (timedelta_minutes m)
                  (start_time self) Hstep Hw) as Hn.
    remember (steps_below (end_time self) (timedelta_minutes m)
                (start_time self)) as n eqn:Hdef.
    assert (Hlast : start_time self
                    + Z.of_nat (n - 1) * timedelta_minutes m
                    < end_time self).
    { apply steps_below_bound; [assumption|]. rewrite <- Hdef. lia. }
    remember (timedelta_minutes m) as step eqn:Hstepdef.
    replace (Z.of_nat n) with (Z.of_nat (n - 1) + 1) by lia.
    lia.
Qed.

(** *** The series as Python builds it *)

(** C8 (as amended).  For every start that is a datetime, every end and
    every positive whole number of minutes, the loop with Python's range
    checks either returns or raises [OverflowError].  It returns when the
    series fits: the window is empty, or the interval is a timedelta and the
    instant one interval after the last element is a datetime, which is so
    whenever end plus the interval does not pass [datetime.max]; otherwise it
    raises.  When it returns, the series is empty if start is not before end
    and begins with start otherwise, each element is its predecessor plus
    the interval, the elements increase strictly, and all lie strictly
    below end. *)
Theorem generate_timestamps_series start stop interval_minutes :
  is_datetime start ->
  0 < interval_minutes ->
  (series_fits {| start_time := start; end_time := stop |} interval_minutes ->
   exists timestamps,
     generate_timestamps_bounded {| start_time := start; end_time := stop |}
       interval_minutes = Returns timestamps /\
     (start < stop -> hd_error timestamps = Some start) /\
     (stop <= start -> timestamps = []) /\
     (forall i previous next,
         nth_error timestamps i = Some previous ->
         nth_error timestamps (S i) = Some next ->
         next = previous + timedelta_minutes interval_minutes) /\
     (forall i j earlier later,
         (i < j)%nat ->
         nth_error timestamps i = Some earlier ->
         nth_error timestamps j = Some later ->
         earlier < later) /\
     Forall (fun t => t < stop) timestamps) /\
  (~ series_fits {| start_time := start; end_time := stop |}
       interval_minutes ->
   generate_timestamps_bounded {| start_time := start; end_time := stop |}
     interval_minutes = Raises OverflowError) /\
  (stop + timedelta_minutes interval_minutes <= DATETIME_MAX + 1 ->
   series_fits {| start_time := start; end_time := stop |} interval_minutes).
Proof.
  intros Hstart Hpos.
  pose proof (timedelta_minutes_pos _ Hpos) as Hstep.
  destruct (generate_timestamps_bounded_pos
              {| start_time := start; end_time := stop |} interval_minutes
              Hstart Hpos) as [Hfit Hnot].
  split; [|split; [exact Hnot|]].
  - intros Hfits. eexists. split; [exact (Hfit Hfits)|].
    cbn [start_time end_time].
    set (step := timedelta_minutes interval_minutes) in *.
    repeat split.
    + intros Hlt. apply arithmetic_series_head.
      now apply steps_below_pos.
    + intros Hge. rewrite steps_below_done by assumption. reflexivity.
    + intros i previous next Hp Hn.
      apply arithmetic_series_nth_inv in Hp as [_ ->].
      apply arithmetic_series_nth_inv in Hn as [_ ->].
      rewrite Nat2Z.inj_succ. ring.
    + intros i j earlier later Hij He Hl.
      apply arithmetic_series_nth_inv in He as [_ ->].
      apply arithmetic_series_nth_inv in Hl as [_ ->].
      nia.
    + now apply arithmetic_series_below.
  - intros Hend.
    now apply (series_fits_early_end
                 {| start_time := start; end_time := stop |}).
Qed.

Lemma ten_minute_window_start : is_datetime (start_time ten_minute_window).
Proof. split; vm_compute; discriminate. Qed.

Lemma generate_timestamps_series_witness :
  exists timestamps,
    generate_timestamps_bounded ten_minute_window 5 = Returns timestamps /\
    hd_error timestamps = Some (start_time ten_minute_window) /\
    Forall (fun t => t < end_time ten_minute_window) timestamps.
Proof.
  destruct (generate_timestamps_series (start_time ten_minute_window)
              (end_time ten_minute_window) 5 ten_minute_window_start)
    as (Hreturns & _ & Hearly); [lia|].
  destruct Hreturns as (timestamps & Hrun & Hhead & _ & _ & _ & Hbelow).
  - apply Hearly. vm_compute. discriminate.
  - exists timestamps. repeat split.
    + exact Hrun.
    + apply Hhead. vm_compute. reflexivity.
    + exact Hbelow.
Defined.

(** C8 (as stated) fails in three ways: on a window whose start equals its
    end the series is empty, so start is not its first element; on the
    window of the last two minutes before [datetime.max] no series is
    returned at a 5-minute interval, the first addition raising
    [OverflowError]; and on a 7-day window as the constructor builds it, in
    the year 2024, no series is returned at an interval of 5000000000
    minutes, for the same reason. *)
Lemma series_claim_counterexamples :
  ~ (exists timestamps,
       generate_timestamps_bounded
         {| start_time := monday_midnight; end_time := monday_midnight |} 5
       = Returns timestamps /\
       hd_error timestamps = Some monday_midnight) /\
  ~ (exists timestamps,
       generate_timestamps_bounded
         {| start_time := DATETIME_MAX - timedelta_minutes 2;
            end_time := DATETIME_MAX |} 5
       = Returns timestamps) /\
  ~ (exists timestamps,
       generate_timestamps_bounded
         (init monday_midnight (monday_midnight + 1)) 5000000000
       = Returns timestamps).
Proof.
  split; [|split].
  - intros (timestamps & Hrun & Hhead).
    vm_compute in Hrun. injection Hrun as <-. discriminate.
  - intros (timestamps & Hrun). vm_compute in Hrun. discriminate.
  - intros (timestamps & Hrun). vm_compute in Hrun. discriminate.
Qed.

(** *** Location lists *)

Lemma traffic_sensor_locations_outcome tp rs :
  tape rs = tp ->
  satisfies (traffic_sensor_locations rs)
    (fun locs rs' =>
       length locs = 50%nat /\ Forall (fun _ => True) locs /\ tape rs' = tp)
    never.
Proof.
  intros Htape. unfold traffic_sensor_locations.
  eapply satisfies_weaken;
    [apply (for_each_outcome _ (fun rs0 => tape rs0 = tp)
              (fun _ _ => True) never)| |auto].
  - intros i rs0 _ Hrs0. run_samplers. auto.
  - exact Htape.
  - intros locs rs' [Hall Hrs']. cbv beta.
    rewrite (Forall2_length_eq _ _ _ Hall).
    repeat split; [|assumption].
    eapply Forall2_Forall_r; [exact Hall|auto].
Qed.

Lemma air_quality_monitor_locations_outcome tp rs :
  tape rs = tp ->
  satisfies (air_quality_monitor_locations rs)
    (fun locs rs' =>
       length locs = 20%nat /\ Forall (fun _ => True) locs /\ tape rs' = tp)
    never.
Proof.
  intros Htape. unfold air_quality_monitor_locations.
  eapply satisfies_weaken;
    [apply (for_each_outcome _ (fun rs0 => tape rs0 = tp)
              (fun _ _ => True) never)| |auto].
  - intros i rs0 _ Hrs0. run_samplers. auto.
  - exact Htape.
  - intros locs rs' [Hall Hrs']. cbv beta.
    rewrite (Forall2_length_eq _ _ _ Hall).
    repeat split; [|assumption].
    eapply Forall2_Forall_r; [exact Hall|auto].
Qed.

Lemma weather_station_locations_outcome tp rs :
  tape rs = tp ->
  satisfies (weather_station_locations rs)
    (fun locs rs' =>
       length locs = 10%nat /\ Forall (fun _ => True) locs /\ tape rs' = tp)
    never.
Proof.
  intros Htape. unfold weather_station_locations.
  eapply satisfies_weaken;
    [apply (for_each_outcome _ (fun rs0 => tape rs0 = tp)
              (fun _ _ => True) never)| |auto].
  - intros i rs0 _ Hrs0. run_samplers. auto.
  - exact Htape.
  - intros locs rs' [Hall Hrs']. cbv beta.
    rewrite (Forall2_length_eq _ _ _ Hall).
    repeat split; [|assumption].
    eapply Forall2_Forall_r; [exact Hall|auto].
Qed.

(** Every meter is given one of the five building types. *)
Lemma energy_meter_locations_outcome tp rs :
  tape rs = tp ->
  satisfies (energy_meter_locations rs)
    (fun locs rs' =>
       length locs = 200%nat /\
       Forall (fun m => In (Meter.building_type m) BUILDING_TYPES) locs /\
       tape rs' = tp)
    never.
Proof.
  intros Htape. unfold energy_meter_locations.
  eapply satisfies_weaken;
    [apply (for_each_outcome _ (fun rs0 => tape rs0 = tp)
              (fun _ m => In (Meter.building_type m) BUILDING_TYPES)
              never)| |auto].
  - intros i rs0 _ Hrs0. run_samplers. split; [|assumption].
    cbn [Meter.building_type]. apply nth_In.
    apply Nat.mod_upper_bound. discriminate.
  - exact Htape.
  - intros locs rs' [Hall Hrs']. cbv beta.
    rewrite (Forall2_length_eq _ _ _ Hall).
    repeat split; [|assumption].
    eapply Forall2_Forall_r; [exact Hall|auto].
Qed.

(** *** Readings *)

Lemma traffic_reading_outcome tp timestamp sensor rs :
  tape rs = tp ->
  satisfies (traffic_reading timestamp sensor rs)
    (fun r rs' => traffic_post timestamp sensor r /\ tape rs' = tp) never.
Proof.
  intros Htape. unfold traffic_reading, traffic_post, rush_branch.
  destruct (is_rush_hour (hour timestamp) && negb (is_weekend timestamp));
    run_samplers;
    cbn [TrafficRecord.timestamp TrafficRecord.road_type
         TrafficRecord.avg_speed TrafficRecord.vehicle_count
         TrafficRecord.congestion_level];
    (split; [|assumption]);
    (split; [reflexivity|]); (split; [reflexivity|]);
    (split; [apply py_max_lower|]);
    eexists; split; reflexivity.
Qed.

Lemma air_quality_reading_outcome tp timestamp monitor rs :
  tape rs = tp ->
  satisfies (air_quality_reading timestamp monitor rs)
    (fun r rs' => air_quality_post tp timestamp monitor r /\ tape rs' = tp)
    never.
Proof.
  intros Htape. unfold air_quality_reading, air_quality_post.
  run_samplers.
  cbn [AirQualityRecord.timestamp AirQualityRecord.pm25 AirQualityRecord.pm10
       AirQualityRecord.no2 AirQualityRecord.co AirQualityRecord.humidity].
  split; [|assumption].
  split; [reflexivity|].
  repeat (split; [apply py_max_lower|]).
  rewrite Htape. eexists. reflexivity.
Qed.

Lemma dict_getitem_building_type building_type :
  In building_type BUILDING_TYPES ->
  exists base,
    dict_getitem BASE_CONSUMPTION building_type = Returns base.
Proof.
  intros Hin. simpl in Hin.
  destruct Hin as [<-|[<-|[<-|[<-|[<-|[]]]]]]; eexists; reflexivity.
Qed.

Lemma py_truediv_outcome x y :
  (~ (y == 0)%Q /\ py_truediv x y = Returns (x / y)%Q) \/
  ((y == 0)%Q /\ py_truediv x y = Raises ZeroDivisionError).
Proof.
  unfold py_truediv. destruct (Qeq_bool y 0) eqn:Hy.
  - right. split; [now apply Qeq_bool_eq|reflexivity].
  - left. split; [now apply Qeq_bool_neq|reflexivity].
Qed.

(** A reading of a meter with one of the five building types returns, or
    raises [ZeroDivisionError]; it never raises [KeyError]. *)
Lemma energy_reading_outcome tp timestamp meter rs :
  In (Meter.building_type meter) BUILDING_TYPES ->
  tape rs = tp ->
  satisfies (energy_reading timestamp meter rs)
    (fun r rs' => energy_post tp timestamp meter r /\ tape rs' = tp)
    (zero_voltage_raised tp).
Proof.
  intros Hbt Htape. unfold energy_reading, energy_post.
  destruct (dict_getitem_building_type _ Hbt) as [base Hbase].
  apply satisfies_bind. rewrite Hbase. cbn [lift satisfies].
  apply satisfies_bind. cbv [np_random_uniform satisfies].
  apply satisfies_bind. cbv [np_random_normal satisfies advance].
  cbn [tape cursor].
  apply satisfies_bind.
  match goal with
  | |- context [py_truediv ?x ?y] =>
      destruct (py_truediv_outcome x y) as [[Hnz ->]|[Hz ->]]
  end; [|split; [reflexivity|exists (S (cursor rs)); now rewrite <- Htape]].
  cbn [lift satisfies]. run_samplers.
  cbn [EnergyRecord.timestamp EnergyRecord.building_type
       EnergyRecord.power_consumption EnergyRecord.voltage
       EnergyRecord.current].
  split; [|assumption].
  split; [reflexivity|]. split; [reflexivity|]. split; [assumption|].
  exists base, (cursor rs). rewrite Htape in *.
  repeat split; try reflexivity; assumption.
Qed.

(** *** Weather readings *)

Lemma py_max_upper a b c : (a <= c)%Q -> (b <= c)%Q -> (py_max a b <= c)%Q.
Proof. intros Ha Hb. unfold py_max. now destruct (Qltb a b). Qed.

Lemma StronglySorted_lt_app (l1 l2 : list nat) bound :
  StronglySorted lt l1 -> StronglySorted lt l2 ->
  Forall (fun c => c < bound)%nat l1 ->
  Forall (fun c => bound <= c)%nat l2 ->
  StronglySorted lt (l1 ++ l2).
Proof.
  intros H1 H2 Hlow Hhigh. induction H1 as [|c l1 Hs IH Hc]; simpl.
  - assumption.
  - inversion Hlow as [|? ? Hcb Hlow']; subst.
    constructor; [now apply IH|].
    apply Forall_app. split; [assumption|].
    eapply Forall_impl; [|exact Hhigh]. cbv beta. intros; lia.
Qed.

Lemma weather_reading_outcome tp timestamp day_temp station rs :
  tape rs = tp ->
  satisfies (weather_reading timestamp day_temp station rs)
    (fun r rs' =>
       weather_post tp timestamp day_temp (cursor rs) r /\
       tape rs' = tp /\ (cursor rs < cursor rs')%nat)
    never.
Proof.
  intros Htape. unfold weather_reading, weather_post.
  cbv [bind np_random_normal np_random_uniform np_random_exponential
       np_random_random advance].
  cbn [tape cursor].
  destruct (Qltb _ _); cbv [ret satisfies]; cbn [tape cursor];
    cbn [WeatherRecord.timestamp WeatherRecord.temperature
         WeatherRecord.humidity WeatherRecord.wind_speed
         WeatherRecord.precipitation];
    rewrite Htape;
    (split; [|split; [reflexivity|lia]]);
    (split; [reflexivity|]); (split; [reflexivity|]);
    (split; [apply py_max_lower|]);
    (split; [apply py_max_upper; [discriminate|apply py_min_upper]|]);
    (split; [apply py_max_lower|]);
    first [apply py_max_lower | apply Qle_refl].
Qed.

(** The inner loop over the stations, with the tape positions it reads. *)
Lemma weather_stations_outcome tp timestamp day_temp locs :
  forall rs,
    tape rs = tp ->
    satisfies
      (for_each locs (fun station =>
         weather_reading timestamp day_temp station) rs)
      (fun row rs' =>
         tape rs' = tp /\ (cursor rs <= cursor rs')%nat /\
         exists cs,
           Forall2 (weather_post tp timestamp day_temp) cs row /\
           length row = length locs /\
           StronglySorted lt cs /\
           Forall (fun c => cursor rs <= c < cursor rs')%nat cs)
      never.
Proof.
  induction locs as [|station locs IH]; intros rs Htape.
  - cbn. repeat split; try assumption; try lia.
    exists []. repeat split; constructor.
  - cbn [for_each]. apply satisfies_bind.
    eapply satisfies_weaken;
      [apply (weather_reading_outcome tp timestamp day_temp station rs Htape)
      | |auto].
    intros r rs1 (Hr & Htape1 & Hlt). apply satisfies_bind.
    eapply satisfies_weaken; [apply (IH rs1 Htape1)| |auto].
    intros row rs2 (Htape2 & Hle & cs & Hrow & Hlen & Hsorted & Hrange).
    cbn. repeat split; try assumption; try lia.
    exists (cursor rs :: cs). repeat split.
    + now constructor.
    + simpl. now rewrite Hlen.
    + constructor; [assumption|].
      eapply Forall_impl; [|exact Hrange]. cbv beta. intros; lia.
    + constructor; [lia|].
      eapply Forall_impl; [|exact Hrange]. cbv beta. intros; lia.
Qed.

(** The outer loop over the timestamps: one block of tape positions per
    timestamp, all positions increasing in the order of generation. *)
Lemma weather_rows_outcome np_sin_pi_12 tp locs timestamps :
  forall rs,
    tape rs = tp ->
    satisfies (for_each timestamps (weather_at np_sin_pi_12 locs) rs)
      (fun rows rs' =>
         tape rs' = tp /\ (cursor rs <= cursor rs')%nat /\
         exists blocks,
           length blocks = length timestamps /\
           Forall2
             (fun tb row =>
                weather_block_post np_sin_pi_12 tp (fst tb) (snd tb) row /\
                length row = length locs)
             (combine timestamps blocks) rows /\
           StronglySorted lt (concat (map block_cursors blocks)) /\
           Forall (fun c => cursor rs <= c < cursor rs')%nat
             (concat (map block_cursors blocks)))
      never.
Proof.
  induction timestamps as [|t timestamps IH]; intros rs Htape.
  - cbn. repeat split; try assumption; try lia.
    exists []. repeat split; constructor.
  - cbn [for_each]. apply satisfies_bind. unfold weather_at at 1.
    apply satisfies_bind. cbv [np_random_normal satisfies advance].
    cbn [tape cursor].
    eapply satisfies_weaken;
      [apply (weather_stations_outcome tp t _ locs); exact Htape| |auto].
    cbn [cursor].
    intros row rs1 (Htape1 & Hle1 & cs & Hrow & Hlen & Hsorted & Hrange).
    apply satisfies_bind.
    eapply satisfies_weaken; [apply (IH rs1 Htape1)| |auto].
    intros rows rs2 (Htape2 & Hle2 & blocks & Hblocks & Hrows & Hs2 & Hr2).
    cbn. repeat split; try assumption; try lia.
    exists ((cursor rs, cs) :: blocks). repeat split.
    + simpl. now rewrite Hblocks.
    + cbn [combine]. constructor; [|assumption].
      split; [|assumption].
      unfold weather_block_post. cbn [fst snd]. rewrite <- Htape at 2.
      exact Hrow.
    + change (concat (map block_cursors ((cursor rs, cs) :: blocks)))
        with ((cursor rs :: cs) ++ concat (map block_cursors blocks)).
      apply (StronglySorted_lt_app _ _ (cursor rs1)).
      * constructor; [assumption|].
        eapply Forall_impl; [|exact Hrange]. cbv beta. intros; lia.
      * assumption.
      * constructor; [lia|].
        eapply Forall_impl; [|exact Hrange]. cbv beta. intros; lia.
      * eapply Forall_impl; [|exact Hr2]. cbv beta. intros; lia.
    + change (concat (map block_cursors ((cursor rs, cs) :: blocks)))
        with ((cursor rs :: cs) ++ concat (map block_cursors blocks)).
      constructor; [lia|]. apply Forall_app. split.
      * eapply Forall_impl; [|exact Hrange]. cbv beta. intros; lia.
      * eapply Forall_impl; [|exact Hr2]. cbv beta. intros; lia.
Qed.

(** *** The four tables *)

Lemma traffic_data_outcome tp self rs :
  tape rs = tp ->
  satisfies (traffic_data self rs)
    (fun records rs' =>
       exists locs timestamps rows,
         records = concat rows /\
         generate_timestamps self 5 = Returns timestamps /\
         length locs = 50%nat /\
         Forall2 (fun t row => Forall2 (traffic_post t) locs row)
           timestamps rows /\
         tape rs' = tp)
    never.
Proof.
  apply (dataset_outcome traffic_sensor_locations traffic_reading self 5
           50 tp (fun _ => True) traffic_post never).
  - reflexivity.
  - apply traffic_sensor_locations_outcome.
  - intros t l rs0 _. apply traffic_reading_outcome.
Qed.

Lemma air_quality_data_outcome tp self rs :
  tape rs = tp ->
  satisfies (air_quality_data self rs)
    (fun records rs' =>
       exists locs timestamps rows,
         records = concat rows /\
         generate_timestamps self 15 = Returns timestamps /\
         length locs = 20%nat /\
         Forall2 (fun t row => Forall2 (air_quality_post tp t) locs row)
           timestamps rows /\
         tape rs' = tp)
    never.
Proof.
  apply (dataset_outcome air_quality_monitor_locations air_quality_reading
           self 15 20 tp (fun _ => True) (air_quality_post tp) never).
  - reflexivity.
  - apply air_quality_monitor_locations_outcome.
  - intros t l rs0 _. apply air_quality_reading_outcome.
Qed.

Lemma energy_data_outcome tp self rs :
  tape rs = tp ->
  satisfies (energy_data self rs)
    (fun records rs' =>
       exists locs timestamps rows,
         records = concat rows /\
         generate_timestamps self 10 = Returns timestamps /\
         length locs = 200%nat /\
         Forall2 (fun t row => Forall2 (energy_post tp t) locs row)
           timestamps rows /\
         tape rs' = tp)
    (zero_voltage_raised tp).
Proof.
  apply (dataset_outcome energy_meter_locations energy_reading self 10
           200 tp (fun m => In (Meter.building_type m) BUILDING_TYPES)
           (energy_post tp) (zero_voltage_raised tp)).
  - reflexivity.
  - apply energy_meter_locations_outcome.
  - intros t l rs0. apply energy_reading_outcome.
Qed.

(** When no sampled voltage is zero, [energy_data] returns. *)
Lemma energy_data_returns tp self rs :
  tape rs = tp ->
  (forall c, ~ (240 + 5 * std_normal tp c == 0)%Q) ->
  satisfies (energy_data self rs)
    (fun records rs' =>
       exists locs timestamps rows,
         records = concat rows /\
         generate_timestamps self 10 = Returns timestamps /\
         length locs = 200%nat /\
         Forall2 (fun t row => Forall2 (energy_post tp t) locs row)
           timestamps rows /\
         tape rs' = tp)
    never.
Proof.
  intros Htape Hnonzero.
  eapply satisfies_weaken; [apply (energy_data_outcome tp self rs Htape)| |].
  - auto.
  - intros e [_ [c Hc]]. exact (Hnonzero c Hc).
Qed.

Lemma weather_data_outcome np_sin_pi_12 tp self rs :
  tape rs = tp ->
  satisfies (weather_data np_sin_pi_12 self rs)
    (fun records rs' =>
       exists timestamps blocks rows,
         records = concat rows /\
         generate_timestamps self 30 = Returns timestamps /\
         length blocks = length timestamps /\
         Forall2
           (fun tb row =>
              weather_block_post np_sin_pi_12 tp (fst tb) (snd tb) row /\
              length row = 10%nat)
           (combine timestamps blocks) rows /\
         StronglySorted lt (concat (map block_cursors blocks)) /\
         tape rs' = tp)
    never.
Proof.
  intros Htape. unfold weather_data. apply satisfies_bind.
  eapply satisfies_weaken;
    [apply (weather_station_locations_outcome tp rs Htape)| |auto].
  intros locs rs1 (Hlen & _ & Htape1).
  apply satisfies_bind.
  rewrite (generate_timestamps_closed self 30 eq_refl). cbn [lift satisfies].
  set (timestamps := arithmetic_series _ _ _).
  apply satisfies_bind.
  eapply satisfies_weaken;
    [apply (weather_rows_outcome np_sin_pi_12 tp locs timestamps rs1 Htape1)
    | |auto].
  intros rows rs2 (Htape2 & _ & blocks & Hblocks & Hrows & Hsorted & _).
  cbn. exists timestamps, blocks, rows. rewrite <- Hlen.
  repeat split; assumption.
Qed.

(** The rows of the weather table have ten records each. *)
Lemma weather_rows_length {T} (P : T -> list WeatherRecord.t -> Prop)
    (xs : list T) rows n :
  Forall2 (fun x row => P x row /\ length row = n) xs rows ->
  length (concat rows) = (length xs * n)%nat.
Proof.
  intros Hrows.
  rewrite (concat_length_uniform rows n).
  - now rewrite (Forall2_length_eq _ _ _ Hrows).
  - eapply Forall2_Forall_r; [exact Hrows|]. cbv beta. intros x row [_ H].
    exact H.
Qed.

Lemma combine_length_same {A B} (xs : list A) (ys : list B) :
  length ys = length xs -> length (combine xs ys) = length xs.
Proof. intros H. rewrite length_combine, H. apply Nat.min_id. Qed.

(** *** Record counts *)

Lemma sample_tape_voltage_nonzero c :
  ~ (240 + 5 * std_normal sample_tape c == 0)%Q.
Proof.
  cbn [std_normal sample_tape]. unfold Qeq, Qplus, Qmult. cbn [Qnum Qden].
  pose proof (Nat.mod_upper_bound c 7). lia.
Qed.

(** C3.  Each of the traffic, air-quality and weather tables is returned and
    has as many records as its series has timestamps times 50, 20 and 10;
    the energy table, when it is returned, has as many as its series times
    200, it is returned whenever no sampled voltage is zero, and otherwise
    the generator raises [ZeroDivisionError]; the zone table has 8 rows. *)
Theorem record_counts np_sin_pi_12 self rs :
  (exists timestamps records rs',
      generate_timestamps self 5 = Returns timestamps /\
      traffic_data self rs = Returns (records, rs') /\
      length records = (length timestamps * 50)%nat) /\
  (exists timestamps records rs',
      generate_timestamps self 15 = Returns timestamps /\
      air_quality_data self rs = Returns (records, rs') /\
      length records = (length timestamps * 20)%nat) /\
  (exists timestamps records rs',
      generate_timestamps self 30 = Returns timestamps /\
      weather_data np_sin_pi_12 self rs = Returns (records, rs') /\
      length records = (length timestamps * 10)%nat) /\
  (exists timestamps,
      generate_timestamps self 10 = Returns timestamps /\
      satisfies (energy_data self rs)
        (fun records _ => length records = (length timestamps * 200)%nat)
        (zero_voltage_raised (tape rs))) /\
  ((forall c, ~ (240 + 5 * std_normal (tape rs) c == 0)%Q) ->
   exists records rs', energy_data self rs = Returns (records, rs')) /\
  length zones_data = 8%nat.
Proof.
  repeat split.
  - destruct (satisfies_returns _ _
                (traffic_data_outcome (tape rs) self rs eq_refl))
      as (records & rs' & Hrun & locs & ts & rows & -> & Hts & Hlen & Hrows & _).
    exists ts, (concat rows), rs'. repeat split; try assumption.
    rewrite (nested_rows_length _ _ _ _ Hrows), Hlen. reflexivity.
  - destruct (satisfies_returns _ _
                (air_quality_data_outcome (tape rs) self rs eq_refl))
      as (records & rs' & Hrun & locs & ts & rows & -> & Hts & Hlen & Hrows & _).
    exists ts, (concat rows), rs'. repeat split; try assumption.
    rewrite (nested_rows_length _ _ _ _ Hrows), Hlen. reflexivity.
  - destruct (satisfies_returns _ _
                (weather_data_outcome np_sin_pi_12 (tape rs) self rs eq_refl))
      as (records & rs' & Hrun & ts & blocks & rows & -> & Hts & Hlen
          & Hrows & _).
    exists ts, (concat rows), rs'. repeat split; try assumption.
    rewrite (weather_rows_length _ _ _ _ Hrows).
    now rewrite combine_length_same.
  - pose proof (generate_timestamps_closed self 10 eq_refl) as Hts.
    eexists. split; [exact Hts|].
    eapply satisfies_weaken;
      [apply (energy_data_outcome (tape rs) self rs eq_refl)| |auto].
    intros records rs' (locs & ts & rows & -> & Hts' & Hlen & Hrows & _).
    rewrite Hts in Hts'. injection Hts' as <-.
    rewrite (nested_rows_length _ _ _ _ Hrows), Hlen. reflexivity.
  - intros Hnonzero.
    destruct (satisfies_returns _ _
                (energy_data_returns (tape rs) self rs eq_refl Hnonzero))
      as (records & rs' & Hrun & _).
    now exists records, rs'.
Qed.

Lemma record_counts_witness :
  exists records rs',
    energy_data ten_minute_window sample_random_state
    = Returns (records, rs').
Proof.
  apply (record_counts sample_sin_pi_12 ten_minute_window
           sample_random_state).
  exact sample_tape_voltage_nonzero.
Defined.

(** *** Congestion levels *)

Lemma congestion_rush_matches count base :
  congestion_matches true (congestion_rush count base) count base.
Proof.
  unfold congestion_matches, congestion_rush.
  destruct (Qltb _ _) eqn:H.
  - apply Qltb_lt in H. repeat split; intros H'; try assumption;
      try discriminate. exfalso. exact (Qlt_not_le _ _ H H').
  - apply Qltb_ge in H. repeat split; intros H'; try assumption;
      try discriminate; try reflexivity.
    exfalso. exact (Qlt_not_le _ _ H' H).
Qed.

Lemma congestion_calm_matches count base :
  congestion_matches false (congestion_calm count base) count base.
Proof.
  unfold congestion_matches, congestion_calm.
  destruct (Qltb _ _) eqn:H.
  - apply Qltb_lt in H. repeat split; intros H'; try assumption;
      try discriminate. exfalso. exact (Qlt_not_le _ _ H H').
  - apply Qltb_ge in H. repeat split; intros H'; try assumption;
      try discriminate; try reflexivity.
    exfalso. exact (Qlt_not_le _ _ H' H).
Qed.

(** Clamping a negative count to 0 changes neither classification: both
    thresholds are positive. *)
Lemma congestion_rush_clamped raw road_type :
  congestion_rush (Z.max 0 raw) (base_count_of road_type)
  = congestion_rush raw (base_count_of road_type).
Proof.
  unfold congestion_rush, base_count_of, Qltb, Qle_bool.
  destruct (String.eqb road_type "highway"); cbn;
    repeat match goal with
           | |- context [(?a <=? ?b)] => destruct (Z.leb_spec a b)
           end; try reflexivity; lia.
Qed.

Lemma congestion_calm_clamped raw road_type :
  congestion_calm (Z.max 0 raw) (base_count_of road_type)
  = congestion_calm raw (base_count_of road_type).
Proof.
  unfold congestion_calm, base_count_of, Qltb, Qle_bool.
  destruct (String.eqb road_type "highway"); cbn;
    repeat match goal with
           | |- context [(?a <=? ?b)] => destruct (Z.leb_spec a b)
           end; try reflexivity; lia.
Qed.

(** C4.  In every traffic record the congestion level is the stated function
    of the vehicle count and the base count of the record's road type, on
    either branch, "medium" at the thresholds themselves; this holds of the
    sampled count [raw] and of the clamped count the record stores. *)
Theorem congestion_level_classification self rs :
  exists records rs',
    traffic_data self rs = Returns (records, rs') /\
    Forall
      (fun r =>
         let rush := rush_branch (TrafficRecord.timestamp r) in
         let level := TrafficRecord.congestion_level r in
         let base := base_count_of (TrafficRecord.road_type r) in
         exists raw,
           TrafficRecord.vehicle_count r = Z.max 0 raw /\
           congestion_matches rush level raw base /\
           congestion_matches rush level (TrafficRecord.vehicle_count r) base)
      records.
Proof.
  destruct (satisfies_returns _ _
              (traffic_data_outcome (tape rs) self rs eq_refl))
    as (records & rs' & Hrun & locs & ts & rows & -> & _ & _ & Hrows & _).
  exists (concat rows), rs'. split; [exact Hrun|].
  eapply nested_rows_Forall; [exact Hrows|].
  intros t sensor r (Ht & Hroad & _ & raw & Hcount & Hlevel).
  cbv zeta. exists raw. rewrite Ht, Hroad, Hcount, Hlevel.
  split; [reflexivity|].
  destruct (rush_branch t).
  - split; [apply congestion_rush_matches|].
    rewrite <- congestion_rush_clamped. apply congestion_rush_matches.
  - split; [apply congestion_calm_matches|].
    rewrite <- congestion_calm_clamped. apply congestion_calm_matches.
Qed.

(** The thresholds themselves: a count of exactly 1.5 or 0.7 times the base
    count of a highway is "medium". *)
Example congestion_at_thresholds :
  congestion_rush 45 30 = "medium"%string /\
  congestion_rush 46 30 = "high"%string /\
  congestion_calm 21 30 = "medium"%string /\
  congestion_calm 20 30 = "low"%string.
Proof. repeat split. Qed.

(** *** Clamped fields *)

(** C6.  Whatever the tape holds, every traffic record has a vehicle count
    of at least 0 and an average speed of at least 5; every weather record a
    humidity between 20 and 100, a wind speed and a precipitation of at
    least 0; every air-quality record pm25, pm10, no2 and co of at least
    0. *)
Theorem clamped_fields_within_bounds np_sin_pi_12 self rs :
  (exists records rs',
      traffic_data self rs = Returns (records, rs') /\
      Forall (fun r =>
                0 <= TrafficRecord.vehicle_count r /\
                (5 <= TrafficRecord.avg_speed r)%Q) records) /\
  (exists records rs',
      weather_data np_sin_pi_12 self rs = Returns (records, rs') /\
      Forall (fun r =>
                (20 <= WeatherRecord.humidity r)%Q /\
                (WeatherRecord.humidity r <= 100)%Q /\
                (0 <= WeatherRecord.wind_speed r)%Q /\
                (0 <= WeatherRecord.precipitation r)%Q) records) /\
  (exists records rs',
      air_quality_data self rs = Returns (records, rs') /\
      Forall (fun r =>
                (0 <= AirQualityRecord.pm25 r)%Q /\
                (0 <= AirQualityRecord.pm10 r)%Q /\
                (0 <= AirQualityRecord.no2 r)%Q /\
                (0 <= AirQualityRecord.co r)%Q) records).
Proof.
  split; [|split].
  - destruct (satisfies_returns _ _
                (traffic_data_outcome (tape rs) self rs eq_refl))
      as (records & rs' & Hrun & locs & ts & rows & -> & _ & _ & Hrows & _).
    exists (concat rows), rs'. split; [exact Hrun|].
    eapply nested_rows_Forall; [exact Hrows|].
    intros t sensor r (_ & _ & Hspeed & raw & Hcount & _).
    cbv beta. rewrite Hcount. split; [lia|exact Hspeed].
  - destruct (satisfies_returns _ _
                (weather_data_outcome np_sin_pi_12 (tape rs) self rs eq_refl))
      as (records & rs' & Hrun & ts & blocks & rows & -> & _ & _ & Hrows & _).
    exists (concat rows), rs'. split; [exact Hrun|].
    apply Forall_concat_intro.
    eapply Forall2_Forall_r; [exact Hrows|].
    cbv beta. intros tb row [Hblock _].
    eapply Forall2_Forall_r; [exact Hblock|].
    cbv beta. intros c r (_ & _ & H1 & H2 & H3 & H4). auto.
  - destruct (satisfies_returns _ _
                (air_quality_data_outcome (tape rs) self rs eq_refl))
      as (records & rs' & Hrun & locs & ts & rows & -> & _ & _ & Hrows & _).
    exists (concat rows), rs'. split; [exact Hrun|].
    eapply nested_rows_Forall; [exact Hrows|].
    intros t monitor r (_ & H1 & H2 & H3 & H4 & _). auto.
Qed.

(** *** Air-quality humidity *)

Lemma sample_tape_in_range : tape_in_range sample_tape.
Proof.
  intros n. cbn [std_uniform std_exponential sample_tape].
  unfold Qle, Qlt. cbn [Qnum Qden].
  pose proof (Nat.mod_upper_bound n 10).
  pose proof (Nat.mod_upper_bound n 5). lia.
Qed.

Lemma uniform_30_80_range u :
  (0 <= u)%Q -> (u < 1)%Q ->
  (30 <= 30 + (80 - 30) * u)%Q /\ (30 + (80 - 30) * u <= 80)%Q.
Proof. intros H0 H1. split; lra. Qed.

(** C10.  On a tape whose uniform variates lie in [0,1), every air-quality
    record's humidity is the sample of [np.random.uniform(30, 80)] itself,
    unclamped, and lies between 30 and 80, hence between 0 and 100. *)
Theorem air_quality_humidity_range self rs :
  tape_in_range (tape rs) ->
  exists records rs',
    air_quality_data self rs = Returns (records, rs') /\
    Forall
      (fun r =>
         (exists c,
             AirQualityRecord.humidity r
             = (30 + (80 - 30) * std_uniform (tape rs) c)%Q) /\
         (30 <= AirQualityRecord.humidity r)%Q /\
         (AirQualityRecord.humidity r <= 80)%Q /\
         (0 <= AirQualityRecord.humidity r)%Q /\
         (AirQualityRecord.humidity r <= 100)%Q)
      records.
Proof.
  intros Hrange.
  destruct (satisfies_returns _ _
              (air_quality_data_outcome (tape rs) self rs eq_refl))
    as (records & rs' & Hrun & locs & ts & rows & -> & _ & _ & Hrows & _).
  exists (concat rows), rs'. split; [exact Hrun|].
  eapply nested_rows_Forall; [exact Hrows|].
  intros t monitor r (_ & _ & _ & _ & _ & c & Hhum).
  cbv beta. split; [now exists c|].
  destruct (Hrange c) as (H0 & H1 & _).
  destruct (uniform_30_80_range _ H0 H1) as [Hlow Hhigh].
  rewrite Hhum. repeat split; try assumption; lra.
Qed.

Lemma air_quality_humidity_range_witness :
  exists records rs',
    air_quality_data ten_minute_window sample_random_state
    = Returns (records, rs') /\
    Forall
      (fun r =>
         (30 <= AirQualityRecord.humidity r)%Q /\
         (AirQualityRecord.humidity r <= 80)%Q)
      records.
Proof.
  destruct (air_quality_humidity_range ten_minute_window sample_random_state
              sample_tape_in_range) as (records & rs' & Hrun & Hall).
  exists records, rs'. split; [exact Hrun|].
  eapply Forall_impl; [|exact Hall].
  cbv beta. intros r (_ & Hlow & Hhigh & _). now split.
Defined.

(** *** Energy consumption *)

(** On the five building types the factor the code selects is the one the
    specification tabulates. *)
Lemma consumption_factor_spec building_type hour weekend :
  In building_type BUILDING_TYPES ->
  spec_consumption_factor building_type hour weekend
  = Some (consumption_factor building_type hour weekend).
Proof.
  intros Hin. simpl in Hin.
  destruct Hin as [<-|[<-|[<-|[<-|[<-|[]]]]]]; reflexivity.
Qed.

(** C5.  The factor chosen for each of the five building types is the
    tabulated one (1.5 or 0.3 for commercial, office and retail by business
    hours and weekend, 1.0 for industrial, 1.2 or 0.8 for residential by
    the hour), and in every energy record power_consumption is the base
    consumption of its building type times that factor times a sample of
    Uniform(0.7, 1.3). *)
Theorem energy_consumption_factor self rs :
  (forall building_type hour weekend,
      In building_type BUILDING_TYPES ->
      spec_consumption_factor building_type hour weekend
      = Some (consumption_factor building_type hour weekend)) /\
  satisfies (energy_data self rs)
    (fun records _ =>
       Forall
         (fun r =>
            exists base factor c,
              dict_getitem BASE_CONSUMPTION (EnergyRecord.building_type r)
              = Returns base /\
              spec_consumption_factor (EnergyRecord.building_type r)
                (hour (EnergyRecord.timestamp r))
                (5 <=? weekday (EnergyRecord.timestamp r))
              = Some factor /\
              EnergyRecord.power_consumption r
              = (base * factor
                 * (0.7 + (1.3 - 0.7) * std_uniform (tape rs) c))%Q)
         records)
    (zero_voltage_raised (tape rs)).
Proof.
  split; [exact consumption_factor_spec|].
  eapply satisfies_weaken;
    [apply (energy_data_outcome (tape rs) self rs eq_refl)| |auto].
  intros records rs' (locs & ts & rows & -> & _ & _ & Hrows & _).
  eapply nested_rows_Forall; [exact Hrows|].
  intros t meter r (Ht & _ & Hbt & base & c & Hbase & Hpower & _).
  cbv beta. exists base. eexists. exists c.
  split; [exact Hbase|]. split.
  - apply consumption_factor_spec. exact Hbt.
  - rewrite Hpower, Ht. reflexivity.
Qed.

Lemma energy_consumption_factor_witness :
  spec_consumption_factor "commercial" 18 false
  = Some (consumption_factor "commercial" 18 false) /\
  consumption_factor "commercial" 18 false = 1.5%Q.
Proof.
  split; [|reflexivity].
  apply (proj1 (energy_consumption_factor ten_minute_window
                  sample_random_state)).
  simpl. auto.
Defined.

(** The table of factors, entry by entry. *)
Example consumption_factor_table :
  forall hour weekend,
    consumption_factor "industrial" hour weekend = 1.0%Q /\
    consumption_factor "commercial" hour weekend
    = (if is_business_hours hour && negb weekend then 1.5 else 0.3)%Q /\
    consumption_factor "office" hour weekend
    = (if is_business_hours hour && negb weekend then 1.5 else 0.3)%Q /\
    consumption_factor "retail" hour weekend
    = (if is_business_hours hour && negb weekend then 1.5 else 0.3)%Q /\
    consumption_factor "residential" hour weekend
    = (if (18 <=? hour) && (hour <=? 22) then 1.2 else 0.8)%Q.
Proof. intros hour weekend. repeat split. Qed.

(** *** Current and voltage *)

Lemma zero_voltage_tape_is_zero c :
  (240 + 5 * std_normal zero_voltage_tape c == 0)%Q.
Proof. reflexivity. Qed.

(** On the tape whose voltages are all zero, a generator with a non-empty
    window raises [ZeroDivisionError]. *)
Lemma energy_data_zero_voltage self n :
  start_time self < end_time self ->
  energy_data self {| tape := zero_voltage_tape; cursor := n |}
  = Raises ZeroDivisionError.
Proof.
  intros Hwindow.
  pose proof (energy_data_outcome zero_voltage_tape self
                {| tape := zero_voltage_tape; cursor := n |} eq_refl) as H.
  destruct (energy_data self _) as [[records rs']|e|]; cbn in H.
  - exfalso.
    destruct H as (locs & ts & rows & _ & Hts & Hlen & Hrows & _).
    rewrite (generate_timestamps_closed self 10 eq_refl) in Hts.
    injection Hts as Hts. rewrite <- Hts in Hrows.
    rewrite (steps_below_next (end_time self) 600000000 (start_time self)
               eq_refl Hwindow) in Hrows.
    cbn [arithmetic_series] in Hrows.
    inversion Hrows as [|t row ts' rows' Hrow _]; subst.
    destruct locs as [|meter locs]; [discriminate|].
    inversion Hrow as [|m r ms rs0 Hpost _]; subst.
    destruct Hpost as (_ & _ & _ & base & c & _ & _ & Hv & Hnz & _).
    apply Hnz. rewrite Hv. apply zero_voltage_tape_is_zero.
  - destruct H as [-> _]. reflexivity.
  - contradiction.
Qed.

(** C9.  In every energy record the voltage is the sample of Normal(240, 5),
    it is not zero, and current is power_consumption divided by voltage,
    times 1000; the only exception the generator raises is
    [ZeroDivisionError], and only when a sampled voltage is zero; whenever
    no sampled voltage is zero the table is returned; and nothing keeps a
    zero voltage from being reached: on a tape that yields it, a generator
    with a non-empty window raises [ZeroDivisionError]. *)
Theorem energy_current_unguarded_division self rs :
  satisfies (energy_data self rs)
    (fun records _ =>
       Forall
         (fun r =>
            (exists c,
                EnergyRecord.voltage r
                = (240 + 5 * std_normal (tape rs) c)%Q) /\
            ~ (EnergyRecord.voltage r == 0)%Q /\
            EnergyRecord.current r
            = (EnergyRecord.power_consumption r / EnergyRecord.voltage r
               * 1000)%Q)
         records)
    (zero_voltage_raised (tape rs)) /\
  ((forall c, ~ (240 + 5 * std_normal (tape rs) c == 0)%Q) ->
   exists records rs', energy_data self rs = Returns (records, rs')) /\
  (start_time self < end_time self ->
   energy_data self {| tape := zero_voltage_tape; cursor := cursor rs |}
   = Raises ZeroDivisionError).
Proof.
  split; [|split].
  - eapply satisfies_weaken;
      [apply (energy_data_outcome (tape rs) self rs eq_refl)| |auto].
    intros records rs' (locs & ts & rows & -> & _ & _ & Hrows & _).
    eapply nested_rows_Forall; [exact Hrows|].
    intros t meter r (_ & _ & _ & base & c & _ & _ & Hv & Hnz & Hcur).
    cbv beta. split; [now exists (S c)|]. now split.
  - intros Hnonzero.
    destruct (satisfies_returns _ _
                (energy_data_returns (tape rs) self rs eq_refl Hnonzero))
      as (records & rs' & Hrun & _).
    now exists records, rs'.
  - apply energy_data_zero_voltage.
Qed.

Lemma energy_current_unguarded_division_witness :
  (exists records rs',
      energy_data ten_minute_window sample_random_state
      = Returns (records, rs')) /\
  energy_data ten_minute_window {| tape := zero_voltage_tape; cursor := 0 |}
  = Raises ZeroDivisionError.
Proof.
  destruct (energy_current_unguarded_division ten_minute_window
              sample_random_state) as (_ & Hreturns & Hraises).
  split.
  - apply Hreturns. exact sample_tape_voltage_nonzero.
  - apply Hraises. reflexivity.
Defined.

(** True division is defined exactly on the nonzero divisors. *)
Example py_truediv_defined :
  py_truediv 36 240 = Returns (36 / 240)%Q /\
  py_truediv 36 0 = Raises ZeroDivisionError.
Proof. split; reflexivity. Qed.

(** *** The shared day temperature *)

Lemma Forall2_weaken {A B} (P P' : A -> B -> Prop) xs ys :
  Forall2 P xs ys -> (forall x y, P x y -> P' x y) -> Forall2 P' xs ys.
Proof. induction 1; intros HPP; constructor; auto. Qed.

(** C7.  The weather table has one block of ten records per timestamp of
    the 30-minute series.  Each block comes with a tape position [c] and ten
    positions [cs]: the one value 20 + Normal(0,3) sample at [c] +
    sin((hour - 6) pi / 12) * 0.3 * 5 is shared by the block, and every
    record's temperature is that value plus the Normal(0,1) sample at its
    own position.  All these positions, taken in the order of generation,
    increase strictly, so no two temperatures share a sample and each
    timestamp draws its day temperature once. *)
Theorem weather_day_temp_shared np_sin_pi_12 self rs :
  exists timestamps blocks rows rs',
    generate_timestamps self 30 = Returns timestamps /\
    weather_data np_sin_pi_12 self rs = Returns (concat rows, rs') /\
    length blocks = length timestamps /\
    StronglySorted lt (concat (map block_cursors blocks)) /\
    Forall2
      (fun tb row =>
         let timestamp := fst tb in
         let c := fst (snd tb) in
         let cs := snd (snd tb) in
         let day_temp :=
           (20 + (0 + 3 * std_normal (tape rs) c)
            + np_sin_pi_12 (hour timestamp - 6)%Z * 0.3 * 5)%Q in
         length row = 10%nat /\
         Forall2
           (fun ci r =>
              WeatherRecord.timestamp r = timestamp /\
              WeatherRecord.temperature r
              = (day_temp + (0 + 1 * std_normal (tape rs) ci))%Q)
           cs row)
      (combine timestamps blocks) rows.
Proof.
  destruct (satisfies_returns _ _
              (weather_data_outcome np_sin_pi_12 (tape rs) self rs eq_refl))
    as (records & rs' & Hrun & ts & blocks & rows & -> & Hts & Hlen
        & Hrows & Hsorted & _).
  exists ts, blocks, rows, rs'.
  repeat split; try assumption.
  eapply Forall2_weaken; [exact Hrows|].
  cbv beta zeta. intros tb row [Hblock Hrow]. split; [exact Hrow|].
  eapply Forall2_weaken; [exact Hblock|].
  cbv beta. intros ci r (Ht & Htemp & _). split; [exact Ht|exact Htemp].
Qed.

(** The ten-minute sample window holds one timestamp, hence one block. *)
Example weather_sample_block :
  match weather_data sample_sin_pi_12 ten_minute_window sample_random_state
  with
  | Returns (records, _) =>
      map WeatherRecord.temperature (firstn 3 records)
  | _ => []
  end
  = [(9500 # 400); (10700 # 400); (10500 # 400)]%Q.
Proof. vm_compute. reflexivity. Qed.

(** *** The entry point *)

Lemma bind_returns {A B} (c : M A) (k : A -> M B) rs a rs' :
  c rs = Returns (a, rs') -> bind c k rs = k a rs'.
Proof. intros H. unfold bind. now rewrite H. Qed.

Lemma bind_raises {A B} (c : M A) (k : A -> M B) rs e :
  c rs = Raises e -> bind c k rs = Raises e.
Proof. intros H. unfold bind. now rewrite H. Qed.

Lemma bind_eq {A B} (c : M A) (k : A -> M B) rs o :
  c rs = o ->
  bind c k rs
  = match o with
    | Returns (a, rs') => k a rs'
    | Raises e => Raises e
    | Diverges => Diverges
    end.
Proof. intros <-. reflexivity. Qed.

(** A file or console operation either raises its fault or lets the run go
    on from the same state. *)
Lemma bind_io {B} env step (k : unit -> M B) rs :
  bind (io env step) k rs
  = match env step with
    | Some e => Raises e
    | None => k tt rs
    end.
Proof. unfold bind, io. now destruct (env step). Qed.

Lemma io_returns env step rs :
  env step = None -> io env step rs = Returns (tt, rs).
Proof. intros H. unfold io. now rewrite H. Qed.

Lemma io_raises env step rs e :
  env step = Some e -> io env step rs = Raises e.
Proof. intros H. unfold io. now rewrite H. Qed.

Lemma first_fault_app env steps steps' :
  first_fault env (steps ++ steps')
  = match first_fault env steps with
    | Some e => Some e
    | None => first_fault env steps'
    end.
Proof.
  induction steps as [|step steps IH]; [reflexivity|].
  cbn [app first_fault]. now destruct (env step).
Qed.

Lemma first_fault_In env steps e :
  first_fault env steps = Some e ->
  exists step, In step steps /\ env step = Some e.
Proof.
  induction steps as [|step steps IH]; [discriminate|].
  cbn [first_fault]. destruct (env step) as [e'|] eqn:Hstep.
  - intros H. injection H as <-. exists step. split; [now left|exact Hstep].
  - intros H. destruct (IH H) as (s & Hin & Hs).
    exists s. split; [now right|exact Hs].
Qed.

Lemma first_fault_none env steps :
  first_fault env steps = None <-> Forall (fun step => env step = None) steps.
Proof.
  induction steps as [|step steps IH]; [now split|].
  cbn [first_fault]. destruct (env step) eqn:Hstep; split.
  - discriminate.
  - intros H. inversion H; subst. congruence.
  - intros H. constructor; [exact Hstep|now apply IH].
  - intros H. inversion H; subst. now apply IH.
Qed.


(** *** One generator: announce, build, write, report *)


(** When the table can be built, the generator raises the exception of the
    first of its three operations that fails, and returns the table when
    none does. *)
Lemma wrapped_run {A} (data : M A) env before write after rs d rs1 :
  data rs = Returns (d, rs1) ->
  (_ <- io env before ;;
   d0 <- data ;;
   _ <- io env write ;;
   _ <- io env after ;;
   ret d0) rs
  = match first_fault env [before; write; after] with
    | Some e => Raises e
    | None => Returns (d, rs1)
    end.
Proof.
  intros Hdata. cbn [first_fault].
  rewrite bind_io. destruct (env before); [reflexivity|].
  rewrite (bind_returns _ _ _ _ _ Hdata).
  rewrite bind_io. destruct (env write); [reflexivity|].
  rewrite bind_io. destruct (env after); reflexivity.
Qed.


(** A generator returns a table exactly when the table was built and none
    of its three operations failed. *)
Lemma wrapped_inv {A} (data : M A) env before write after rs d rs' :
  (_ <- io env before ;;
   d0 <- data ;;
   _ <- io env write ;;
   _ <- io env after ;;
   ret d0) rs = Returns (d, rs') <->
  data rs = Returns (d, rs') /\
  first_fault env [before; write; after] = None.
Proof.
  split.
  - rewrite bind_io. cbn [first_fault].
    destruct (env before); [discriminate|].
    unfold bind at 1.
    destruct (data rs) as [[d0 rs0]| |]; try discriminate.
    rewrite bind_io. destruct (env write); [discriminate|].
    rewrite bind_io. destruct (env after); [discriminate|].
    unfold ret. intros H. injection H as <- <-. now split.
  - intros [Hdata Hfaults].
    rewrite (wrapped_run _ _ _ _ _ _ _ _ Hdata). now rewrite Hfaults.
Qed.

Lemma generators_return_their_tables np_sin_pi_12 env self rs :
  (forall d rs',
      generate_traffic_sensors env self rs = Returns (d, rs') <->
      traffic_data self rs = Returns (d, rs') /\
      first_fault env [PrintAt 52; WriteTrafficCsv; PrintAt 97] = None) /\
  (forall d rs',
      generate_air_quality_data env self rs = Returns (d, rs') <->
      air_quality_data self rs = Returns (d, rs') /\
      first_fault env [PrintAt 101; WriteAirQualityJson; PrintAt 137] = None) /\
  (forall d rs',
      generate_weather_data np_sin_pi_12 env self rs = Returns (d, rs') <->
      weather_data np_sin_pi_12 self rs = Returns (d, rs') /\
      first_fault env [PrintAt 141; WriteWeatherParquet; PrintAt 178] = None) /\
  (forall d rs',
      generate_energy_data env self rs = Returns (d, rs') <->
      energy_data self rs = Returns (d, rs') /\
      first_fault env [PrintAt 182; WriteEnergyCsv; PrintAt 241] = None).
Proof.
  split; [|split; [|split]]; intros d rs'; apply wrapped_inv.
Qed.

(** *** The constructor and the handlers *)

Lemma new_generator_run env now_first now_second rs :
  new_generator env now_first now_second rs
  = match first_fault env INIT_ORDER with
    | Some e => Raises e
    | None => Returns (init now_first now_second, rs)
    end.
Proof.
  unfold new_generator, INIT_ORDER. cbn [first_fault].
  rewrite bind_io. destruct (env MakeDataDir); [reflexivity|].
  rewrite bind_io. destruct (env (PrintAt 37)); [reflexivity|].
  rewrite bind_io. destruct (env (PrintAt 38)); [reflexivity|].
  rewrite bind_io. destruct (env (PrintAt 39)); reflexivity.
Qed.

Lemma handle_by_clause e :
  handle e = if PyExn_is_ImportError e then 0 else 1.
Proof. now destruct e. Qed.

(** An [except] clause returns its status unless one of its own [print]
    calls raises, and then that exception leaves [main]. *)
Lemma except_clauses_run env e rs :
  except_clauses env e rs
  = match first_fault env (HANDLER_ORDER e) with
    | Some e' => Raises e'
    | None => Returns (handle e, rs)
    end.
Proof.
  unfold except_clauses, HANDLER_ORDER. rewrite handle_by_clause.
  destruct (PyExn_is_ImportError e); cbn [first_fault].
  - rewrite bind_io. destruct (env (PrintAt 301)); [reflexivity|].
    rewrite bind_io. destruct (env (PrintAt 302)); reflexivity.
  - rewrite bind_io. destruct (env (PrintAt 304)); reflexivity.
Qed.

(** [main] in terms of the outcome of its [try] body. *)
Lemma main_of_try_body np_sin_pi_12 w :
  main np_sin_pi_12 w
  = match try_body np_sin_pi_12 (faults w) (clock_first w) (clock_second w)
            (random_state w) with
    | Returns _ => Returns 0
    | Raises e =>
        match first_fault (faults w) (HANDLER_ORDER e) with
        | Some e' => Raises e'
        | None => Returns (handle e)
        end
    | Diverges => Diverges
    end.
Proof.
  unfold main. cbv zeta beta.
  destruct (try_body _ _ _ _ _) as [[d rs']|e|]; try reflexivity.
  rewrite except_clauses_run.
  now destruct (first_fault (faults w) (HANDLER_ORDER e)).
Qed.

(** *** Every run ends *)



(** The [try] body in terms of its three parts: the constructor, the
    generation and the two closing lines. *)
Lemma try_body_of_generate np_sin_pi_12 env now_first now_second rs :
  try_body np_sin_pi_12 env now_first now_second rs
  = match first_fault env INIT_ORDER with
    | Some e => Raises e
    | None =>
        match generate_all_data np_sin_pi_12 env
                (init now_first now_second) rs with
        | Returns (datasets, rs') =>
            match first_fault env [PrintAt 297; PrintAt 298] with
            | Some e => Raises e
            | None => Returns (datasets, rs')
            end
        | Raises e => Raises e
        | Diverges => Diverges
        end
    end.
Proof.
  unfold try_body.
  rewrite (bind_eq _ _ _ _ (new_generator_run env now_first now_second rs)).
  destruct (first_fault env INIT_ORDER); [reflexivity|].
  unfold bind at 1.
  destruct (generate_all_data _ _ _ _) as [[datasets rs']|e|];
    try reflexivity.
  cbn [first_fault].
  rewrite bind_io. destruct (env (PrintAt 297)); [reflexivity|].
  rewrite bind_io. destruct (env (PrintAt 298)); reflexivity.
Qed.

(** *** The run in which the Parquet engine is missing *)

(** When everything before the Parquet file succeeds and writing that file
    raises [e], [generate_all_data] raises [e]. *)
Lemma generate_all_data_parquet_fault np_sin_pi_12 env self rs e :
  first_fault env
    [PrintAt 273;
     PrintAt 52; WriteTrafficCsv; PrintAt 97;
     PrintAt 101; WriteAirQualityJson; PrintAt 137;
     PrintAt 141] = None ->
  env WriteWeatherParquet = Some e ->
  generate_all_data np_sin_pi_12 env self rs = Raises e.
Proof.
  intros Hbefore Hparquet.
  apply first_fault_none in Hbefore.
  repeat match goal with
         | H : Forall _ (_ :: _) |- _ => inversion H; clear H; subst
         end.
  unfold generate_all_data.
  rewrite bind_io.
  match goal with H : env (PrintAt 273) = None |- _ => rewrite H end.
  destruct (satisfies_returns _ _
              (traffic_data_outcome (tape rs) self rs eq_refl))
    as (d1 & rs1 & Hrun1 & _).
  rewrite (bind_returns _ _ rs d1 rs1).
  2:{ apply wrapped_inv. split; [exact Hrun1|].
      apply first_fault_none. repeat constructor; assumption. }
  destruct (satisfies_returns _ _
              (air_quality_data_outcome (tape rs1) self rs1 eq_refl))
    as (d2 & rs2 & Hrun2 & _).
  rewrite (bind_returns _ _ rs1 d2 rs2).
  2:{ apply wrapped_inv. split; [exact Hrun2|].
      apply first_fault_none. repeat constructor; assumption. }
  destruct (satisfies_returns _ _
              (weather_data_outcome np_sin_pi_12 (tape rs2) self rs2 eq_refl))
    as (d3 & rs3 & Hrun3 & _).
  apply bind_raises. unfold generate_weather_data.
  rewrite (wrapped_run _ _ _ _ _ _ _ _ Hrun3). cbn [first_fault].
  match goal with H : env (PrintAt 141) = None |- _ => rewrite H end.
  now rewrite Hparquet.
Qed.

(** C2 (the code departs from it).  In a run where the modules are
    installed, the first two tables are written and the Parquet writer
    raises [ImportError], generation fails with [ImportError], yet [main]
    returns 0 and the script exits with status 0. *)
Theorem main_import_error_exit_status :
  (generator <- new_generator (faults import_error_world)
                  (clock_first import_error_world)
                  (clock_second import_error_world) ;;
   generate_all_data sample_sin_pi_12 (faults import_error_world) generator)
    (random_state import_error_world)
  = Raises ImportError /\
  main sample_sin_pi_12 import_error_world = Returns 0 /\
  script sample_sin_pi_12 import_error_world = Returns 0.
Proof.
  assert (Hall :
    forall self rs,
      generate_all_data sample_sin_pi_12 (faults import_error_world) self rs
      = Raises ImportError)
    by (intros self rs; now apply generate_all_data_parquet_fault).
  assert (Hbody :
    (generator <- new_generator (faults import_error_world)
                    (clock_first import_error_world)
                    (clock_second import_error_world) ;;
     generate_all_data sample_sin_pi_12 (faults import_error_world) generator)
      (random_state import_error_world)
    = Raises ImportError).
  { rewrite (bind_eq _ _ _ _ (new_generator_run _ _ _ _)).
    change (first_fault (faults import_error_world) INIT_ORDER)
      with (@None PyExn).
    apply Hall. }
  split; [exact Hbody|].
  assert (Hmain : main sample_sin_pi_12 import_error_world = Returns 0).
  { rewrite main_of_try_body.
    rewrite (try_body_of_generate sample_sin_pi_12
               (faults import_error_world)
               (clock_first import_error_world)
               (clock_second import_error_world)
               (random_state import_error_world)).
    change (first_fault (faults import_error_world) INIT_ORDER)
      with (@None PyExn).
    cbv iota.
    rewrite (Hall (init (clock_first import_error_world)
                     (clock_second import_error_world))
               (random_state import_error_world)).
    reflexivity. }
  split; [exact Hmain|].
  unfold script. rewrite Hmain. reflexivity.
Qed.

(** The other outcomes of the script: a failure that is not an
    [ImportError] gives status 1, and so does a module missing at import
    time, which ends the script before [main] is entered. *)
Example script_other_statuses :
  handle ZeroDivisionError = 1 /\ handle OSError = 1 /\ handle KeyError = 1 /\
  script sample_sin_pi_12
    {| modules_installed := false;
       clock_first := clock_first import_error_world;
       clock_second := clock_second import_error_world;
       faults := fun _ => None;
       random_state := sample_random_state |}
  = Returns 1.
Proof. repeat split. Qed.

(** * Further properties *)

(** *** Membership in the timestamp series *)

Lemma arithmetic_series_NoDup first step n :
  0 < step -> NoDup (arithmetic_series first step n).
Proof.
  intros Hstep. apply NoDup_nth_error. intros i j Hi Hij.
  rewrite arithmetic_series_length in Hi.
  rewrite arithmetic_series_nth in Hij by assumption.
  symmetry in Hij. apply arithmetic_series_nth_inv in Hij as [_ Heq].
  nia.
Qed.

Lemma timestamps_closed_In self interval_minutes t :
  0 < interval_minutes ->
  In t (arithmetic_series (start_time self)
          (timedelta_minutes interval_minutes)
          (steps_below (end_time self)
             (timedelta_minutes interval_minutes) (start_time self))) <->
  start_time self <= t < end_time self /\
  (timedelta_minutes interval_minutes | t - start_time self).
Proof.
  intros Hpos.
  pose proof (timedelta_minutes_pos _ Hpos) as Hstep.
  set (step := timedelta_minutes interval_minutes) in *.
  rewrite arithmetic_series_In. split.
  - intros (k & Hk & ->).
    apply steps_below_bound in Hk; [|assumption].
    repeat split; try lia; try nia.
    exists (Z.of_nat k). ring.
  - intros ([Hlow Hhigh] & q & Hq).
    assert (0 <= q) by nia.
    exists (Z.to_nat q). rewrite Z2Nat.id by assumption.
    split; [|lia].
    apply steps_below_bound; [assumption|]. rewrite Z2Nat.id; lia.
Qed.

Lemma series_fits_finer self m factor :
  0 < m ->
  0 < factor ->
  series_fits self (m * factor) ->
  series_fits self m.
Proof.
  intros Hm Hk Hfits Hw. destruct (Hfits Hw) as [Hdays Hsum].
  pose proof (timedelta_minutes_pos _ Hm) as Hstep.
  assert (Hmul : timedelta_minutes (m * factor)
                 = factor * timedelta_minutes m)
    by (unfold timedelta_minutes; ring).
  rewrite Hmul in Hsum. split.
  - assert (m / 1440 <= m * factor / 1440)
      by (apply Z.div_le_mono; nia).
    lia.
  - remember (steps_below (end_time self) (factor * timedelta_minutes m)
                (start_time self)) as nc eqn:Hnc.
    remember (steps_below (end_time self) (timedelta_minutes m)
                (start_time self)) as nf eqn:Hnf.
    remember (timedelta_minutes m) as step eqn:Hstepdef.
    assert (Hcoarse : ~ (start_time self + Z.of_nat nc * (factor * step)
                         < end_time self)).
    { intros Hlt. apply steps_below_bound in Hlt; [|nia].
      rewrite <- Hnc in Hlt. lia. }
    assert (Hle : Z.of_nat nf <= Z.of_nat nc * factor).
    { destruct (Z_le_gt_dec (Z.of_nat nf) (Z.of_nat nc * factor))
        as [H|H]; [exact H|exfalso].
      assert (Hlt : (Z.to_nat (Z.of_nat nc * factor) < nf)%nat) by nia.
      rewrite Hnf in Hlt. apply steps_below_bound in Hlt; [|assumption].
      rewrite Z2Nat.id in Hlt by nia. nia. }
    nia.
Qed.

(** When the series fits into datetime arithmetic, the loop returns exactly
    the instants of the window [start, end) that lie a whole number of
    intervals after start, each once. *)
Theorem generate_timestamps_membership self interval_minutes :
  is_datetime (start_time self) ->
  0 < interval_minutes ->
  series_fits self interval_minutes ->
  exists timestamps,
    generate_timestamps_bounded self interval_minutes = Returns timestamps /\
    NoDup timestamps /\
    forall t,
      In t timestamps <->
      start_time self <= t < end_time self /\
      (timedelta_minutes interval_minutes | t - start_time self).
Proof.
  intros Hstart Hpos Hfits.
  eexists.
  split; [now apply (generate_timestamps_bounded_pos self interval_minutes)|].
  split.
  - apply arithmetic_series_NoDup. now apply timedelta_minutes_pos.
  - intros t. now apply timestamps_closed_In.
Qed.

Lemma ten_minute_window_fits m :
  0 < m <= 30 -> series_fits ten_minute_window m.
Proof.
  intros Hm.
  apply series_fits_early_end; [exact ten_minute_window_start|lia|].
  unfold timedelta_minutes, MICROS_PER_MINUTE.
  change (end_time ten_minute_window) with 63845136600000000.
  change (DATETIME_MAX + 1) with 315537897600000000. lia.
Qed.

Lemma generate_timestamps_membership_witness :
  exists timestamps,
    generate_timestamps_bounded ten_minute_window 5 = Returns timestamps /\
    In (start_time ten_minute_window + timedelta_minutes 5) timestamps.
Proof.
  destruct (generate_timestamps_membership ten_minute_window 5
              ten_minute_window_start)
    as (timestamps & Hrun & _ & Hin);
    [lia|apply ten_minute_window_fits; lia|].
  exists timestamps. split; [exact Hrun|].
  apply Hin. split; [vm_compute; split; [discriminate|reflexivity]|].
  exists 1. ring.
Defined.

(** When the series fits into datetime arithmetic, it has as many elements
    as intervals fit into the window, rounded up, and none when the window
    is empty. *)
Theorem generate_timestamps_length self interval_minutes :
  is_datetime (start_time self) ->
  0 < interval_minutes ->
  series_fits self interval_minutes ->
  exists timestamps,
    generate_timestamps_bounded self interval_minutes = Returns timestamps /\
    Z.of_nat (length timestamps)
    = Z.max 0 ((end_time self - start_time self
                + timedelta_minutes interval_minutes - 1)
               / timedelta_minutes interval_minutes).
Proof.
  intros Hstart Hpos Hfits.
  eexists.
  split; [now apply (generate_timestamps_bounded_pos self interval_minutes)|].
  rewrite arithmetic_series_length. unfold steps_below. lia.
Qed.

Lemma generate_timestamps_length_witness :
  exists timestamps,
    generate_timestamps_bounded ten_minute_window 5 = Returns timestamps /\
    Z.of_nat (length timestamps) = 2.
Proof.
  destruct (generate_timestamps_length ten_minute_window 5
              ten_minute_window_start)
    as (timestamps & Hrun & Hlen);
    [lia|apply ten_minute_window_fits; lia|].
  exists timestamps. split; [exact Hrun|]. rewrite Hlen. reflexivity.
Defined.

(** When the series at a multiple of an interval fits into datetime
    arithmetic, so does the series at that interval, and it contains the
    coarser one: every weather timestamp is also an air-quality, an energy
    and a traffic timestamp. *)
Theorem generate_timestamps_coarser self interval_minutes factor :
  is_datetime (start_time self) ->
  0 < interval_minutes ->
  0 < factor ->
  series_fits self (interval_minutes * factor) ->
  exists coarse fine,
    generate_timestamps_bounded self (interval_minutes * factor)
    = Returns coarse /\
    generate_timestamps_bounded self interval_minutes = Returns fine /\
    incl coarse fine.
Proof.
  intros Hstart Hm Hk Hfits.
  assert (Hmk : 0 < interval_minutes * factor) by nia.
  pose proof (series_fits_finer self _ _ Hm Hk Hfits) as Hfine.
  eexists. eexists.
  split; [now apply (generate_timestamps_bounded_pos self _ Hstart Hmk)|].
  split; [now apply (generate_timestamps_bounded_pos self _ Hstart Hm)|].
  intros t Ht. apply timestamps_closed_In; [assumption|].
  apply timestamps_closed_In in Ht as [Hrange Hdiv]; [|assumption].
  split; [exact Hrange|].
  eapply Z.divide_trans; [|exact Hdiv].
  exists factor. unfold timedelta_minutes. ring.
Qed.

Lemma generate_timestamps_coarser_witness :
  exists weather traffic,
    generate_timestamps_bounded ten_minute_window 30 = Returns weather /\
    generate_timestamps_bounded ten_minute_window 5 = Returns traffic /\
    incl weather traffic.
Proof.
  apply (generate_timestamps_coarser ten_minute_window 5 6
           ten_minute_window_start); [lia|lia|].
  apply ten_minute_window_fits. lia.
Defined.

(** With an interval that is not positive the loop returns the empty list
    on an empty window; with a negative interval and a window that is not
    empty it never returns but raises [OverflowError], the instants walking
    down below [datetime.min] if the interval is a timedelta at all. *)
Theorem generate_timestamps_nonpositive_interval self interval_minutes :
  is_datetime (start_time self) ->
  (interval_minutes <= 0 ->
   end_time self <= start_time self ->
   generate_timestamps_bounded self interval_minutes = Returns []) /\
  (interval_minutes < 0 ->
   start_time self < end_time self ->
   generate_timestamps_bounded self interval_minutes = Raises OverflowError).
Proof.
  intros Hstart. unfold generate_timestamps_bounded. split.
  - intros _ Hempty.
    destruct (loop_budget_bounded_succ self interval_minutes) as [fuel ->].
    now apply timestamps_loop_bounded_done.
  - intros Hm Hwindow.
    apply timestamps_loop_bounded_neg; try assumption.
    unfold loop_budget_bounded. cbv zeta.
    assert (Hstep : timedelta_minutes interval_minutes < 0)
      by (unfold timedelta_minutes, MICROS_PER_MINUTE; lia).
    assert (H1 : (0 <? timedelta_minutes interval_minutes) = false)
      by (apply Z.ltb_ge; lia).
    assert (H2 : (timedelta_minutes interval_minutes <? 0) = true)
      by (apply Z.ltb_lt; lia).
    rewrite H1, H2. lia.
Qed.

Lemma generate_timestamps_nonpositive_interval_witness :
  generate_timestamps_bounded
    {| start_time := timedelta_minutes 10; end_time := timedelta_minutes 20 |}
    (-5)
  = Raises OverflowError /\
  generate_timestamps_bounded
    {| start_time := monday_midnight; end_time := monday_midnight |} 0
  = Returns [].
Proof.
  split.
  - apply (generate_timestamps_nonpositive_interval
             {| start_time := timedelta_minutes 10;
                end_time := timedelta_minutes 20 |} (-5)).
    + split; vm_compute; discriminate.
    + lia.
    + reflexivity.
  - apply (generate_timestamps_nonpositive_interval
             {| start_time := monday_midnight; end_time := monday_midnight |}
             0).
    + split; vm_compute; discriminate.
    + lia.
    + cbn [start_time end_time]. lia.
Defined.

(** *** Locations and rows in full *)

(** As [dataset_outcome], for a property [QL] of the whole location list. *)
Lemma dataset_layout {L R} (locations : M (list L))
    (reading : datetime -> L -> M R) (self : SmartCityDataGenerator)
    (interval_minutes : Z) (tp : Tape)
    (QL : list L -> Prop) (P : datetime -> L -> R -> Prop)
    (E : PyExn -> Prop) :
  0 < interval_minutes ->
  (forall rs, tape rs = tp ->
     satisfies (locations rs)
       (fun locs rs' => QL locs /\ tape rs' = tp) never) ->
  (forall locs t l rs, QL locs -> In l locs -> tape rs = tp ->
     satisfies (reading t l rs) (fun r rs' => P t l r /\ tape rs' = tp) E) ->
  forall rs, tape rs = tp ->
    satisfies
      ((locs <- locations ;;
        timestamps <- lift (generate_timestamps self interval_minutes) ;;
        rows <- for_each timestamps (fun timestamp =>
                  for_each locs (fun l => reading timestamp l)) ;;
        ret (concat rows)) rs)
      (fun records rs' =>
         exists locs timestamps rows,
           records = concat rows /\
           generate_timestamps self interval_minutes = Returns timestamps /\
           QL locs /\
           Forall2 (fun t row => Forall2 (P t) locs row) timestamps rows /\
           tape rs' = tp)
      E.
Proof.
  intros Hpos Hlocs Hread rs Htape.
  apply satisfies_bind.
  eapply satisfies_weaken; [apply (Hlocs rs Htape)| |contradiction].
  intros locs rs1 (HQL & Htape1).
  apply satisfies_bind.
  rewrite (generate_timestamps_closed self _ Hpos). cbn [lift satisfies].
  set (timestamps := arithmetic_series _ _ _).
  apply satisfies_bind.
  eapply satisfies_weaken;
    [apply (for_each_outcome
              (fun timestamp => for_each locs (fun l => reading timestamp l))
              (fun rs0 => tape rs0 = tp)
              (fun t row => Forall2 (P t) locs row) E timestamps)| |auto].
  - intros t rs0 _ Hrs0.
    apply (for_each_outcome (fun l => reading t l)
             (fun rs2 => tape rs2 = tp) (P t) E locs); [|exact Hrs0].
    intros l rs2 Hin. now apply (Hread locs).
  - exact Htape1.
  - intros rows rs2 [Hrows Htape2]. cbn.
    exists locs, timestamps, rows. repeat split; assumption.
Qed.

Lemma traffic_sensor_locations_layout tp rs :
  tape rs = tp ->
  satisfies (traffic_sensor_locations rs)
    (fun locs rs' =>
       Forall2 (traffic_sensor_post tp) (seq 1 50) locs /\ tape rs' = tp)
    never.
Proof.
  intros Htape. unfold traffic_sensor_locations.
  apply (for_each_outcome _ (fun rs0 => tape rs0 = tp)
           (traffic_sensor_post tp) never); [|exact Htape].
  intros i rs0 _ Hrs0. run_samplers. split; [|assumption].
  unfold traffic_sensor_post, drawn_position.
  cbn [TrafficSensor.sensor_id TrafficSensor.lat TrafficSensor.lon
       TrafficSensor.road_type].
  rewrite Hrs0. split; [reflexivity|]. split.
  - exists (cursor rs0). now split.
  - apply nth_In. apply Nat.mod_upper_bound. discriminate.
Qed.

Lemma air_quality_monitor_locations_layout tp rs :
  tape rs = tp ->
  satisfies (air_quality_monitor_locations rs)
    (fun locs rs' =>
       Forall2 (monitor_post tp) (seq 1 20) locs /\ tape rs' = tp)
    never.
Proof.
  intros Htape. unfold air_quality_monitor_locations.
  apply (for_each_outcome _ (fun rs0 => tape rs0 = tp)
           (monitor_post tp) never); [|exact Htape].
  intros i rs0 _ Hrs0. run_samplers. split; [|assumption].
  unfold monitor_post, drawn_position.
  cbn [Monitor.sensor_id Monitor.lat Monitor.lon].
  rewrite Hrs0. split; [reflexivity|].
  exists (cursor rs0). now split.
Qed.

Lemma weather_station_locations_layout tp rs :
  tape rs = tp ->
  satisfies (weather_station_locations rs)
    (fun locs rs' =>
       Forall2 (station_post tp) (seq 1 10) locs /\ tape rs' = tp)
    never.
Proof.
  intros Htape. unfold weather_station_locations.
  apply (for_each_outcome _ (fun rs0 => tape rs0 = tp)
           (station_post tp) never); [|exact Htape].
  intros i rs0 _ Hrs0. run_samplers. split; [|assumption].
  unfold station_post, drawn_position.
  cbn [Station.station_id Station.lat Station.lon].
  rewrite Hrs0. split; [reflexivity|].
  exists (cursor rs0). now split.
Qed.

Lemma energy_meter_locations_layout tp rs :
  tape rs = tp ->
  satisfies (energy_meter_locations rs)
    (fun locs rs' =>
       Forall2 (meter_post tp) (seq 1 200) locs /\ tape rs' = tp)
    never.
Proof.
  intros Htape. unfold energy_meter_locations.
  apply (for_each_outcome _ (fun rs0 => tape rs0 = tp)
           (meter_post tp) never); [|exact Htape].
  intros i rs0 _ Hrs0. run_samplers. split; [|assumption].
  unfold meter_post, drawn_position.
  cbn [Meter.meter_id Meter.lat Meter.lon Meter.building_type].
  rewrite Hrs0. split; [reflexivity|]. split.
  - exists (cursor rs0). now split.
  - apply nth_In. apply Nat.mod_upper_bound. discriminate.
Qed.

Lemma congestion_rush_levels count base :
  In (congestion_rush count base) ["high"; "medium"]%string.
Proof.
  unfold congestion_rush. destruct (Qltb _ _); simpl; auto.
Qed.

Lemma congestion_calm_levels count base :
  In (congestion_calm count base) ["low"; "medium"]%string.
Proof.
  unfold congestion_calm. destruct (Qltb _ _); simpl; auto.
Qed.

Lemma py_max_second a b : (b <= py_max a b)%Q.
Proof.
  unfold py_max. destruct (Qltb a b) eqn:H.
  - apply Qle_refl.
  - now apply Qltb_ge in H.
Qed.

Lemma traffic_reading_row tp timestamp sensor rs :
  tape rs = tp ->
  satisfies (traffic_reading timestamp sensor rs)
    (fun r rs' => traffic_row_post timestamp sensor r /\ tape rs' = tp)
    never.
Proof.
  intros Htape. unfold traffic_reading, traffic_row_post, rush_branch.
  destruct (is_rush_hour (hour timestamp) && negb (is_weekend timestamp));
    run_samplers;
    cbn [TrafficRecord.timestamp TrafficRecord.sensor_id
         TrafficRecord.location_lat TrafficRecord.location_lon
         TrafficRecord.road_type TrafficRecord.avg_speed
         TrafficRecord.congestion_level];
    (split; [|assumption]); repeat (split; [reflexivity|]).
  - split; [|apply congestion_rush_levels].
    eapply Qle_trans; [|apply py_max_second]. apply py_max_lower.
  - apply congestion_calm_levels.
Qed.

Lemma air_quality_reading_row tp timestamp monitor rs :
  tape rs = tp ->
  satisfies (air_quality_reading timestamp monitor rs)
    (fun r rs' => air_quality_row_post tp timestamp monitor r /\ tape rs' = tp)
    never.
Proof.
  intros Htape. unfold air_quality_reading, air_quality_row_post.
  run_samplers.
  cbn [AirQualityRecord.timestamp AirQualityRecord.sensor_id
       AirQualityRecord.location_lat AirQualityRecord.location_lon
       AirQualityRecord.pm25 AirQualityRecord.pm10 AirQualityRecord.no2
       AirQualityRecord.co AirQualityRecord.temperature].
  split; [|assumption]. repeat (split; [reflexivity|]).
  exists (cursor rs). rewrite Htape. cbv zeta. cbn [Nat.add].
  repeat split; reflexivity.
Qed.

Lemma weather_reading_row tp timestamp day_temp station rs :
  tape rs = tp ->
  satisfies (weather_reading timestamp day_temp station rs)
    (fun r rs' => weather_row_post tp timestamp station r /\ tape rs' = tp)
    never.
Proof.
  intros Htape. unfold weather_reading, weather_row_post.
  cbv [bind np_random_normal np_random_uniform np_random_exponential
       np_random_random advance].
  cbn [tape cursor].
  destruct (Qltb (std_uniform (tape rs) (S (S (S (S (cursor rs)))))) 0.1)
    eqn:Hchance;
    cbv [ret satisfies]; cbn [tape cursor];
    cbn [WeatherRecord.timestamp WeatherRecord.station_id
         WeatherRecord.location_lat WeatherRecord.location_lon
         WeatherRecord.humidity WeatherRecord.wind_speed
         WeatherRecord.wind_direction WeatherRecord.precipitation
         WeatherRecord.pressure];
    (split; [|assumption]); repeat (split; [reflexivity|]);
    exists (cursor rs); rewrite <- Htape; cbn [Nat.add];
    rewrite Hchance; repeat split; reflexivity.
Qed.

Lemma energy_reading_row tp timestamp meter rs :
  In (Meter.building_type meter) BUILDING_TYPES ->
  tape rs = tp ->
  satisfies (energy_reading timestamp meter rs)
    (fun r rs' => energy_row_post tp timestamp meter r /\ tape rs' = tp)
    (zero_voltage_raised tp).
Proof.
  intros Hbt Htape. unfold energy_reading, energy_row_post, energy_post.
  destruct (dict_getitem_building_type _ Hbt) as [base Hbase].
  apply satisfies_bind. rewrite Hbase. cbn [lift satisfies].
  apply satisfies_bind. cbv [np_random_uniform satisfies].
  apply satisfies_bind. cbv [np_random_normal satisfies advance].
  cbn [tape cursor].
  apply satisfies_bind.
  match goal with
  | |- context [py_truediv ?x ?y] =>
      destruct (py_truediv_outcome x y) as [[Hnz ->]|[Hz ->]]
  end; [|split; [reflexivity|exists (S (cursor rs)); now rewrite <- Htape]].
  cbn [lift satisfies]. run_samplers.
  cbn [EnergyRecord.timestamp EnergyRecord.meter_id
       EnergyRecord.location_lat EnergyRecord.location_lon
       EnergyRecord.building_type EnergyRecord.power_consumption
       EnergyRecord.voltage EnergyRecord.current EnergyRecord.power_factor].
  split; [|assumption]. repeat (split; [reflexivity|]).
  rewrite Htape in *. split.
  - split; [reflexivity|]. split; [reflexivity|]. split; [assumption|].
    exists base, (cursor rs). repeat split; try reflexivity; assumption.
  - eexists. reflexivity.
Qed.

(** *** The layout of the tables *)

Lemma nested_rows_In {T L R} (P : T -> L -> R -> Prop) ts locs rows :
  Forall2 (fun t row => Forall2 (P t) locs row) ts rows ->
  forall r, In r (concat rows) ->
    exists t l, In t ts /\ In l locs /\ P t l r.
Proof.
  induction 1 as [|t row ts rows Hrow _ IH]; intros r Hin.
  - contradiction.
  - cbn [concat] in Hin. apply in_app_or in Hin as [Hin|Hin].
    + assert (Hl : exists l, In l locs /\ P t l r).
      { clear -Hrow Hin. induction Hrow as [|l r0 locs row Hp _ IH].
        - contradiction.
        - destruct Hin as [<-|Hin].
          + exists l. split; [now left|assumption].
          + destruct (IH Hin) as (l' & Hl' & Hp').
            exists l'. split; [now right|assumption]. }
      destruct Hl as (l & Hl & Hp). exists t, l.
      split; [now left|]. now split.
    + destruct (IH r Hin) as (t' & l & Ht' & Hl & Hp).
      exists t', l. split; [now right|]. now split.
Qed.

Lemma Forall2_In_r {A B} (P : A -> B -> Prop) xs ys y :
  Forall2 P xs ys -> In y ys -> exists x, In x xs /\ P x y.
Proof.
  induction 1 as [|x y0 xs ys Hp _ IH]; intros Hin.
  - contradiction.
  - destruct Hin as [<-|Hin].
    + exists x. split; [now left|assumption].
    + destruct (IH Hin) as (x' & Hx' & Hp').
      exists x'. split; [now right|assumption].
Qed.

Lemma Forall2_map_eq {A B C} (f : A -> C) (g : B -> C) xs ys :
  Forall2 (fun a b => g b = f a) xs ys -> map g ys = map f xs.
Proof. induction 1; simpl; congruence. Qed.

(** The keys of the rows of a loop nest are the pairs of its two lists, the
    outer one varying slowest. *)
Lemma rows_as_product {T L R K} (kt : R -> T) (kl : R -> K) (proj : L -> K)
    ts locs rows :
  Forall2
    (fun t row => Forall2 (fun l r => kt r = t /\ kl r = proj l) locs row)
    ts rows ->
  map (fun r => (kt r, kl r)) (concat rows) = list_prod ts (map proj locs).
Proof.
  induction 1 as [|t row ts rows Hrow _ IH].
  - reflexivity.
  - cbn [concat list_prod]. rewrite map_app, IH. f_equal.
    clear -Hrow. induction Hrow as [|l r locs row [Ht Hl] _ IH].
    + reflexivity.
    + cbn [map]. rewrite IH, Ht, Hl. reflexivity.
Qed.

Lemma NoDup_list_prod {A B} (l : list A) (l' : list B) :
  NoDup l -> NoDup l' -> NoDup (list_prod l l').
Proof.
  intros Hl Hl'. induction Hl as [|x l Hx _ IH].
  - constructor.
  - cbn [list_prod]. apply NoDup_app.
    + apply NoDup_map_NoDup_ForallPairs; [|assumption].
      intros a b _ _ Hab. congruence.
    + assumption.
    + intros [a b] Hin Hin'.
      apply in_map_iff in Hin as (b' & Heq & _).
      apply in_prod_iff in Hin' as [Ha _]. congruence.
Qed.

Lemma distinctb_NoDup l : distinctb l = true -> NoDup l.
Proof.
  induction l as [|x l IH]; intros H; [constructor|].
  cbn [distinctb] in H. apply andb_true_iff in H as [Hx Hl].
  constructor; [|now apply IH].
  intros Hin. apply negb_true_iff in Hx.
  assert (existsb (String.eqb x) l = true); [|congruence].
  apply existsb_exists. exists x. split; [assumption|apply String.eqb_refl].
Qed.

Lemma traffic_data_layout tp self rs :
  tape rs = tp ->
  satisfies (traffic_data self rs)
    (fun records rs' =>
       exists locs timestamps rows,
         records = concat rows /\
         generate_timestamps self 5 = Returns timestamps /\
         Forall2 (traffic_sensor_post tp) (seq 1 50) locs /\
         Forall2 (fun t row => Forall2 (traffic_row_post t) locs row)
           timestamps rows /\
         tape rs' = tp)
    never.
Proof.
  apply (dataset_layout traffic_sensor_locations traffic_reading self 5 tp
           (Forall2 (traffic_sensor_post tp) (seq 1 50))
           traffic_row_post never).
  - reflexivity.
  - apply traffic_sensor_locations_layout.
  - intros locs t l rs0 _ _. apply traffic_reading_row.
Qed.

Lemma air_quality_data_layout tp self rs :
  tape rs = tp ->
  satisfies (air_quality_data self rs)
    (fun records rs' =>
       exists locs timestamps rows,
         records = concat rows /\
         generate_timestamps self 15 = Returns timestamps /\
         Forall2 (monitor_post tp) (seq 1 20) locs /\
         Forall2 (fun t row => Forall2 (air_quality_row_post tp t) locs row)
           timestamps rows /\
         tape rs' = tp)
    never.
Proof.
  apply (dataset_layout air_quality_monitor_locations air_quality_reading
           self 15 tp (Forall2 (monitor_post tp) (seq 1 20))
           (air_quality_row_post tp) never).
  - reflexivity.
  - apply air_quality_monitor_locations_layout.
  - intros locs t l rs0 _ _. apply air_quality_reading_row.
Qed.

Lemma energy_data_layout tp self rs :
  tape rs = tp ->
  satisfies (energy_data self rs)
    (fun records rs' =>
       exists locs timestamps rows,
         records = concat rows /\
         generate_timestamps self 10 = Returns timestamps /\
         Forall2 (meter_post tp) (seq 1 200) locs /\
         Forall2 (fun t row => Forall2 (energy_row_post tp t) locs row)
           timestamps rows /\
         tape rs' = tp)
    (zero_voltage_raised tp).
Proof.
  apply (dataset_layout energy_meter_locations energy_reading self 10 tp
           (Forall2 (meter_post tp) (seq 1 200))
           (energy_row_post tp) (zero_voltage_raised tp)).
  - reflexivity.
  - apply energy_meter_locations_layout.
  - intros locs t l rs0 Hlocs Hin. apply energy_reading_row.
    destruct (Forall2_In_r _ _ _ _ Hlocs Hin) as (i & _ & _ & _ & Hbt).
    exact Hbt.
Qed.

Lemma weather_data_layout np_sin_pi_12 tp self rs :
  tape rs = tp ->
  satisfies (weather_data np_sin_pi_12 self rs)
    (fun records rs' =>
       exists locs timestamps rows,
         records = concat rows /\
         generate_timestamps self 30 = Returns timestamps /\
         Forall2 (station_post tp) (seq 1 10) locs /\
         Forall2 (fun t row => Forall2 (weather_row_post tp t) locs row)
           timestamps rows /\
         tape rs' = tp)
    never.
Proof.
  intros Htape. unfold weather_data. apply satisfies_bind.
  eapply satisfies_weaken;
    [apply (weather_station_locations_layout tp rs Htape)| |auto].
  intros locs rs1 (Hlocs & Htape1).
  apply satisfies_bind.
  rewrite (generate_timestamps_closed self 30 eq_refl). cbn [lift satisfies].
  set (timestamps := arithmetic_series _ _ _).
  apply satisfies_bind.
  eapply satisfies_weaken;
    [apply (for_each_outcome (weather_at np_sin_pi_12 locs)
              (fun rs0 => tape rs0 = tp)
              (fun t row => Forall2 (weather_row_post tp t) locs row)
              never timestamps)| |auto].
  - intros t rs0 _ Hrs0. unfold weather_at. apply satisfies_bind.
    cbv [np_random_normal satisfies advance]. cbn [tape cursor].
    apply (for_each_outcome _ (fun rs2 => tape rs2 = tp)
             (weather_row_post tp t) never locs); [|exact Hrs0].
    intros l rs2 _. apply weather_reading_row.
  - exact Htape1.
  - intros rows rs2 [Hrows Htape2]. cbn.
    exists locs, timestamps, rows. repeat split; assumption.
Qed.

Lemma series_of_generator_NoDup self interval_minutes timestamps :
  0 < interval_minutes ->
  generate_timestamps self interval_minutes = Returns timestamps ->
  NoDup timestamps.
Proof.
  intros Hpos Hrun.
  rewrite (generate_timestamps_closed self _ Hpos) in Hrun.
  injection Hrun as <-.
  apply arithmetic_series_NoDup. now apply timedelta_minutes_pos.
Qed.

(** The traffic table lists, for each timestamp of the 5-minute series in
    turn, the fifty sensors TRAFFIC_001 to TRAFFIC_050 in order, every
    record carrying its sensor's position and road type unchanged; no
    (timestamp, sensor_id) pair occurs twice. *)
Theorem traffic_table_layout self rs :
  exists timestamps sensors records rs',
    generate_timestamps self 5 = Returns timestamps /\
    traffic_data self rs = Returns (records, rs') /\
    map TrafficSensor.sensor_id sensors = traffic_sensor_ids /\
    map (fun r =>
           (TrafficRecord.timestamp r,
            TrafficSensor.mk (TrafficRecord.sensor_id r)
              (TrafficRecord.location_lat r) (TrafficRecord.location_lon r)
              (TrafficRecord.road_type r)))
      records
    = list_prod timestamps sensors /\
    NoDup (map (fun r =>
                  (TrafficRecord.timestamp r, TrafficRecord.sensor_id r))
             records).
Proof.
  destruct (satisfies_returns _ _
              (traffic_data_layout (tape rs) self rs eq_refl))
    as (records & rs' & Hrun & locs & ts & rows & -> & Hts & Hlocs
        & Hrows & _).
  assert (Hids : map TrafficSensor.sensor_id locs = traffic_sensor_ids).
  { apply Forall2_map_eq. eapply Forall2_weaken; [exact Hlocs|].
    intros i s [Hid _]. exact Hid. }
  exists ts, locs, (concat rows), rs'.
  split; [exact Hts|]. split; [exact Hrun|]. split; [exact Hids|]. split.
  - rewrite <- (map_id locs).
    apply (rows_as_product _ _ (fun l => l)).
    eapply Forall2_weaken; [exact Hrows|]. cbv beta. intros t row Hrow.
    eapply Forall2_weaken; [exact Hrow|]. cbv beta.
    intros [id lat lon road] r (Ht & Hid & Hlat & Hlon & Hroad & _).
    cbn in *. now subst.
  - rewrite (rows_as_product TrafficRecord.timestamp TrafficRecord.sensor_id
               TrafficSensor.sensor_id ts locs rows).
    + apply NoDup_list_prod.
      * now apply (series_of_generator_NoDup self 5).
      * rewrite Hids. apply distinctb_NoDup. vm_compute. reflexivity.
    + eapply Forall2_weaken; [exact Hrows|]. cbv beta. intros t row Hrow.
      eapply Forall2_weaken; [exact Hrow|]. cbv beta.
      intros s r (Ht & Hid & _). now split.
Qed.

(** The air-quality table lists, for each timestamp of the 15-minute series
    in turn, the twenty monitors AQ_001 to AQ_020 in order, every record
    carrying its monitor's position unchanged; no (timestamp, sensor_id)
    pair occurs twice. *)
Theorem air_quality_table_layout self rs :
  exists timestamps monitors records rs',
    generate_timestamps self 15 = Returns timestamps /\
    air_quality_data self rs = Returns (records, rs') /\
    map Monitor.sensor_id monitors = air_quality_monitor_ids /\
    map (fun r =>
           (AirQualityRecord.timestamp r,
            Monitor.mk (AirQualityRecord.sensor_id r)
              (AirQualityRecord.location_lat r)
              (AirQualityRecord.location_lon r)))
      records
    = list_prod timestamps monitors /\
    NoDup (map (fun r =>
                  (AirQualityRecord.timestamp r, AirQualityRecord.sensor_id r))
             records).
Proof.
  destruct (satisfies_returns _ _
              (air_quality_data_layout (tape rs) self rs eq_refl))
    as (records & rs' & Hrun & locs & ts & rows & -> & Hts & Hlocs
        & Hrows & _).
  assert (Hids : map Monitor.sensor_id locs = air_quality_monitor_ids).
  { apply Forall2_map_eq. eapply Forall2_weaken; [exact Hlocs|].
    intros i s [Hid _]. exact Hid. }
  exists ts, locs, (concat rows), rs'.
  split; [exact Hts|]. split; [exact Hrun|]. split; [exact Hids|]. split.
  - rewrite <- (map_id locs).
    apply (rows_as_product _ _ (fun l => l)).
    eapply Forall2_weaken; [exact Hrows|]. cbv beta. intros t row Hrow.
    eapply Forall2_weaken; [exact Hrow|]. cbv beta.
    intros [id lat lon] r (Ht & Hid & Hlat & Hlon & _).
    cbn in *. now subst.
  - rewrite (rows_as_product AirQualityRecord.timestamp
               AirQualityRecord.sensor_id Monitor.sensor_id ts locs rows).
    + apply NoDup_list_prod.
      * now apply (series_of_generator_NoDup self 15).
      * rewrite Hids. apply distinctb_NoDup. vm_compute. reflexivity.
    + eapply Forall2_weaken; [exact Hrows|]. cbv beta. intros t row Hrow.
      eapply Forall2_weaken; [exact Hrow|]. cbv beta.
      intros s r (Ht & Hid & _). now split.
Qed.

(** The weather table lists, for each timestamp of the 30-minute series in
    turn, the ten stations WEATHER_001 to WEATHER_010 in order, every record
    carrying its station's position unchanged; no (timestamp, station_id)
    pair occurs twice. *)
Theorem weather_table_layout np_sin_pi_12 self rs :
  exists timestamps stations records rs',
    generate_timestamps self 30 = Returns timestamps /\
    weather_data np_sin_pi_12 self rs = Returns (records, rs') /\
    map Station.station_id stations = weather_station_ids /\
    map (fun r =>
           (WeatherRecord.timestamp r,
            Station.mk (WeatherRecord.station_id r)
              (WeatherRecord.location_lat r) (WeatherRecord.location_lon r)))
      records
    = list_prod timestamps stations /\
    NoDup (map (fun r =>
                  (WeatherRecord.timestamp r, WeatherRecord.station_id r))
             records).
Proof.
  destruct (satisfies_returns _ _
              (weather_data_layout np_sin_pi_12 (tape rs) self rs eq_refl))
    as (records & rs' & Hrun & locs & ts & rows & -> & Hts & Hlocs
        & Hrows & _).
  assert (Hids : map Station.station_id locs = weather_station_ids).
  { apply Forall2_map_eq. eapply Forall2_weaken; [exact Hlocs|].
    intros i s [Hid _]. exact Hid. }
  exists ts, locs, (concat rows), rs'.
  split; [exact Hts|]. split; [exact Hrun|]. split; [exact Hids|]. split.
  - rewrite <- (map_id locs).
    apply (rows_as_product _ _ (fun l => l)).
    eapply Forall2_weaken; [exact Hrows|]. cbv beta. intros t row Hrow.
    eapply Forall2_weaken; [exact Hrow|]. cbv beta.
    intros [id lat lon] r (Ht & Hid & Hlat & Hlon & _).
    cbn in *. now subst.
  - rewrite (rows_as_product WeatherRecord.timestamp
               WeatherRecord.station_id Station.station_id ts locs rows).
    + apply NoDup_list_prod.
      * now apply (series_of_generator_NoDup self 30).
      * rewrite Hids. apply distinctb_NoDup. vm_compute. reflexivity.
    + eapply Forall2_weaken; [exact Hrows|]. cbv beta. intros t row Hrow.
      eapply Forall2_weaken; [exact Hrow|]. cbv beta.
      intros s r (Ht & Hid & _). now split.
Qed.


(** *** Positions *)

Lemma drawn_position_in_city tp c lat lon :
  tape_in_range tp -> drawn_position tp c lat lon -> in_city lat lon.
Proof.
  intros Hrange [-> ->].
  destruct (Hrange c) as (H0 & H1 & _).
  destruct (Hrange (S c)) as (H0' & H1' & _).
  unfold in_city, CITY_LAT_MIN, CITY_LAT_MAX, CITY_LON_MIN, CITY_LON_MAX.
  repeat split; lra.
Qed.

(** On a tape whose uniform variates lie in [0,1), every record of every
    table is located inside the city's bounding box. *)
Theorem positions_within_city np_sin_pi_12 self rs :
  tape_in_range (tape rs) ->
  (exists records rs',
      traffic_data self rs = Returns (records, rs') /\
      Forall (fun r => in_city (TrafficRecord.location_lat r)
                         (TrafficRecord.location_lon r)) records) /\
  (exists records rs',
      air_quality_data self rs = Returns (records, rs') /\
      Forall (fun r => in_city (AirQualityRecord.location_lat r)
                         (AirQualityRecord.location_lon r)) records) /\
  (exists records rs',
      weather_data np_sin_pi_12 self rs = Returns (records, rs') /\
      Forall (fun r => in_city (WeatherRecord.location_lat r)
                         (WeatherRecord.location_lon r)) records) /\
  satisfies (energy_data self rs)
    (fun records _ =>
       Forall (fun r => in_city (EnergyRecord.location_lat r)
                          (EnergyRecord.location_lon r)) records)
    (zero_voltage_raised (tape rs)).
Proof.
  intros Hrange. split; [|split; [|split]].
  - destruct (satisfies_returns _ _
                (traffic_data_layout (tape rs) self rs eq_refl))
      as (records & rs' & Hrun & locs & ts & rows & -> & _ & Hlocs
          & Hrows & _).
    exists (concat rows), rs'. split; [exact Hrun|].
    apply Forall_forall. intros r Hr.
    destruct (nested_rows_In _ _ _ _ Hrows r Hr)
      as (t & s & _ & Hs & _ & _ & Hlat & Hlon & _).
    destruct (Forall2_In_r _ _ _ _ Hlocs Hs) as (i & _ & _ & [c Hc] & _).
    rewrite Hlat, Hlon. now apply (drawn_position_in_city (tape rs) c).
  - destruct (satisfies_returns _ _
                (air_quality_data_layout (tape rs) self rs eq_refl))
      as (records & rs' & Hrun & locs & ts & rows & -> & _ & Hlocs
          & Hrows & _).
    exists (concat rows), rs'. split; [exact Hrun|].
    apply Forall_forall. intros r Hr.
    destruct (nested_rows_In _ _ _ _ Hrows r Hr)
      as (t & s & _ & Hs & _ & _ & Hlat & Hlon & _).
    destruct (Forall2_In_r _ _ _ _ Hlocs Hs) as (i & _ & _ & [c Hc]).
    rewrite Hlat, Hlon. now apply (drawn_position_in_city (tape rs) c).
  - destruct (satisfies_returns _ _
                (weather_data_layout np_sin_pi_12 (tape rs) self rs eq_refl))
      as (records & rs' & Hrun & locs & ts & rows & -> & _ & Hlocs
          & Hrows & _).
    exists (concat rows), rs'. split; [exact Hrun|].
    apply Forall_forall. intros r Hr.
    destruct (nested_rows_In _ _ _ _ Hrows r Hr)
      as (t & s & _ & Hs & _ & _ & Hlat & Hlon & _).
    destruct (Forall2_In_r _ _ _ _ Hlocs Hs) as (i & _ & _ & [c Hc]).
    rewrite Hlat, Hlon. now apply (drawn_position_in_city (tape rs) c).
  - eapply satisfies_weaken;
      [apply (energy_data_layout (tape rs) self rs eq_refl)| |auto].
    intros records rs' (locs & ts & rows & -> & _ & Hlocs & Hrows & _).
    apply Forall_forall. intros r Hr.
    destruct (nested_rows_In _ _ _ _ Hrows r Hr)
      as (t & s & _ & Hs & _ & _ & Hlat & Hlon & _).
    destruct (Forall2_In_r _ _ _ _ Hlocs Hs) as (i & _ & _ & [c Hc] & _).
    rewrite Hlat, Hlon. now apply (drawn_position_in_city (tape rs) c).
Qed.

Lemma positions_within_city_witness :
  exists records rs',
    traffic_data ten_minute_window sample_random_state
    = Returns (records, rs') /\
    Forall (fun r => in_city (TrafficRecord.location_lat r)
                       (TrafficRecord.location_lon r)) records.
Proof.
  destruct (positions_within_city sample_sin_pi_12 ten_minute_window
              sample_random_state sample_tape_in_range) as [Htraffic _].
  exact Htraffic.
Defined.

(** *** Traffic levels and speeds *)

(** In every traffic record the road type is one of the four listed and the
    congestion level one of low, medium and high; "high" occurs only in
    weekday rush hours, where the average speed is at least 10, and "low"
    only outside them. *)
Theorem traffic_levels_by_branch self rs :
  exists records rs',
    traffic_data self rs = Returns (records, rs') /\
    Forall
      (fun r =>
         let level := TrafficRecord.congestion_level r in
         let rush := rush_branch (TrafficRecord.timestamp r) in
         In (TrafficRecord.road_type r) ROAD_TYPES /\
         In level ["low"; "medium"; "high"]%string /\
         (level = "high"%string -> rush = true) /\
         (level = "low"%string -> rush = false) /\
         (rush = true -> (10 <= TrafficRecord.avg_speed r)%Q))
      records.
Proof.
  destruct (satisfies_returns _ _
              (traffic_data_layout (tape rs) self rs eq_refl))
    as (records & rs' & Hrun & locs & ts & rows & -> & _ & Hlocs
        & Hrows & _).
  exists (concat rows), rs'. split; [exact Hrun|].
  apply Forall_forall. intros r Hr.
  destruct (nested_rows_In _ _ _ _ Hrows r Hr)
    as (t & s & _ & Hs & Ht & _ & _ & _ & Hroad & Hbranch).
  destruct (Forall2_In_r _ _ _ _ Hlocs Hs) as (i & _ & _ & _ & Hrt).
  cbv zeta. rewrite Ht, Hroad. split; [exact Hrt|].
  destruct (rush_branch t).
  - destruct Hbranch as [Hspeed Hlevel]. simpl in Hlevel.
    destruct Hlevel as [<-|[<-|[]]]; repeat split;
      simpl; auto; try discriminate.
  - simpl in Hbranch.
    destruct Hbranch as [<-|[<-|[]]]; repeat split;
      simpl; auto; try discriminate.
Qed.

Lemma traffic_levels_by_branch_witness :
  exists records rs',
    traffic_data ten_minute_window sample_random_state
    = Returns (records, rs') /\
    Forall (fun r => In (TrafficRecord.road_type r) ROAD_TYPES) records.
Proof.
  destruct (traffic_levels_by_branch ten_minute_window sample_random_state)
    as (records & rs' & Hrun & Hall).
  exists records, rs'. split; [exact Hrun|].
  eapply Forall_impl; [|exact Hall]. cbv beta zeta. intros r [H _]. exact H.
Defined.

(** *** Energy: load, power factor and current *)

Lemma energy_power_range building_type base hour weekend u :
  In building_type BUILDING_TYPES ->
  dict_getitem BASE_CONSUMPTION building_type = Returns base ->
  (0 <= u)%Q -> (u < 1)%Q ->
  let nominal := (base * consumption_factor building_type hour weekend)%Q in
  let power := (nominal * (0.7 + (1.3 - 0.7) * u))%Q in
  (nominal * 0.7 <= power)%Q /\ (power <= nominal * 1.3)%Q /\ (0 < power)%Q.
Proof.
  intros Hin Hbase H0 H1. simpl in Hin.
  pose proof (consumption_factor_table hour weekend)
    as (Hind & Hcom & Hoff & Hret & Hres).
  destruct Hin as [<-|[<-|[<-|[<-|[<-|[]]]]]];
    injection Hbase as <-; cbv zeta;
    rewrite ?Hind, ?Hcom, ?Hoff, ?Hret, ?Hres;
    repeat match goal with
           | |- context [if ?b then _ else _] => destruct b
           end;
    repeat split; lra.
Qed.

(** On a tape whose uniform variates lie in [0,1), every energy record's
    power_consumption lies between 0.7 and 1.3 times the base consumption
    of its building type times its consumption factor and is positive, its
    power_factor lies between 0.85 and 0.95. *)
Theorem energy_power_and_power_factor self rs :
  tape_in_range (tape rs) ->
  satisfies (energy_data self rs)
    (fun records _ =>
       Forall
         (fun r =>
            exists base,
              dict_getitem BASE_CONSUMPTION (EnergyRecord.building_type r)
              = Returns base /\
              let nominal :=
                (base *
                 consumption_factor (EnergyRecord.building_type r)
                   (hour (EnergyRecord.timestamp r))
                   (is_weekend (EnergyRecord.timestamp r)))%Q in
              (nominal * 0.7 <= EnergyRecord.power_consumption r)%Q /\
              (EnergyRecord.power_consumption r <= nominal * 1.3)%Q /\
              (0 < EnergyRecord.power_consumption r)%Q /\
              (0.85 <= EnergyRecord.power_factor r)%Q /\
              (EnergyRecord.power_factor r <= 0.95)%Q)
         records)
    (zero_voltage_raised (tape rs)).
Proof.
  intros Hrange.
  eapply satisfies_weaken;
    [apply (energy_data_layout (tape rs) self rs eq_refl)| |auto].
  intros records rs' (locs & ts & rows & -> & _ & _ & Hrows & _).
  eapply nested_rows_Forall; [exact Hrows|].
  intros t meter r (Ht & _ & _ & _ & _ & Hpost & c' & Hpf).
  destruct Hpost
    as (_ & _ & Hbt & base & c & Hbase & Hpower & _ & Hnz & Hcur).
  cbv beta. exists base. split; [exact Hbase|]. cbv zeta.
  destruct (Hrange c) as (H0 & H1 & _).
  destruct (Hrange c') as (H0' & H1' & _).
  destruct (energy_power_range _ _ (hour t) (is_weekend t) _ Hbt Hbase H0 H1)
    as (Hlow & Hhigh & Hposi).
  rewrite Ht, Hpower, Hpf.
  repeat split; try assumption; lra.
Qed.

Lemma energy_power_and_power_factor_witness :
  satisfies (energy_data ten_minute_window sample_random_state)
    (fun records _ =>
       Forall (fun r => (0 < EnergyRecord.power_consumption r)%Q) records)
    (zero_voltage_raised sample_tape).
Proof.
  eapply satisfies_weaken;
    [apply (energy_power_and_power_factor ten_minute_window sample_random_state
              sample_tape_in_range)| |auto].
  intros records rs' Hall. eapply Forall_impl; [|exact Hall].
  cbv beta zeta. intros r (base & _ & _ & _ & Hpos & _). exact Hpos.
Defined.

(** *** Weather: saturation and ranges *)

Lemma clamp_saturates lo hi h :
  (lo <= hi)%Q ->
  ((h <= lo)%Q -> (py_max lo (py_min hi h) == lo)%Q) /\
  ((lo <= h)%Q -> (h <= hi)%Q -> (py_max lo (py_min hi h) == h)%Q) /\
  ((hi <= h)%Q -> (py_max lo (py_min hi h) == hi)%Q).
Proof.
  intros Hlohi. unfold py_max, py_min.
  destruct (Qltb h hi) eqn:H1;
    [apply Qltb_lt in H1|apply Qltb_ge in H1];
    match goal with
    | |- context [Qltb ?a ?b] =>
        destruct (Qltb a b) eqn:H2;
          [apply Qltb_lt in H2|apply Qltb_ge in H2]
    end;
    repeat split; intros; lra.
Qed.

Lemma floor_inactive x : (0 <= x)%Q -> (py_max 0 x == x)%Q.
Proof.
  intros Hx. unfold py_max.
  destruct (Qltb 0 x) eqn:H; [reflexivity|].
  apply Qltb_ge in H. lra.
Qed.

(** On a tape whose variates lie in their documented ranges, in every
    weather record: humidity is the Normal(60, 15) sample cut off at 20 and
    at 100; wind_speed is the exponential sample itself, the floor at 0
    never acting; wind_direction lies between 0 and 360; and precipitation
    is exactly 0 unless the uniform draw is below 0.1, in which case it is
    the exponential sample of mean 0.5. *)
Theorem weather_fields np_sin_pi_12 self rs :
  tape_in_range (tape rs) ->
  exists records rs',
    weather_data np_sin_pi_12 self rs = Returns (records, rs') /\
    Forall
      (fun r =>
         exists c,
           let sample := (60 + 15 * std_normal (tape rs) (1 + c))%Q in
           let chance := std_uniform (tape rs) (4 + c) in
           ((sample <= 20)%Q -> (WeatherRecord.humidity r == 20)%Q) /\
           ((20 <= sample)%Q -> (sample <= 100)%Q ->
            (WeatherRecord.humidity r == sample)%Q) /\
           ((100 <= sample)%Q -> (WeatherRecord.humidity r == 100)%Q) /\
           (WeatherRecord.wind_speed r
            == 8 * std_exponential (tape rs) (2 + c))%Q /\
           (0 <= WeatherRecord.wind_direction r)%Q /\
           (WeatherRecord.wind_direction r <= 360)%Q /\
           ((0.1 <= chance)%Q -> WeatherRecord.precipitation r = 0%Q) /\
           ((chance < 0.1)%Q ->
            (WeatherRecord.precipitation r
             == 0.5 * std_exponential (tape rs) (5 + c))%Q))
      records.
Proof.
  intros Hrange.
  destruct (satisfies_returns _ _
              (weather_data_layout np_sin_pi_12 (tape rs) self rs eq_refl))
    as (records & rs' & Hrun & locs & ts & rows & -> & _ & _ & Hrows & _).
  exists (concat rows), rs'. split; [exact Hrun|].
  eapply nested_rows_Forall; [exact Hrows|].
  intros t station r (_ & _ & _ & _ & c & Hhum & Hwind & Hdir & Hrain).
  cbv beta. exists c. cbv zeta.
  destruct (clamp_saturates 20 100
              (60 + 15 * std_normal (tape rs) (1 + c))%Q)
    as (Hlow & Hmid & Hhigh); [discriminate|].
  destruct (Hrange (2 + c)%nat) as (_ & _ & Hwind0).
  destruct (Hrange (3 + c)%nat) as (Hdir0 & Hdir1 & _).
  destruct (Hrange (5 + c)%nat) as (_ & _ & Hrain0).
  rewrite Hhum, Hwind, Hdir.
  split; [exact Hlow|]. split; [exact Hmid|]. split; [exact Hhigh|].
  split; [apply floor_inactive; lra|].
  split; [lra|]. split; [lra|].
  destruct (Qltb (std_uniform (tape rs) (4 + c)) 0.1) eqn:Hchance;
    [apply Qltb_lt in Hchance|apply Qltb_ge in Hchance];
    destruct Hrain as [Hrain _]; rewrite Hrain; split; intros H.
  - lra.
  - apply floor_inactive. lra.
  - reflexivity.
  - lra.
Qed.

Lemma weather_fields_witness :
  exists records rs',
    weather_data sample_sin_pi_12 ten_minute_window sample_random_state
    = Returns (records, rs') /\
    Forall (fun r => (0 <= WeatherRecord.wind_direction r)%Q /\
                     (WeatherRecord.wind_direction r <= 360)%Q) records.
Proof.
  destruct (weather_fields sample_sin_pi_12 ten_minute_window
              sample_random_state sample_tape_in_range)
    as (records & rs' & Hrun & Hall).
  exists records, rs'. split; [exact Hrun|].
  eapply Forall_impl; [|exact Hall].
  cbv beta zeta. intros r (c & _ & _ & _ & _ & H0 & H1 & _). now split.
Defined.

(** *** Faults, in order *)

(** In a window that leaves room, the loop with Python's range checks
    returns the series of the loop without them. *)
Lemma window_series_agree self m :
  window_in_range self ->
  0 < m <= 30 ->
  generate_timestamps_bounded self m = generate_timestamps self m.
Proof.
  intros [Hstart Hend] [Hm Hm30].
  rewrite (generate_timestamps_closed self m Hm).
  apply (generate_timestamps_bounded_pos self m Hstart Hm).
  apply series_fits_early_end; [assumption|assumption|].
  revert Hend. unfold timedelta_minutes, MICROS_PER_MINUTE. lia.
Qed.

Lemma generate_city_zones_run env rs :
  generate_city_zones env rs
  = match first_fault env [PrintAt 245; WriteZonesCsv; PrintAt 269] with
    | Some e => Raises e
    | None => Returns (zones_data, rs)
    end.
Proof.
  unfold generate_city_zones. cbn [first_fault].
  rewrite bind_io. destruct (env (PrintAt 245)); [reflexivity|].
  rewrite bind_io. destruct (env WriteZonesCsv); [reflexivity|].
  rewrite bind_io. destruct (env (PrintAt 269)); reflexivity.
Qed.



(** A run of [generate_all_data] on a tape without zero voltage, in a window
    that leaves room: it raises the exception of the first file or console
    operation that fails, and returns the five complete tables when none
    does. *)
Lemma generate_all_data_run np_sin_pi_12 env self rs :
  window_in_range self ->
  (forall c, ~ (240 + 5 * std_normal (tape rs) c == 0)%Q) ->
  match first_fault env GENERATE_ORDER with
  | Some e => generate_all_data np_sin_pi_12 env self rs = Raises e
  | None =>
      exists datasets rs',
        generate_all_data np_sin_pi_12 env self rs = Returns (datasets, rs') /\
        tables_complete self datasets
  end.
Proof.
  intros Hroom Hnonzero.
  unfold generate_all_data, GENERATE_ORDER, BEFORE_ENERGY_ORDER,
    FROM_ENERGY_ORDER.
  cbn [app first_fault].
  rewrite bind_io.
  destruct (env (PrintAt 273)); [reflexivity|].
  destruct (satisfies_returns _ _
              (traffic_data_outcome (tape rs) self rs eq_refl))
    as (d1 & rs1 & Hrun1 & locs1 & ts1 & rows1 & -> & Hts1 & Hlen1 & Hrows1
        & Htape1).
  rewrite (bind_eq _ _ _ _
             (wrapped_run (traffic_data self) env (PrintAt 52) WriteTrafficCsv (PrintAt 97)
                _ _ _ Hrun1)).
  cbn [first_fault].
  destruct (env (PrintAt 52)); [reflexivity|].
  destruct (env WriteTrafficCsv); [reflexivity|].
  destruct (env (PrintAt 97)); [reflexivity|].
  destruct (satisfies_returns _ _
              (air_quality_data_outcome (tape rs1) self rs1 eq_refl))
    as (d2 & rs2 & Hrun2 & locs2 & ts2 & rows2 & -> & Hts2 & Hlen2 & Hrows2
        & Htape2).
  rewrite (bind_eq _ _ _ _
             (wrapped_run (air_quality_data self) env (PrintAt 101) WriteAirQualityJson (PrintAt 137)
                _ _ _ Hrun2)).
  cbn [first_fault].
  destruct (env (PrintAt 101)); [reflexivity|].
  destruct (env WriteAirQualityJson); [reflexivity|].
  destruct (env (PrintAt 137)); [reflexivity|].
  destruct (satisfies_returns _ _
              (weather_data_outcome np_sin_pi_12 (tape rs2) self rs2 eq_refl))
    as (d3 & rs3 & Hrun3 & ts3 & blocks & rows3 & -> & Hts3 & Hlen3 & Hrows3
        & _ & Htape3).
  rewrite (bind_eq _ _ _ _
             (wrapped_run (weather_data np_sin_pi_12 self) env (PrintAt 141) WriteWeatherParquet (PrintAt 178)
                _ _ _ Hrun3)).
  cbn [first_fault].
  destruct (env (PrintAt 141)); [reflexivity|].
  destruct (env WriteWeatherParquet); [reflexivity|].
  destruct (env (PrintAt 178)); [reflexivity|].
  assert (Hnonzero3 : forall c, ~ (240 + 5 * std_normal (tape rs3) c == 0)%Q)
    by (rewrite Htape3, Htape2, Htape1; exact Hnonzero).
  destruct (satisfies_returns _ _
              (energy_data_returns (tape rs3) self rs3 eq_refl Hnonzero3))
    as (d4 & rs4 & Hrun4 & locs4 & ts4 & rows4 & -> & Hts4 & Hlen4 & Hrows4
        & _).
  rewrite (bind_eq _ _ _ _
             (wrapped_run (energy_data self) env (PrintAt 182) WriteEnergyCsv (PrintAt 241)
                _ _ _ Hrun4)).
  cbn [first_fault].
  destruct (env (PrintAt 182)); [reflexivity|].
  destruct (env WriteEnergyCsv); [reflexivity|].
  destruct (env (PrintAt 241)); [reflexivity|].
  rewrite (bind_eq _ _ _ _ (generate_city_zones_run env rs4)).
  cbn [first_fault].
  destruct (env (PrintAt 245)); [reflexivity|].
  destruct (env WriteZonesCsv); [reflexivity|].
  destruct (env (PrintAt 269)); [reflexivity|].
  rewrite bind_io. destruct (env (PrintAt 281)); [reflexivity|].
  rewrite bind_io. destruct (env (PrintAt 282)); [reflexivity|].
  rewrite bind_io. destruct (env (PrintAt 283)); [reflexivity|].
  rewrite bind_io. destruct (env ListDataDir); [reflexivity|].
  rewrite bind_io. destruct (env (PrintAt 289)); [reflexivity|].
  eexists. eexists. split; [reflexivity|].
  exists ts1, ts2, ts3, ts4.
  rewrite !(window_series_agree self) by (assumption || lia).
  cbn [traffic_sensors_csv air_quality_json weather_data_parquet
       energy_meters_csv city_zones_csv].
  repeat split; try assumption.
  - rewrite (nested_rows_length _ _ _ _ Hrows1), Hlen1. reflexivity.
  - rewrite (nested_rows_length _ _ _ _ Hrows2), Hlen2. reflexivity.
  - rewrite (weather_rows_length _ _ _ _ Hrows3).
    now rewrite combine_length_same.
  - rewrite (nested_rows_length _ _ _ _ Hrows4), Hlen4. reflexivity.
Qed.

(** The [try] body of [main] on such a tape and window. *)
Lemma try_body_run np_sin_pi_12 env now_first now_second rs :
  window_in_range (init now_first now_second) ->
  (forall c, ~ (240 + 5 * std_normal (tape rs) c == 0)%Q) ->
  match first_fault env TRY_ORDER with
  | Some e => try_body np_sin_pi_12 env now_first now_second rs = Raises e
  | None =>
      exists datasets rs',
        try_body np_sin_pi_12 env now_first now_second rs
        = Returns (datasets, rs') /\
        tables_complete (init now_first now_second) datasets
  end.
Proof.
  intros Hroom Hnonzero.
  rewrite try_body_of_generate. unfold TRY_ORDER.
  rewrite !first_fault_app.
  destruct (first_fault env INIT_ORDER); [reflexivity|].
  pose proof (generate_all_data_run np_sin_pi_12 env
                (init now_first now_second) rs Hroom Hnonzero) as Hrun.
  destruct (first_fault env GENERATE_ORDER).
  - now rewrite Hrun.
  - destruct Hrun as (datasets & rs' & -> & Htables).
    destruct (first_fault env [PrintAt 297; PrintAt 298]); [reflexivity|].
    now exists datasets, rs'.
Qed.

(** When no file or console operation fails, no sampled voltage is zero and
    the window leaves room for datetime arithmetic, [generate_all_data]
    returns the five tables, each with one record per timestamp of its
    series and location, and the eight zones. *)
Theorem generate_all_data_tables np_sin_pi_12 env self rs :
  window_in_range self ->
  (forall step, env step = None) ->
  (forall c, ~ (240 + 5 * std_normal (tape rs) c == 0)%Q) ->
  exists datasets rs',
    generate_all_data np_sin_pi_12 env self rs = Returns (datasets, rs') /\
    tables_complete self datasets.
Proof.
  intros Hroom Henv Hnonzero.
  pose proof (generate_all_data_run np_sin_pi_12 env self rs Hroom Hnonzero)
    as H.
  replace (first_fault env GENERATE_ORDER) with (@None PyExn) in H;
    [exact H|].
  symmetry. apply first_fault_none. apply Forall_forall. intros step _.
  apply Henv.
Qed.

Lemma ten_minute_window_in_range : window_in_range ten_minute_window.
Proof.
  split; [exact ten_minute_window_start|]. vm_compute. discriminate.
Qed.

Lemma generate_all_data_tables_witness :
  exists datasets rs',
    generate_all_data sample_sin_pi_12 (fun _ => None) ten_minute_window
      sample_random_state = Returns (datasets, rs') /\
    tables_complete ten_minute_window datasets.
Proof.
  apply generate_all_data_tables.
  - exact ten_minute_window_in_range.
  - reflexivity.
  - exact sample_tape_voltage_nonzero.
Defined.

(** On a tape without zero voltage and with a clock that leaves room for
    datetime arithmetic, the outcome of [main] is decided by the first file
    or console operation of its [try] statement that fails, directory
    creation first: when none fails, [main] returns 0; otherwise the
    [except] clause of that exception runs, and [main] returns 0 for an
    [ImportError] and 1 for any other exception unless a [print] of the
    clause fails in turn, in which case the exception of that [print]
    leaves [main]. *)
Theorem main_exit_status np_sin_pi_12 w :
  window_in_range (init (clock_first w) (clock_second w)) ->
  (forall c, ~ (240 + 5 * std_normal (tape (random_state w)) c == 0)%Q) ->
  main np_sin_pi_12 w
  = match first_fault (faults w) TRY_ORDER with
    | None => Returns 0
    | Some e =>
        match first_fault (faults w) (HANDLER_ORDER e) with
        | None => Returns (handle e)
        | Some e' => Raises e'
        end
    end.
Proof.
  intros Hroom Hnonzero. rewrite main_of_try_body.
  pose proof (try_body_run np_sin_pi_12 (faults w) (clock_first w)
                (clock_second w) (random_state w) Hroom Hnonzero) as Hrun.
  destruct (first_fault (faults w) TRY_ORDER) as [e|].
  - rewrite Hrun.
    now destruct (first_fault (faults w) (HANDLER_ORDER e)).
  - destruct Hrun as (datasets & rs' & -> & _). reflexivity.
Qed.

Lemma sample_world_in_range env :
  window_in_range
    (init (clock_first (sample_world env)) (clock_second (sample_world env))).
Proof. split; [split|]; vm_compute; discriminate. Qed.

Lemma main_exit_status_witness :
  main sample_sin_pi_12 (sample_world (fun _ => None)) = Returns 0 /\
  main sample_sin_pi_12 (sample_world disk_full) = Returns 1 /\
  main sample_sin_pi_12 (sample_world ascii_console)
  = Raises UnicodeEncodeError.
Proof.
  split; [|split].
  - rewrite (main_exit_status sample_sin_pi_12 (sample_world (fun _ => None))
               (sample_world_in_range _) sample_tape_voltage_nonzero).
    reflexivity.
  - rewrite (main_exit_status sample_sin_pi_12 (sample_world disk_full)
               (sample_world_in_range _) sample_tape_voltage_nonzero).
    reflexivity.
  - rewrite (main_exit_status sample_sin_pi_12 (sample_world ascii_console)
               (sample_world_in_range _) sample_tape_voltage_nonzero).
    reflexivity.
Defined.




(** *** Records and the window *)

Lemma generated_timestamp_in_window self interval_minutes timestamps t :
  0 < interval_minutes ->
  generate_timestamps self interval_minutes = Returns timestamps ->
  In t timestamps ->
  start_time self <= t < end_time self.
Proof.
  intros Hpos Hrun Hin.
  rewrite (generate_timestamps_closed self _ Hpos) in Hrun.
  assert (Heq : arithmetic_series (start_time self)
                  (timedelta_minutes interval_minutes)
                  (steps_below (end_time self)
                     (timedelta_minutes interval_minutes) (start_time self))
                = timestamps) by congruence.
  rewrite <- Heq in Hin.
  now apply timestamps_closed_In in Hin as [Hrange _].
Qed.

(** Every record of every table is stamped with an instant of the
    generator's window: not before start_time and strictly before
    end_time. *)
Theorem records_within_window np_sin_pi_12 self rs :
  (exists records rs',
      traffic_data self rs = Returns (records, rs') /\
      Forall (fun r => start_time self <= TrafficRecord.timestamp r
                       < end_time self) records) /\
  (exists records rs',
      air_quality_data self rs = Returns (records, rs') /\
      Forall (fun r => start_time self <= AirQualityRecord.timestamp r
                       < end_time self) records) /\
  (exists records rs',
      weather_data np_sin_pi_12 self rs = Returns (records, rs') /\
      Forall (fun r => start_time self <= WeatherRecord.timestamp r
                       < end_time self) records) /\
  satisfies (energy_data self rs)
    (fun records _ =>
       Forall (fun r => start_time self <= EnergyRecord.timestamp r
                        < end_time self) records)
    (zero_voltage_raised (tape rs)).
Proof.
  split; [|split; [|split]].
  - destruct (satisfies_returns _ _
                (traffic_data_layout (tape rs) self rs eq_refl))
      as (records & rs' & Hrun & locs & ts & rows & -> & Hts & _ & Hrows & _).
    exists (concat rows), rs'. split; [exact Hrun|].
    apply Forall_forall. intros r Hr.
    destruct (nested_rows_In _ _ _ _ Hrows r Hr) as (t & s & Ht & _ & -> & _).
    now apply (generated_timestamp_in_window self 5 ts).
  - destruct (satisfies_returns _ _
                (air_quality_data_layout (tape rs) self rs eq_refl))
      as (records & rs' & Hrun & locs & ts & rows & -> & Hts & _ & Hrows & _).
    exists (concat rows), rs'. split; [exact Hrun|].
    apply Forall_forall. intros r Hr.
    destruct (nested_rows_In _ _ _ _ Hrows r Hr) as (t & s & Ht & _ & -> & _).
    now apply (generated_timestamp_in_window self 15 ts).
  - destruct (satisfies_returns _ _
                (weather_data_layout np_sin_pi_12 (tape rs) self rs eq_refl))
      as (records & rs' & Hrun & locs & ts & rows & -> & Hts & _ & Hrows & _).
    exists (concat rows), rs'. split; [exact Hrun|].
    apply Forall_forall. intros r Hr.
    destruct (nested_rows_In _ _ _ _ Hrows r Hr) as (t & s & Ht & _ & -> & _).
    now apply (generated_timestamp_in_window self 30 ts).
  - eapply satisfies_weaken;
      [apply (energy_data_layout (tape rs) self rs eq_refl)| |auto].
    intros records rs' (locs & ts & rows & -> & Hts & _ & Hrows & _).
    apply Forall_forall. intros r Hr.
    destruct (nested_rows_In _ _ _ _ Hrows r Hr) as (t & s & Ht & _ & -> & _).
    now apply (generated_timestamp_in_window self 10 ts).
Qed.
